(** * The big-number codec and the marshalling shims of yicesJNI.cpp

    A shallow embedding of the parts of
    [src/main/java/com/sri/yices/yicesJNI.cpp] that carry logic of their
    own: the conversion between GMP integers and Java [BigInteger] byte
    arrays, the rational constructor, the variadic connectives with their
    two marshalling paths, and the polynomial constructors.

    Numbers are [Z].  A [jbyte] is a [Z] in [-128, 127], a [jint] or
    [jlong] a [Z] in its range.  Memory that more than one party can see
    (Java arrays, the element views the JVM hands out, blocks obtained with
    [new] whose address is passed on) lives in a store indexed by
    locations; a pointer is a location, the null pointer is [None].

    The JNI functions follow the JNI specification:
    [Get<Type>ArrayElements] may fail, may return a pointer into the array
    itself, or may return a copy, as the JVM chooses, and
    [Release<Type>ArrayElements] copies back or discards only a copy.  The
    JVM's choices and the success of allocations are part of the
    environment, so a statement about every environment covers every JVM.
    The environment also records the element views not yet released and a
    trace of the calls that matter: out-of-memory errors raised,
    [mpq_canonicalize], and the calls into the solver. *)

From Stdlib Require Import ZArith Lia List Bool.
From stdpp Require Import base option list gmap.

Local Open Scope Z_scope.

(** ** Bytes *)

Module Bytes.

(** [(uint8_t) b] for a [jbyte] (or any integer) [b]. *)
Definition to_uint8 (b : Z) : Z := b mod 256.

(** Storing an unsigned value into a [jbyte]: the low eight bits, read as
    a signed byte. *)
Definition to_jbyte (x : Z) : Z :=
  let u := x mod 256 in if u <? 128 then u else u - 256.

Definition is_jbyte (b : Z) : Prop := -128 <= b <= 127.

Definition is_jbyteb (b : Z) : bool := (-128 <=? b) && (b <=? 127).

End Bytes.

Import Bytes.

(** ** The GMP operations the shim uses

    GMP keeps an integer as a sign and a magnitude.  The functions below
    follow the GMP manual for the argument values that the source passes
    ([order = 1], [size = 1], [endian = 0], [nails = 0]: one byte per word,
    most significant word first). *)

Module Gmp.

(** [mpz_sizeinbase(z, 2)]: the number of bits of the magnitude, and 1
    for zero. *)
Definition mpz_sizeinbase2 (z : Z) : Z :=
  if z =? 0 then 1 else Z.log2 (Z.abs z) + 1.

Definition mpz_sgn (z : Z) : Z := Z.sgn z.

Definition mpz_neg (z : Z) : Z := - z.

(** The [n] low bytes of [m], most significant first, as unsigned
    values. *)
Fixpoint be_bytes (n : nat) (m : Z) : list Z :=
  match n with
  | O => []
  | S k => be_bytes k (m / 256) ++ [m mod 256]
  end.

(** Number of words [mpz_export] produces: none for zero. *)
Definition export_count (z : Z) : nat :=
  if z =? 0 then O else Z.to_nat ((mpz_sizeinbase2 z + 7) / 8).

(** The bytes [mpz_export(rop, NULL, 1, 1, 0, 0, z)] writes at [rop], as
    the [jbyte] values a later read of the buffer sees. *)
Definition mpz_export (z : Z) : list Z :=
  to_jbyte <$> be_bytes (export_count z) (Z.abs z).

(** The unsigned big-endian value of a byte sequence. *)
Definition be_val (bs : list Z) : Z :=
  fold_left (fun acc b => acc * 256 + to_uint8 b) bs 0.

(** [mpz_import(z, n, 1, 1, 0, 0, b)]: the magnitude read from the first
    [n] bytes of [b]. *)
Definition mpz_import (n : nat) (b : list Z) : Z := be_val (take n b).

(** [mpq_canonicalize] on a fraction with a nonzero denominator: common
    factors removed, denominator made positive. *)
Definition mpq_canonicalize (q : Z * Z) : Z * Z :=
  let '(n, d) := q in
  let g := Z.gcd n d in
  let n' := n / g in
  let d' := d / g in
  if d' <? 0 then (- n', - d') else (n', d').

End Gmp.

Import Gmp.

(** ** The codec, on buffers *)

(** The loop of [negate_bytes]: [k] is the loop variable before its
    decrement, [c] the carry. *)
Fixpoint negate_loop (k : nat) (c : Z) (b : list Z) : list Z :=
  match k with
  | O => b
  | S k' =>
      let x := Z.lxor (to_uint8 (b !!! k')) 255 + c in
      let b' := <[k' := to_jbyte (Z.land x 255)]> b in
      let c' := Z.shiftr x 8 in
      if decide (0 < k')%nat then negate_loop k' c' b' else b'
  end.

(** [negate_bytes(b, n)]: two's-complement negation of [b[0 .. n-1]] in
    place.  With [n = 0] the do-while loop starts by decrementing [k] below
    zero and writes outside the block, and so does an [n] beyond the block:
    both are undefined, [None].  ([unsigned k = n] keeps [n]: every caller
    passes a Java array length or an [nbytes] checked against
    [INT32_MAX].) *)
Definition negate_bytes (b : list Z) (n : nat) : option (list Z) :=
  if decide (0 < n <= length b)%nat then Some (negate_loop n 1 b) else None.

(** [byte_array_to_mpz(z, b, n)]: the integer stored in [z] and the buffer
    as the call leaves it.  Reading [b[0]] of an empty block is undefined. *)
Definition byte_array_to_mpz (b : list Z) (n : nat) : option (Z * list Z) :=
  match b !! 0%nat with
  | None => None
  | Some b0 =>
      if b0 <? 0 then
        match negate_bytes b n with
        | Some b' => Some (mpz_neg (mpz_import n b'), b')
        | None => None
        end
      else Some (mpz_import n b, b)
  end.

(** Writing [data] at offset [off] of a block. *)
Definition write_at (off : nat) (data buf : list Z) : list Z :=
  take off buf ++ data ++ drop (off + length data) buf.

(** The test of [mpz_to_byte_array] for a redundant first byte:
    [(aux[0] == 0 && aux[1] >= 0) || (aux[0] == -1 && aux[1] < 0)]. *)
Definition redundant (aux : list Z) : bool :=
  let a0 := aux !!! 0%nat in
  let a1 := aux !!! 1%nat in
  ((a0 =? 0) && (0 <=? a1)) || ((a0 =? -1) && (a1 <? 0)).

(** [nbytes] of [mpz_to_byte_array]: one more than the bytes of the
    magnitude. *)
Definition nbytes_of (z : Z) : Z :=
  let nbits := mpz_sizeinbase2 z in
  Z.shiftr (nbits + 7) 3 + 1.

(** The work [mpz_to_byte_array] does on its scratch block [aux] once the
    block is chosen: fill it, negate it for a negative [z], and select the
    [nbytes - r] bytes from [aux + r] that go into the Java array. *)
Definition encode_scratch (z : Z) (nbytes : nat) (aux : list Z)
  : option (list Z) :=
  let aux := <[0%nat := 0]> aux in
  let aux := <[1%nat := 0]> aux in
  let aux := write_at 1 (mpz_export z) aux in
  match (if mpz_sgn z <? 0 then negate_bytes aux nbytes else Some aux) with
  | None => None
  | Some aux =>
      let r := if redundant aux then 1%nat else 0%nat in
      Some (take (nbytes - r) (drop r aux))
  end.

Definition INT32_MAX : Z := 2147483647.

(** What the encoder produces for [z] when nothing fails, from a zeroed
    scratch block: used to state properties of the byte sequence itself. *)
Definition encode (z : Z) : option (list Z) :=
  let n := Z.to_nat (nbytes_of z) in
  encode_scratch z n (replicate (Nat.max 32 n) 0).

(** The two's-complement value of a byte sequence, most significant byte
    first: the reading Java's [BigInteger(byte[])] gives it. *)
Definition sval (bs : list Z) : Z :=
  match bs with
  | [] => 0
  | b0 :: _ => be_val bs - (if b0 <? 0 then 256 ^ Z.of_nat (length bs) else 0)
  end.

(** A sequence is minimal when its first byte is not a redundant sign
    extension of the second. *)
Definition minimal (bs : list Z) : bool :=
  match bs with
  | [] => false
  | [_] => true
  | _ => negb (redundant bs)
  end.

(** A block of well-formed [jbyte]s. *)
Definition jbytes (bs : list Z) : bool := forallb is_jbyteb bs.

(** The integer the decoder computes from a whole block. *)
Definition decoded (bs : list Z) : option Z :=
  fst <$> byte_array_to_mpz bs (length bs).

(** The examples in the comment above [negate_bytes] in the source: the
    number, its bytes as Java shows them, and the same bytes unsigned. *)
Definition canonical_examples : list (Z * list Z * list Z) :=
  [ (127, [127], [0x7F]);
    (-127, [-127], [0x81]);
    (128, [0; -128], [0x00; 0x80]);
    (-128, [-128], [0x80]);
    (255, [0; -1], [0x00; 0xFF]);
    (-255, [-1; 1], [0xFF; 0x01]);
    (256, [1; 0], [0x01; 0x00]);
    (-256, [-1; 0], [0xFF; 0x00]);
    (0, [0], [0x00]) ].

(** ** The solver library

    The entry points of Yices the modelled shims call.  A result of [None]
    stands for the out-of-memory handler throwing [std::bad_alloc] out of
    the call.  The variadic connectives may rewrite the array they are
    given, so they also return its cells as they leave them.  Each shim
    calls the library at most once, so a function of the arguments
    describes any solver at the moment of that call. *)
Record yices_lib := {
  yices_mpz : Z -> option Z;
  yices_mpq : Z * Z -> option Z;
  yices_and : list Z -> list Z * option Z;
  yices_or : list Z -> list Z * option Z;
  yices_xor : list Z -> list Z * option Z;
  yices_distinct : list Z -> list Z * option Z;
  yices_poly_int64 : list Z -> list Z -> option Z;
  yices_poly_rational64 : list Z -> list Z -> list Z -> option Z
}.

(** ** The JNI environment *)

Definition loc := nat.

(** What the JVM answers to [Get<Type>ArrayElements]: no memory ([NULL]),
    a pointer into the array's own storage, or a pointer to a copy. *)
Inductive elems_choice := ElemsNull | ElemsDirect | ElemsCopy.

(** The [mode] argument of [Release<Type>ArrayElements]. *)
Inductive release_mode := JNI_COPY_BACK | JNI_COMMIT | JNI_ABORT.

(** Calls into the solver library, with the argument values it receives. *)
Inductive native_call :=
| Call_mpz (z : Z)
| Call_mpq (q : Z * Z)
| Call_and (a : list Z)
| Call_or (a : list Z)
| Call_xor (a : list Z)
| Call_distinct (a : list Z)
| Call_poly_int64 (c t : list Z)
| Call_poly_rational64 (p q t : list Z).

Inductive event :=
| OutOfMem                       (* out_of_mem_exception(env) *)
| Canonicalize (q : Z * Z)       (* mpq_canonicalize(q) *)
| Native (c : native_call).

Record jni := Jni {
  heap : gmap loc (list Z);       (* Java arrays and native blocks *)
  views : list (loc * loc);       (* element views not yet released: (array, pointer) *)
  jvm_elems : list elems_choice;  (* the JVM's answers to the coming Get...Elements *)
  allocs : list bool;             (* whether the coming allocations succeed *)
  junk : nat -> Z;                (* what uninitialised memory holds *)
  trace : list event
}.

Definition with_heap (h : gmap loc (list Z)) (s : jni) : jni :=
  Jni h (views s) (jvm_elems s) (allocs s) (junk s) (trace s).
Definition with_views (v : list (loc * loc)) (s : jni) : jni :=
  Jni (heap s) v (jvm_elems s) (allocs s) (junk s) (trace s).
Definition with_jvm_elems (c : list elems_choice) (s : jni) : jni :=
  Jni (heap s) (views s) c (allocs s) (junk s) (trace s).
Definition with_allocs (a : list bool) (s : jni) : jni :=
  Jni (heap s) (views s) (jvm_elems s) a (junk s) (trace s).
Definition log (e : event) (s : jni) : jni :=
  Jni (heap s) (views s) (jvm_elems s) (allocs s) (junk s) (trace s ++ [e]).

(** A call either returns a value in a new state or has no defined
    behaviour (a null or dangling pointer is used, a block is overrun). *)
Inductive outcome (A : Type) :=
| Done (a : A) (s : jni)
| Undefined.
Arguments Done {A} a s.
Arguments Undefined {A}.

Definition M (A : Type) : Type := jni -> outcome A.

Definition ret {A} (a : A) : M A := fun s => Done a s.

Definition bind {A B} (m : M A) (k : A -> M B) : M B :=
  fun s => match m s with
           | Done a s' => k a s'
           | Undefined => Undefined
           end.

Global Instance jni_ret : MRet M := @ret.
Global Instance jni_bind : MBind M := fun A B k m => bind m k.

Definition undefined {A} : M A := fun _ => Undefined.

Definition emit (e : event) : M unit := fun s => Done tt (log e s).

(** [out_of_mem_exception(env)]: a Java out-of-memory error becomes
    pending. Which class is thrown is not modelled. *)
Definition out_of_mem_exception : M unit := emit OutOfMem.

(** An uninitialised block of [n] cells. *)
Definition uninit (s : jni) (n : nat) : list Z := junk s <$> seq 0 n.

(** The cells of [old] overwritten by [new], never beyond [old]. *)
Definition within (old new : list Z) : list Z :=
  take (length old) new ++ drop (length new) old.

Definition next_choice (s : jni) : elems_choice * list elems_choice :=
  match jvm_elems s with
  | [] => (ElemsCopy, [])
  | c :: cs => (c, cs)
  end.

Definition next_alloc (s : jni) : bool * list bool :=
  match allocs s with
  | [] => (true, [])
  | a :: rest => (a, rest)
  end.

(** Every coming allocation succeeds. *)
Definition allocs_ok (s : jni) : bool := forallb id (allocs s).

(** The JVM has memory for every coming element view. *)
Definition views_granted (s : jni) : bool :=
  forallb (fun c => match c with ElemsNull => false | _ => true end)
    (jvm_elems s).

(** The handle [a] is a Java [byte[]] of at least one byte holding [bs]. *)
Definition byte_array_at (s : jni) (a : loc) (bs : list Z) : bool :=
  bool_decide (heap s !! a = Some bs) && bool_decide (1 <= length bs)%nat
  && jbytes bs.

Definition GetArrayLength (a : loc) : M nat :=
  fun s => match heap s !! a with
           | Some l => Done (length l) s
           | None => Undefined
           end.

(** [Get<Type>ArrayElements(a, isCopy)]: the pointer, and the flag written
    through [isCopy]. *)
Definition GetArrayElements (a : loc) : M (option loc * bool) :=
  fun s =>
    match heap s !! a with
    | None => Undefined
    | Some l =>
        let '(c, rest) := next_choice s in
        let s := with_jvm_elems rest s in
        match c with
        | ElemsNull => Done (None, false) s
        | ElemsDirect => Done (Some a, false) (with_views ((a, a) :: views s) s)
        | ElemsCopy =>
            let p := fresh (dom (heap s)) in
            Done (Some p, true)
                 (with_views ((a, p) :: views s) (with_heap (<[p := l]> (heap s)) s))
        end
    end.

Fixpoint remove_view (v : loc * loc) (vs : list (loc * loc)) : list (loc * loc) :=
  match vs with
  | [] => []
  | w :: ws => if decide (v = w) then ws else w :: remove_view v ws
  end.

(** [Release<Type>ArrayElements(a, p, mode)].  The mode matters only when
    [p] is a copy: a pointer into the array itself has nothing to copy
    back and nothing to discard. *)
Definition ReleaseArrayElements (a p : loc) (mode : release_mode) : M unit :=
  fun s =>
    if decide ((a, p) ∈ views s) then
      if decide (p = a) then
        match mode with
        | JNI_COMMIT => Done tt s
        | _ => Done tt (with_views (remove_view (a, p) (views s)) s)
        end
      else
        match heap s !! p with
        | None => Undefined
        | Some buf =>
            match mode with
            | JNI_COPY_BACK =>
                Done tt (with_views (remove_view (a, p) (views s))
                           (with_heap (delete p (<[a := buf]> (heap s))) s))
            | JNI_COMMIT => Done tt (with_heap (<[a := buf]> (heap s)) s)
            | JNI_ABORT =>
                Done tt (with_views (remove_view (a, p) (views s))
                           (with_heap (delete p (heap s)) s))
            end
        end
    else Undefined.

(** [Get<Type>ArrayRegion(a, start, len, buf)]: the cells copied out. *)
Definition GetArrayRegion (a : loc) (start len : nat) : M (list Z) :=
  fun s => match heap s !! a with
           | Some l =>
               if decide (start + len <= length l)%nat
               then Done (take len (drop start l)) s
               else Undefined
           | None => Undefined
           end.

(** [New<Type>Array(n)]: a fresh zeroed Java array, or [NULL]. *)
Definition NewArray (n : nat) : M (option loc) :=
  fun s =>
    let '(ok, rest) := next_alloc s in
    let s := with_allocs rest s in
    if ok then
      let p := fresh (dom (heap s)) in
      Done (Some p) (with_heap (<[p := replicate n 0]> (heap s)) s)
    else Done None s.

(** [Set<Type>ArrayRegion(a, 0, len, data)] with [len = length data]. *)
Definition SetArrayRegion (a : loc) (data : list Z) : M unit :=
  fun s => match heap s !! a with
           | Some l =>
               if decide (length data <= length l)%nat
               then Done tt (with_heap (<[a := within l data]> (heap s)) s)
               else Undefined
           | None => Undefined
           end.

(** [new T[n]]: a fresh uninitialised block, or [None] when [bad_alloc] is
    thrown. *)
Definition cxx_new (n : nat) : M (option loc) :=
  fun s =>
    let '(ok, rest) := next_alloc s in
    let s := with_allocs rest s in
    if ok then
      let p := fresh (dom (heap s)) in
      Done (Some p) (with_heap (<[p := uninit s n]> (heap s)) s)
    else Done None s.

(** [delete[] p]. *)
Definition cxx_delete (p : loc) : M unit :=
  fun s => match heap s !! p with
           | Some _ => Done tt (with_heap (delete p (heap s)) s)
           | None => Undefined
           end.

(** A local array of [n] cells, not yet written. *)
Definition stack_block (n : nat) : M (list Z) :=
  fun s => Done (uninit s n) s.

Definition load (p : loc) : M (list Z) :=
  fun s => match heap s !! p with
           | Some l => Done l s
           | None => Undefined
           end.

Definition store (p : loc) (l : list Z) : M unit :=
  fun s => match heap s !! p with
           | Some _ => Done tt (with_heap (<[p := l]> (heap s)) s)
           | None => Undefined
           end.


(** ** The shims *)

(** [cloneIntArray(env, a, copy)].  [copy] tells whether the out-pointer
    the caller passes is non-null: the source tests the pointer
    ([!copy]), not the flag behind it. *)
Definition cloneIntArray (a : loc) (copy : bool) : M (option loc) :=
  '(aux, _) ← GetArrayElements a;
  match aux with
  | None => out_of_mem_exception;; mret None
  | Some b =>
      if negb copy then
        n ← GetArrayLength a;
        fresh_block ← cxx_new n;
        match fresh_block with
        | Some aux' =>
            cells ← load b;
            store aux' (take n cells);;
            ReleaseArrayElements a b JNI_ABORT;;
            mret (Some aux')
        | None =>
            out_of_mem_exception;;
            ReleaseArrayElements a b JNI_ABORT;;
            mret None
        end
      else mret (Some b)
  end.

(** [freeClonedIntArray(env, a, aux, copy)], same reading of [copy]. *)
Definition freeClonedIntArray (a : loc) (aux : option loc) (copy : bool)
  : M unit :=
  match aux with
  | None => if copy then undefined else mret tt
  | Some p => if copy then ReleaseArrayElements a p JNI_ABORT else cxx_delete p
  end.

Definition AUX_SIZE : nat := 10.

(** A library call on the first [n] cells behind [p], which it may
    rewrite. *)
Definition call_mutating (op : list Z -> list Z * option Z)
    (tag : list Z -> native_call) (n : nat) (p : option loc) : M (option Z) :=
  match p with
  | None => undefined
  | Some l =>
      cells ← load l;
      if decide (n <= length cells)%nat then
        let args := take n cells in
        let '(args', r) := op args in
        emit (Native (tag args));;
        store l (within args args' ++ drop n cells);;
        mret r
      else undefined
  end.

(** The body [and], [or], [xor] and [distinct] share: [small] is the test
    that selects the stack buffer, [op] the library function. *)
Definition connective (small : nat -> bool)
    (op : list Z -> list Z * option Z) (tag : list Z -> native_call)
    (arg : loc) : M Z :=
  n ← GetArrayLength arg;
  if small n then
    if decide (n <= AUX_SIZE)%nat then
      aux ← GetArrayRegion arg 0 n;
      let '(_, r) := op aux in
      emit (Native (tag aux));;
      match r with
      | Some t => mret t
      | None => out_of_mem_exception;; mret (-1)
      end
    else undefined
  else
    a ← cloneIntArray arg true;
    r ← call_mutating op tag n a;
    result ← match r with
             | Some t => mret t
             | None => out_of_mem_exception;; mret (-1)
             end;
    freeClonedIntArray arg a true;;
    mret result.

(** [all_positive_longs(n, a)] on the cells [a[0 .. n-1]]. *)
Fixpoint all_positive_longs (a : list Z) : bool :=
  match a with
  | [] => true
  | x :: rest => if x <? 0 then false else all_positive_longs rest
  end.

(** Decoding the block behind [p] in place. *)
Definition byte_array_to_mpz_at (p : loc) (n : nat) : M Z :=
  b ← load p;
  match byte_array_to_mpz b n with
  | Some (z, b') => store p b';; mret z
  | None => undefined
  end.

Definition release_if (a : loc) (p : option loc) : M unit :=
  match p with
  | Some q => ReleaseArrayElements a q JNI_ABORT
  | None => mret tt
  end.

Section Shims.

Variable lib : yices_lib.

Definition Java_com_sri_yices_Yices_and : loc -> M Z :=
  connective (fun n => bool_decide (n <= AUX_SIZE)%nat) (yices_and lib) Call_and.

Definition Java_com_sri_yices_Yices_or : loc -> M Z :=
  connective (fun n => bool_decide (n < AUX_SIZE)%nat) (yices_or lib) Call_or.

Definition Java_com_sri_yices_Yices_xor : loc -> M Z :=
  connective (fun n => bool_decide (n < AUX_SIZE)%nat) (yices_xor lib) Call_xor.

Definition Java_com_sri_yices_Yices_distinct : loc -> M Z :=
  connective (fun n => bool_decide (n < AUX_SIZE)%nat) (yices_distinct lib)
    Call_distinct.

(** [mpz_to_byte_array(env, z)]: the new Java array, or [NULL] with an
    exception raised.  [scratch] is the choice of [aux]: the stack
    buffer, a block from [new], or [None] when [bad_alloc] is thrown
    (by [new], or by the shim itself for a size beyond [int32_t]). *)
Definition mpz_to_byte_array (z : Z) : M (option loc) :=
  let nbytes := nbytes_of z in
  let n := Z.to_nat nbytes in
  scratch ← (if nbytes <=? 32 then
               aux ← stack_block 32; mret (Some (aux, None))
             else if nbytes <=? INT32_MAX then
               block ← cxx_new n;
               match block with
               | Some p => aux ← load p; mret (Some (aux, Some p))
               | None => mret None
               end
             else mret None);
  match scratch with
  | None => out_of_mem_exception;; mret None
  | Some (aux, block) =>
      match encode_scratch z n aux with
      | None => undefined
      | Some bytes =>
          result ← NewArray (length bytes);
          match result with
          | None => out_of_mem_exception
          | Some r => SetArrayRegion r bytes
          end;;
          match block with
          | Some p => cxx_delete p
          | None => mret tt
          end;;
          mret result
      end
  end.

Definition Java_com_sri_yices_Yices_bytesToIntConstant (a : loc) : M Z :=
  n ← GetArrayLength a;
  '(b, _) ← GetArrayElements a;
  match b with
  | None => out_of_mem_exception;; mret (-1)
  | Some p =>
      z ← byte_array_to_mpz_at p n;
      emit (Native (Call_mpz z));;
      result ← match yices_mpz lib z with
               | Some t => mret t
               | None => out_of_mem_exception;; mret (-1)
               end;
      ReleaseArrayElements a p JNI_ABORT;;
      mret result
  end.

Definition Java_com_sri_yices_Yices_bytesToRationalConstant (num den : loc)
  : M Z :=
  num_size ← GetArrayLength num;
  '(num_bytes, _) ← GetArrayElements num;
  den_size ← GetArrayLength den;
  '(den_bytes, _) ← GetArrayElements den;
  result ← match num_bytes, den_bytes with
           | Some pn, Some pd =>
               qn ← byte_array_to_mpz_at pn num_size;
               qd ← byte_array_to_mpz_at pd den_size;
               if negb (mpz_sgn qd =? 0) then
                 emit (Canonicalize (qn, qd));;
                 let q := mpq_canonicalize (qn, qd) in
                 emit (Native (Call_mpq q));;
                 match yices_mpq lib q with
                 | Some t => mret t
                 | None => out_of_mem_exception;; mret (-1)
                 end
               else mret (-1)
           | _, _ => out_of_mem_exception;; mret (-1)
           end;
  release_if num num_bytes;;
  release_if den den_bytes;;
  mret result.

Definition Java_com_sri_yices_Yices_intPoly (coeff t : loc) : M Z :=
  n ← GetArrayLength coeff;
  m ← GetArrayLength t;
  if decide (n = m) then
    '(a, _) ← GetArrayElements t;
    '(c, _) ← GetArrayElements coeff;
    result ← match a, c with
             | Some pa, Some pc =>
                 ts ← load pa;
                 cs ← load pc;
                 emit (Native (Call_poly_int64 (take n cs) (take n ts)));;
                 match yices_poly_int64 lib (take n cs) (take n ts) with
                 | Some r => mret r
                 | None => out_of_mem_exception;; mret (-1)
                 end
             | _, _ => out_of_mem_exception;; mret (-1)
             end;
    release_if coeff c;;
    release_if t a;;
    mret result
  else mret (-1).

Definition Java_com_sri_yices_Yices_rationalPoly (num den t : loc) : M Z :=
  n ← GetArrayLength num;
  nd ← GetArrayLength den;
  same ← ((if decide (n = nd) then
             nt ← GetArrayLength t; mret (bool_decide (n = nt))
           else mret false) : M bool);
  if same : bool then
    '(a, _) ← GetArrayElements t;
    '(p, _) ← GetArrayElements num;
    '(q, _) ← GetArrayElements den;
    result ← match a, p, q with
             | Some pa, Some pp, Some pq =>
                 ts ← load pa;
                 ps ← load pp;
                 qs ← load pq;
                 (* the cast of [q] to [uint64_t*] keeps the values: they
                    have just been checked not to be negative *)
                 if all_positive_longs (take n qs) then
                   emit (Native (Call_poly_rational64
                                   (take n ps) (take n qs) (take n ts)));;
                   match yices_poly_rational64 lib
                           (take n ps) (take n qs) (take n ts) with
                   | Some r => mret r
                   | None => out_of_mem_exception;; mret (-1)
                   end
                 else mret (-1)
             | _, _, _ => out_of_mem_exception;; mret (-1)
             end;
    release_if den q;;
    release_if num p;;
    release_if t a;;
    mret result
  else mret (-1).

End Shims.

(** What a connective does with the cells [l] of its argument, on either
    path: the value it returns and the events it adds. *)
Definition connective_result (op : list Z -> list Z * option Z) (l : list Z)
  : Z :=
  match (op l).2 with
  | Some t => t
  | None => -1
  end.

Definition connective_events (op : list Z -> list Z * option Z)
    (tag : list Z -> native_call) (l : list Z) : list event :=
  Native (tag l) ::
  match (op l).2 with
  | Some _ => []
  | None => [OutOfMem]
  end.

(** Observing an outcome: the value returned, and what an array holds
    afterwards. *)
Definition result_of {A} (o : outcome A) : option A :=
  match o with
  | Done a _ => Some a
  | Undefined => None
  end.

Definition array_after {A} (o : outcome A) (a : loc) : option (list Z) :=
  match o with
  | Done _ s => heap s !! a
  | Undefined => None
  end.

Definition trace_after {A} (o : outcome A) : option (list event) :=
  match o with
  | Done _ s => Some (trace s)
  | Undefined => None
  end.

(** What [bytesToRationalConstant] does with the two integers it has
    decoded: the events it adds and the value it returns. *)
Definition rational_events (lib : yices_lib) (qn qd : Z) : list event :=
  if qd =? 0 then []
  else
    let q := mpq_canonicalize (qn, qd) in
    [Canonicalize (qn, qd); Native (Call_mpq q)] ++
    match yices_mpq lib q with
    | Some _ => []
    | None => [OutOfMem]
    end.

Definition rational_result (lib : yices_lib) (qn qd : Z) : Z :=
  if qd =? 0 then -1
  else
    match yices_mpq lib (mpq_canonicalize (qn, qd)) with
    | Some t => t
    | None => -1
    end.


(** ** Definitions used in the proofs *)

(** Powers of 256, kept folded in the arithmetic. *)
Definition pow256 (n : nat) : Z := 256 ^ Z.of_nat n.

(** The cells [aux[1 .. nbytes-1]] once [mpz_export] has run. *)
Definition payload (z : Z) : list Z :=
  if z =? 0 then [0] else mpz_export z.

(** The view a possibly null pointer stands for, the store once the view
    is taken, and the store once it is released in abort mode. *)
Definition view_of (a : loc) (p : option loc) : list (loc * loc) :=
  match p with Some q => [(a, q)] | None => [] end.

Definition heap_with (p : option loc) (l : list Z) (h : gmap loc (list Z))
  : gmap loc (list Z) :=
  match p with Some q => <[q := l]> h | None => h end.

Definition released (a : loc) (p : option loc) (h : gmap loc (list Z))
  : gmap loc (list Z) :=
  match p with
  | Some q => if decide (q = a) then h else delete q h
  | None => h
  end.

(** A pointer handed out for [a] is [a] itself or was free before. *)
Definition ptr_ok (a : loc) (p : option loc) (h : gmap loc (list Z)) : Prop :=
  match p with Some q => q = a \/ h !! q = None | None => True end.

(** ** Concrete environments and a concrete solver *)

Definition demo_state : jni :=
  Jni {[ 1%nat := [-1]; 2%nat := [0; 0] ]} [] [] [] (fun i => Z.of_nat i) [].

Definition demo_lib : yices_lib :=
  {| yices_mpz := fun z => Some (Z.abs z);
     yices_mpq := fun q => Some (q.1 + q.2);
     yices_and := fun a => (reverse a, Some 100);
     yices_or := fun a => (reverse a, Some 100);
     yices_xor := fun a => (a, Some 102);
     yices_distinct := fun a => (a, None);
     yices_poly_int64 := fun c t => Some 104;
     yices_poly_rational64 := fun p q t => Some 105 |}.

Definition fractions_state : jni :=
  Jni {[ 1%nat := [4]; 2%nat := [2]; 3%nat := [1]; 4%nat := [0; 0] ]}
      [] [ElemsDirect; ElemsCopy] [] (fun _ => 0) [].

Definition poly_state : jni :=
  Jni {[ 1%nat := [3; 5]; 2%nat := [7; -2]; 3%nat := [40; 41];
         4%nat := [40; 41; 42] ]}
      [] [ElemsCopy; ElemsDirect] [] (fun _ => 0) [].

Definition pinned_terms : jni :=
  Jni {[ 1%nat := [1; 2; 3; 4; 5; 6; 7; 8; 9; 10; 11];
         2%nat := [1; 2; 3; 4; 5; 6; 7; 8; 9; 10] ]}
      [] [ElemsDirect] [] (fun _ => 0) [].

Definition refused_terms : jni :=
  Jni {[ 2%nat := [1; 2; 3; 4; 5; 6; 7; 8; 9; 10] ]}
      [] [ElemsNull] [] (fun _ => 0) [].

Definition pinned_bytes : jni :=
  Jni {[ 1%nat := [-1]; 2%nat := [-1; 1]; 3%nat := [3] ]}
      [] [ElemsDirect; ElemsDirect] [] (fun _ => 0) [].

(** ** Definitions for the further properties *)

(** [z] is in the two's-complement range of [n] bytes. *)
Definition fits (n : nat) (z : Z) : bool :=
  (- (128 * pow256 (n - 1)) <=? z) && (z <? 128 * pow256 (n - 1)).

Definition block_1_0 : list Z := [-1; 0; 0; 7].


(** ** Further entry points of the solver

    A query that fills an out-parameter returns its status code together
    with the value it leaves there.  [None] stands for [std::bad_alloc]
    thrown out of the call.  [yices_tuple_type] takes its array as
    [const], so it is a function of the cells; [yices_get_bv_value] and
    [yices_subst_term_array] write to the block they are given and return
    its cells as they leave them. *)
Record yices_values := {
  yices_tuple_type : list Z -> option Z;
  yices_get_mpz_value : Z -> Z -> option (Z * Z);
  yices_get_mpq_value : Z -> Z -> option (Z * (Z * Z));
  yices_term_bitsize : Z -> Z;
  yices_get_bv_value : Z -> Z -> list Z -> option (Z * list Z);
  yices_subst_term_array :
    list Z -> list Z -> list Z -> option (Z * list Z)
}.

(** The value of the C expression [x != 0]. *)
Definition bool_cell (x : Z) : Z := if x =? 0 then 0 else 1.

(** The loop of [convertToBoolArray], from index [i] on for [k] rounds:
    [aux[i] = (a[i] != 0)].  [None] when a cell outside [a] or [aux] is
    used. *)
Fixpoint bool_loop (k i : nat) (a aux : list Z) : option (list Z) :=
  match k with
  | O => Some aux
  | S k' =>
      match a !! i, aux !! i with
      | Some x, Some _ =>
          bool_loop k' (S i) a (<[i := bool_cell x]> aux)
      | _, _ => None
      end
  end.

(** [convertToBoolArray(env, n, a)], with the cells readable behind [a]. *)
Definition convertToBoolArray (n : nat) (a : list Z) : M (option loc) :=
  b ← NewArray n;
  match b with
  | None => out_of_mem_exception;; mret None
  | Some arr =>
      '(aux, _) ← GetArrayElements arr;
      match aux with
      | None => out_of_mem_exception
      | Some p =>
          cells ← load p;
          match bool_loop n 0 a cells with
          | Some cells' =>
              store p cells';;
              ReleaseArrayElements arr p JNI_COPY_BACK
          | None => undefined
          end
      end;;
      mret (Some arr)
  end.

Section Values.

Variable sol : yices_values.

(** With an empty array the solver is called with a null pointer, outside
    any handler for [bad_alloc]. *)
Definition Java_com_sri_yices_Yices_tupleType (a : loc) : M Z :=
  n ← GetArrayLength a;
  if decide (n = 0)%nat then
    match yices_tuple_type sol [] with
    | Some r => mret r
    | None => undefined
    end
  else
    '(tau, _) ← GetArrayElements a;
    match tau with
    | None => out_of_mem_exception;; mret (-1)
    | Some p =>
        cells ← load p;
        result ← match yices_tuple_type sol (take n cells) with
                 | Some r => mret r
                 | None => out_of_mem_exception;; mret (-1)
                 end;
        ReleaseArrayElements a p JNI_ABORT;;
        mret result
    end.

Definition Java_com_sri_yices_Yices_getIntegerValueAsBytes (mdl t : Z)
  : M (option loc) :=
  match yices_get_mpz_value sol mdl t with
  | Some (code, z) =>
      if 0 <=? code then mpz_to_byte_array z else mret None
  | None => out_of_mem_exception;; mret None
  end.

Definition Java_com_sri_yices_Yices_getRationalValueNumAsBytes (mdl t : Z)
  : M (option loc) :=
  match yices_get_mpq_value sol mdl t with
  | Some (code, q) =>
      if 0 <=? code then mpz_to_byte_array q.1 else mret None
  | None => out_of_mem_exception;; mret None
  end.

Definition Java_com_sri_yices_Yices_getRationalValueDenAsBytes (mdl t : Z)
  : M (option loc) :=
  match yices_get_mpq_value sol mdl t with
  | Some (code, q) =>
      if 0 <=? code then mpz_to_byte_array q.2 else mret None
  | None => out_of_mem_exception;; mret None
  end.

(** [n] is the [uint32_t] bit size; it is passed on as an [int32_t], so
    sizes beyond [INT32_MAX] are left without a meaning.  When the solver
    throws on the second path the handler is reached before
    [delete[] tmp]. *)
Definition Java_com_sri_yices_Yices_getBvValue (mdl t : Z) : M (option loc) :=
  let n := yices_term_bitsize sol t in
  if 0 <? n then
    if n <=? 64 then
      a ← stack_block 64;
      match yices_get_bv_value sol mdl t a with
      | Some (code, a') =>
          if 0 <=? code then convertToBoolArray (Z.to_nat n) (within a a')
          else mret None
      | None => out_of_mem_exception;; mret None
      end
    else if n <=? INT32_MAX then
      tmp ← cxx_new (Z.to_nat n);
      match tmp with
      | None => out_of_mem_exception;; mret None
      | Some p =>
          a ← load p;
          match yices_get_bv_value sol mdl t a with
          | Some (code, a') =>
              store p (within a a');;
              result ← (if 0 <=? code
                        then convertToBoolArray (Z.to_nat n) (within a a')
                        else mret None);
              cxx_delete p;;
              mret result
          | None => out_of_mem_exception;; mret None
          end
      end
    else undefined
  else mret None.

(** The view of [a] is released inside the branch that calls the solver,
    with a mode chosen from the result; the call has no handler for
    [bad_alloc]. *)
Definition Java_com_sri_yices_Yices_substTermArray (a v map : loc) : M Z :=
  n ← GetArrayLength v;
  nm ← GetArrayLength map;
  if decide (n = nm) then
    '(vars, _) ← GetArrayElements v;
    '(vals, _) ← GetArrayElements map;
    '(terms, _) ← GetArrayElements a;
    m ← GetArrayLength a;
    result ← match vars, vals, terms with
             | Some pv, Some pm, Some pt =>
                 xs ← load pv;
                 ys ← load pm;
                 ts ← load pt;
                 match yices_subst_term_array sol
                         (take n xs) (take n ys) (take m ts) with
                 | Some (r, ts') =>
                     store pt (within (take m ts) ts' ++ drop m ts);;
                     ReleaseArrayElements a pt
                       (if r <? 0 then JNI_ABORT else JNI_COPY_BACK);;
                     mret r
                 | None => undefined
                 end
             | _, _, _ => out_of_mem_exception;; mret (-1)
             end;
    release_if v vars;;
    release_if map vals;;
    mret result
  else mret (-1).

End Values.

(** What a call that may throw returns through a shim with a handler. *)
Definition or_minus_one (r : option Z) : Z :=
  match r with Some t => t | None => -1 end.

Definition raised (r : option Z) : list event :=
  match r with Some _ => [] | None => [OutOfMem] end.

Definition alternating (n : nat) : list Z :=
  (fun i => Z.of_nat i mod 2) <$> seq 0 n.

Definition demo_values : yices_values :=
  {| yices_tuple_type := fun tau => Some (Z.of_nat (length tau));
     yices_get_mpz_value := fun mdl t => Some (0, mdl - t);
     yices_get_mpq_value := fun mdl t => Some (0, (mdl, t));
     yices_term_bitsize := fun t => t;
     yices_get_bv_value :=
       fun mdl t a =>
         Some (mdl, alternating (Z.to_nat t));
     yices_subst_term_array :=
       fun xs ys ts =>
         Some (if decide (ts = []) then -1 else 0, Z.succ <$> ts) |}.

(** A solver that runs out of memory in every query that can report it. *)
Definition exhausted_values : yices_values :=
  {| yices_tuple_type := fun _ => None;
     yices_get_mpz_value := fun _ _ => None;
     yices_get_mpq_value := fun _ _ => None;
     yices_term_bitsize := fun t => t;
     yices_get_bv_value := fun _ _ _ => None;
     yices_subst_term_array := fun _ _ _ => None |}.

(** The answer of the JVM to the [i]-th coming request for a view. *)
Definition nth_choice (s : jni) (i : nat) : elems_choice :=
  default ElemsCopy (jvm_elems s !! i).

(** Three arrays; the JVM refuses the first view and grants the others. *)
Definition subst_refused : jni :=
  Jni {[ 1%nat := [10; 11; 12]; 2%nat := [1; 2]; 3%nat := [5; 6] ]}
      [] [ElemsNull; ElemsCopy; ElemsDirect] [] (fun _ => 0) [].

Definition subst_granted : jni :=
  Jni {[ 1%nat := [10; 11; 12]; 2%nat := [1; 2]; 3%nat := [5; 6] ]}
      [] [ElemsDirect; ElemsCopy; ElemsCopy] [] (fun _ => 0) [].

(** An empty [byte[]] next to a number. *)
Definition empty_bytes : jni :=
  Jni {[ 1%nat := []; 2%nat := [5] ]} [] [ElemsCopy] [] (fun _ => 0) [].

Ltac mrun :=
  unfold mbind, jni_bind, bind, mret, jni_ret, ret; cbv beta.

(** * Facts about bytes and big-endian values *)

Section ByteFacts.

Lemma to_uint8_range b : 0 <= to_uint8 b < 256.
Proof. unfold to_uint8. apply Z.mod_pos_bound. lia. Qed.

Lemma to_jbyte_is_jbyte x : is_jbyte (to_jbyte x).
Proof.
  unfold to_jbyte, is_jbyte.
  pose proof (Z.mod_pos_bound x 256 ltac:(lia)).
  destruct (Z.ltb_spec (x mod 256) 128); lia.
Qed.

Lemma to_uint8_to_jbyte x : to_uint8 (to_jbyte x) = x mod 256.
Proof.
  unfold to_jbyte, to_uint8.
  pose proof (Z.mod_pos_bound x 256 ltac:(lia)).
  destruct (Z.ltb_spec (x mod 256) 128).
  - apply Z.mod_small. lia.
  - symmetry. apply (Z.mod_unique _ _ (-1)); lia.
Qed.

Lemma to_uint8_jbyte b :
  is_jbyte b -> to_uint8 b = if b <? 0 then b + 256 else b.
Proof.
  unfold is_jbyte, to_uint8. intros Hb.
  destruct (Z.ltb_spec b 0).
  - symmetry. apply (Z.mod_unique _ _ (-1)); lia.
  - apply Z.mod_small. lia.
Qed.


(** Exclusive-or with 255 complements a byte. *)
Lemma lxor_255 u : 0 <= u < 256 -> Z.lxor u 255 = 255 - u.
Proof.
  intros Hu.
  assert (Hall : forallb (fun v => Z.lxor v 255 =? 255 - v)
                   (Z.of_nat <$> seq 0 256) = true) by (vm_compute; done).
  rewrite forallb_forall in Hall.
  apply Z.eqb_eq, Hall, in_map_iff.
  exists (Z.to_nat u). split; [lia|]. apply in_seq. lia.
Qed.

Lemma land_255 x : Z.land x 255 = x mod 256.
Proof. change 255 with (Z.ones 8). rewrite Z.land_ones by lia. done. Qed.

Lemma shiftr_8 x : Z.shiftr x 8 = x / 256.
Proof. rewrite Z.shiftr_div_pow2 by lia. done. Qed.

End ByteFacts.

Section BigEndian.

Lemma pow256_0 : pow256 0 = 1.
Proof. done. Qed.

Lemma pow256_S n : pow256 (S n) = 256 * pow256 n.
Proof. unfold pow256. rewrite Nat2Z.inj_succ, Z.pow_succ_r by lia. done. Qed.

Lemma pow256_pos n : 0 < pow256 n.
Proof. unfold pow256. apply Z.pow_pos_nonneg; lia. Qed.



Lemma be_val_snoc l x : be_val (l ++ [x]) = be_val l * 256 + to_uint8 x.
Proof. unfold be_val. rewrite fold_left_app. done. Qed.

Lemma be_val_nil : be_val [] = 0.
Proof. done. Qed.

Lemma be_val_range l : 0 <= be_val l < pow256 (length l).
Proof.
  induction l as [|x l IH] using rev_ind;
    [cbn [length]; rewrite pow256_0, be_val_nil; lia|].
  rewrite be_val_snoc, length_app, Nat.add_comm. cbn [length Nat.add].
  rewrite pow256_S. pose proof (to_uint8_range x). lia.
Qed.

Lemma be_val_app l1 l2 :
  be_val (l1 ++ l2) = be_val l1 * pow256 (length l2) + be_val l2.
Proof.
  induction l2 as [|x l2 IH] using rev_ind.
  - rewrite app_nil_r, be_val_nil. cbn [length]. rewrite pow256_0. lia.
  - rewrite app_assoc, !be_val_snoc, IH, length_app, Nat.add_comm.
    cbn [length Nat.add]. rewrite pow256_S. lia.
Qed.

Lemma be_val_cons x l :
  be_val (x :: l) = to_uint8 x * pow256 (length l) + be_val l.
Proof.
  change (x :: l) with ([x] ++ l). rewrite be_val_app.
  change (be_val [x]) with (0 * 256 + to_uint8 x). lia.
Qed.

Lemma length_be_bytes n m : length (be_bytes n m) = n.
Proof.
  revert m. induction n as [|n IH]; intros m; [done|].
  cbn [be_bytes]. rewrite length_app, IH. cbn. lia.
Qed.

Lemma be_val_be_bytes n m :
  0 <= m < pow256 n -> be_val (to_jbyte <$> be_bytes n m) = m.
Proof.
  revert m. induction n as [|n IH]; intros m Hm.
  - rewrite pow256_0 in Hm. cbn. unfold be_val. cbn. lia.
  - cbn [be_bytes]. rewrite fmap_app. cbn [fmap list_fmap].
    rewrite be_val_snoc, to_uint8_to_jbyte, Z.mod_mod by lia.
    rewrite pow256_S in Hm.
    rewrite IH.
    + pose proof (Z.div_mod m 256 ltac:(lia)). lia.
    + split; [apply Z.div_pos; lia|].
      apply Z.div_lt_upper_bound; lia.
Qed.

End BigEndian.

(** * The negation loop *)

Section Negation.

Lemma negate_loop_S k c b :
  negate_loop (S k) c b =
  let x := Z.lxor (to_uint8 (b !!! k)) 255 + c in
  negate_loop k (Z.shiftr x 8) (<[k := to_jbyte (Z.land x 255)]> b).
Proof. cbn [negate_loop]. destruct k; [done|]. by rewrite decide_True by lia. Qed.

(** The loop complements the [k] cells before the suffix and adds the
    carry; [cout] is the carry that falls off the most significant
    cell. *)
Lemma negate_loop_spec k : forall c pre suf,
  length pre = k -> c = 0 \/ c = 1 ->
  exists pre' cout,
    negate_loop k c (pre ++ suf) = pre' ++ suf /\
    length pre' = k /\
    Forall is_jbyte pre' /\
    (cout = 0 \/ cout = 1) /\
    be_val pre' + cout * pow256 k = pow256 k - 1 - be_val pre + c.
Proof.
  induction k as [|k IH]; intros c pre suf Hlen Hc.
  - destruct pre; [|done]. exists [], c. rewrite pow256_0, be_val_nil.
    repeat split; [constructor | done | lia].
  - destruct pre as [|x pre0 _] using rev_ind; [done|].
    rewrite length_app in Hlen. cbn in Hlen.
    assert (Hk : length pre0 = k) by lia.
    rewrite negate_loop_S. cbv zeta.
    rewrite <- app_assoc. cbn [app].
    rewrite list_lookup_total_middle by done.
    set (u := to_uint8 x). pose proof (to_uint8_range x) as Hu. fold u in Hu.
    rewrite lxor_255, land_255, shiftr_8 by done.
    set (y := 255 - u + c).
    rewrite insert_app_r_alt by lia.
    rewrite Hk, Nat.sub_diag. cbn [insert list_insert].
    assert (Hy : 0 <= y <= 256) by (unfold y; lia).
    pose proof (Z.div_mod y 256 ltac:(lia)) as Hdm.
    pose proof (Z.mod_pos_bound y 256 ltac:(lia)) as Hm.
    assert (Hc' : y / 256 = 0 \/ y / 256 = 1) by lia.
    destruct (IH (y / 256) pre0 (to_jbyte (y mod 256) :: suf) Hk Hc')
      as (pre0' & cout & Heq & Hlen' & Hall & Hcout & Hval).
    exists (pre0' ++ [to_jbyte (y mod 256)]), cout.
    rewrite Heq, <- app_assoc. split; [done|].
    split; [rewrite length_app; cbn; lia|].
    split; [apply Forall_app; split; [done|];
            constructor; [apply to_jbyte_is_jbyte | constructor]|].
    split; [done|].
    rewrite !be_val_snoc, to_uint8_to_jbyte, Z.mod_mod, pow256_S by lia.
    fold u. unfold y in *. destruct Hcout; subst cout; lia.
Qed.

(** On a block whose first [n] cells hold the unsigned value [v > 0],
    [negate_bytes] leaves [256^n - v] there. *)
Lemma negate_bytes_spec pre suf :
  (0 < length pre)%nat -> 0 < be_val pre ->
  exists pre',
    negate_bytes (pre ++ suf) (length pre) = Some (pre' ++ suf) /\
    length pre' = length pre /\
    Forall is_jbyte pre' /\
    be_val pre' = pow256 (length pre) - be_val pre.
Proof.
  intros Hn Hv. unfold negate_bytes.
  rewrite decide_True by (rewrite length_app; lia).
  destruct (negate_loop_spec (length pre) 1 pre suf eq_refl (or_intror eq_refl))
    as (pre' & cout & Heq & Hlen & Hall & Hcout & Hval).
  exists pre'. rewrite Heq. repeat split; try done.
  pose proof (be_val_range pre'). pose proof (be_val_range pre).
  rewrite Hlen in *. destruct Hcout; subst cout; lia.
Qed.

Lemma length_negate_loop k : forall c b, length (negate_loop k c b) = length b.
Proof.
  induction k as [|k IH]; intros c b; [done|].
  rewrite negate_loop_S. cbv zeta. by rewrite IH, length_insert.
Qed.

(** The loop does not look beyond the cells it is asked to negate. *)
Lemma negate_loop_app k : forall c pre suf,
  length pre = k ->
  negate_loop k c (pre ++ suf) = negate_loop k c pre ++ suf.
Proof.
  induction k as [|k IH]; intros c pre suf Hlen; [done|].
  destruct pre as [|x pre0 _] using rev_ind; [done|].
  rewrite length_app in Hlen. cbn in Hlen.
  assert (Hk : length pre0 = k) by lia.
  rewrite !negate_loop_S. cbv zeta.
  rewrite <- app_assoc. cbn [app].
  rewrite !list_lookup_total_middle by done.
  rewrite !insert_app_r_alt by lia.
  rewrite Hk, Nat.sub_diag. cbn [insert list_insert].
  rewrite (IH _ pre0 (_ :: suf)), (IH _ pre0 [_]) by done.
  by rewrite <- app_assoc.
Qed.

Lemma negate_bytes_app pre suf :
  (0 < length pre)%nat ->
  negate_bytes (pre ++ suf) (length pre) =
  (fun b => b ++ suf) <$> negate_bytes pre (length pre).
Proof.
  intros Hn. unfold negate_bytes.
  rewrite !decide_True by (rewrite ?length_app; lia).
  cbn. by rewrite negate_loop_app.
Qed.

Lemma length_negate_bytes b n b' :
  negate_bytes b n = Some b' -> length b' = length b.
Proof.
  unfold negate_bytes. destruct (decide _); [|done].
  intros [= <-]. apply length_negate_loop.
Qed.

End Negation.

(** * The decoder reads two's complement *)

Section Decoding.

Lemma sval_cons b l :
  is_jbyte b ->
  sval (b :: l) =
  (if b <? 0 then b + 256 else b) * pow256 (length l) + be_val l
  - (if b <? 0 then 256 * pow256 (length l) else 0).
Proof.
  intros Hb. unfold sval. rewrite be_val_cons, to_uint8_jbyte by done.
  cbn [length]. fold (pow256 (S (length l))). rewrite pow256_S. done.
Qed.

(** On a whole block of [jbyte]s the decoder computes [sval]; the block
    keeps its length, and is left as it was when its first byte is not
    negative. *)
Lemma byte_array_to_mpz_sval bs :
  bs <> [] -> Forall is_jbyte bs ->
  exists bs',
    byte_array_to_mpz bs (length bs) = Some (sval bs, bs') /\
    length bs' = length bs /\
    (0 <= bs !!! 0%nat -> bs' = bs) /\
    Forall is_jbyte bs'.
Proof.
  destruct bs as [|b0 l]; [done|]. intros _ Hall.
  assert (Hb0 : is_jbyte b0) by (by inversion Hall).
  unfold byte_array_to_mpz. cbn [lookup list_lookup].
  pose proof (be_val_range l) as Hl.
  pose proof (pow256_pos (length l)) as Hp.
  destruct (Z.ltb_spec b0 0) as [Hneg|Hpos].
  - destruct (negate_bytes_spec (b0 :: l) [])
      as (pre' & Heq & Hlen & Hall' & Hval).
    { cbn. lia. }
    { rewrite be_val_cons, to_uint8_jbyte by done.
      destruct (Z.ltb_spec b0 0); [|lia]. unfold is_jbyte in Hb0. nia. }
    rewrite !app_nil_r in Heq. rewrite Heq.
    exists pre'. split; [|split; [done|split; [|done]]].
    + f_equal. f_equal. unfold mpz_neg, mpz_import.
      rewrite take_ge by lia. rewrite Hval.
      unfold sval. destruct (Z.ltb_spec b0 0); [|lia].
      fold (pow256 (length (b0 :: l))). lia.
    + cbn. lia.
  - exists (b0 :: l). split; [|split; [done|split; done]].
    f_equal. f_equal. unfold mpz_import. rewrite take_ge by lia.
    unfold sval. destruct (Z.ltb_spec b0 0); lia.
Qed.

Lemma sval_zero_pad b l :
  is_jbyte b -> 0 <= b -> sval (0 :: b :: l) = sval (b :: l).
Proof.
  intros Hb Hpos.
  rewrite (sval_cons 0) by (unfold is_jbyte; lia).
  change (0 <? 0) with false. cbv iota.
  unfold sval at 1. destruct (Z.ltb_spec b 0); lia.
Qed.

Lemma sval_sign_pad b l :
  is_jbyte b -> b < 0 -> sval (-1 :: b :: l) = sval (b :: l).
Proof.
  intros Hb Hneg.
  rewrite (sval_cons (-1)) by (unfold is_jbyte; lia).
  change (-1 <? 0) with true. cbv iota.
  unfold sval at 1. destruct (Z.ltb_spec b 0); [|lia].
  cbn [length]. fold (pow256 (S (length l))). rewrite pow256_S. lia.
Qed.

Lemma sval_zero_padding k b l :
  is_jbyte b -> 0 <= b ->
  sval (replicate k 0 ++ b :: l) = sval (b :: l).
Proof.
  intros Hb Hpos. induction k as [|k IH]; [done|].
  rewrite <- IH. destruct k as [|k]; cbn [replicate app].
  - by apply sval_zero_pad.
  - apply sval_zero_pad; unfold is_jbyte; lia.
Qed.

Lemma sval_sign_padding k b l :
  is_jbyte b -> b < 0 ->
  sval (replicate k (-1) ++ b :: l) = sval (b :: l).
Proof.
  intros Hb Hneg. induction k as [|k IH]; [done|].
  rewrite <- IH. destruct k as [|k]; cbn [replicate app].
  - by apply sval_sign_pad.
  - apply sval_sign_pad; unfold is_jbyte; lia.
Qed.

End Decoding.

(** * The encoder writes a minimal two's complement *)

Section Encoding.

Lemma nbytes_of_eq z : nbytes_of z = (mpz_sizeinbase2 z + 7) / 8 + 1.
Proof. unfold nbytes_of. rewrite Z.shiftr_div_pow2 by lia. done. Qed.

Lemma mpz_sizeinbase2_pos z : 1 <= mpz_sizeinbase2 z.
Proof.
  unfold mpz_sizeinbase2. destruct (Z.eqb_spec z 0); [lia|].
  pose proof (Z.log2_nonneg (Z.abs z)). lia.
Qed.

Lemma nbytes_of_ge z : 2 <= nbytes_of z.
Proof.
  rewrite nbytes_of_eq. pose proof (mpz_sizeinbase2_pos z).
  assert (1 <= (mpz_sizeinbase2 z + 7) / 8)
    by (apply Z.div_le_lower_bound; lia).
  lia.
Qed.

Lemma length_payload z : S (length (payload z)) = Z.to_nat (nbytes_of z).
Proof.
  unfold payload, mpz_export, export_count. rewrite nbytes_of_eq.
  destruct (Z.eqb_spec z 0) as [->|Hz]; [done|].
  rewrite length_fmap, length_be_bytes.
  pose proof (mpz_sizeinbase2_pos z).
  assert (1 <= (mpz_sizeinbase2 z + 7) / 8)
    by (apply Z.div_le_lower_bound; lia).
  lia.
Qed.

Lemma pow256_two n : pow256 n = 2 ^ (8 * Z.of_nat n).
Proof. unfold pow256. rewrite Z.pow_mul_r by lia. done. Qed.

(** The magnitude of a nonzero [z] fills its top byte. *)
Lemma magnitude_bounds z :
  z <> 0 ->
  pow256 (length (payload z) - 1) <= Z.abs z < pow256 (length (payload z)).
Proof.
  intros Hz. unfold payload, mpz_export, export_count, mpz_sizeinbase2.
  destruct (Z.eqb_spec z 0); [done|].
  rewrite length_fmap, length_be_bytes.
  set (a := Z.abs z). assert (Ha : 0 < a) by (unfold a; lia).
  destruct (Z.log2_spec a Ha) as [Hlo Hhi].
  pose proof (Z.log2_nonneg a) as Hlog.
  set (bits := Z.log2 a + 1) in *.
  pose proof (Z.div_mod (bits + 7) 8 ltac:(lia)) as Hdm.
  pose proof (Z.mod_pos_bound (bits + 7) 8 ltac:(lia)) as Hm.
  set (c := (bits + 7) / 8) in *.
  rewrite !pow256_two. split.
  - transitivity (2 ^ Z.log2 a); [|done].
    apply Z.pow_le_mono_r; lia.
  - eapply Z.lt_le_trans; [exact Hhi|].
    apply Z.pow_le_mono_r; lia.
Qed.

Lemma payload_jbyte z : Forall is_jbyte (payload z).
Proof.
  unfold payload. destruct (z =? 0).
  - constructor; [unfold is_jbyte; lia | constructor].
  - unfold mpz_export. apply Forall_fmap, Forall_true.
    intros x. apply to_jbyte_is_jbyte.
Qed.

Lemma be_val_payload z : be_val (payload z) = Z.abs z.
Proof.
  unfold payload. destruct (Z.eqb_spec z 0) as [->|Hz]; [done|].
  pose proof (magnitude_bounds z Hz) as Hb. unfold payload in Hb.
  destruct (Z.eqb_spec z 0); [done|].
  unfold mpz_export in *. rewrite length_fmap, length_be_bytes in Hb.
  apply be_val_be_bytes. lia.
Qed.

(** The scratch block after the three writes. *)
Lemma scratch_filled z aux :
  (Z.to_nat (nbytes_of z) <= length aux)%nat ->
  write_at 1 (mpz_export z) (<[1%nat := 0]> (<[0%nat := 0]> aux)) =
  (0 :: payload z) ++ drop (Z.to_nat (nbytes_of z)) aux.
Proof.
  assert (Hge : (1 <= length (payload z))%nat).
  { pose proof (nbytes_of_ge z). pose proof (length_payload z). lia. }
  rewrite <- length_payload. intros Hlen.
  destruct aux as [|a0 [|a1 rest]]; [cbn in Hlen; lia..|].
  unfold write_at, payload in *. cbn [insert list_insert take drop app].
  destruct (Z.eqb_spec z 0) as [->|Hz]; [done|].
  f_equal. f_equal.
  destruct (mpz_export z) as [|e es]; [cbn in Hge; lia|done].
Qed.

(** The block after the optional negation: [n] cells holding the
    two's complement of [z] on [n] bytes. *)
Lemma signed_block z rest :
  let n := Z.to_nat (nbytes_of z) in
  exists P,
    (if mpz_sgn z <? 0
     then negate_bytes ((0 :: payload z) ++ rest) n
     else Some ((0 :: payload z) ++ rest)) = Some (P ++ rest) /\
    length P = n /\
    Forall is_jbyte P /\
    be_val P = (if z <? 0 then pow256 n - Z.abs z else Z.abs z) /\
    (0 <= z -> P = 0 :: payload z).
Proof.
  intros n. unfold n. rewrite <- length_payload.
  assert (Hv : be_val (0 :: payload z) = Z.abs z).
  { rewrite be_val_cons, be_val_payload. done. }
  assert (Hj : Forall is_jbyte (0 :: payload z)).
  { constructor; [unfold is_jbyte; lia | apply payload_jbyte]. }
  unfold mpz_sgn.
  destruct (Z.ltb_spec z 0) as [Hneg|Hpos].
  - destruct (Z.ltb_spec (Z.sgn z) 0); [|lia].
    destruct (negate_bytes_spec (0 :: payload z) rest)
      as (P & Heq & Hlen & Hall & Hval).
    { cbn. lia. }
    { lia. }
    cbn [length] in *. exists P. rewrite Heq, Hval, Hv.
    repeat split; try done. lia.
  - destruct (Z.ltb_spec (Z.sgn z) 0); [lia|].
    exists (0 :: payload z). repeat split; done.
Qed.

Lemma redundant_app b0 b1 l rest :
  redundant ((b0 :: b1 :: l) ++ rest) = redundant (b0 :: b1 :: l).
Proof. done. Qed.

Lemma redundant_true b0 b1 l :
  redundant (b0 :: b1 :: l) = true <->
  (b0 = 0 /\ 0 <= b1) \/ (b0 = -1 /\ b1 < 0).
Proof.
  unfold redundant. cbn [lookup_total list_lookup_total].
  rewrite orb_true_iff, !andb_true_iff, !Z.eqb_eq, Z.leb_le, Z.ltb_lt.
  done.
Qed.

Lemma redundant_sval b0 b1 l :
  is_jbyte b1 ->
  redundant (b0 :: b1 :: l) = true -> sval (b1 :: l) = sval (b0 :: b1 :: l).
Proof.
  intros Hb1. unfold redundant. cbn [lookup_total list_lookup_total].
  intros H. apply orb_true_iff in H as [H|H];
    apply andb_true_iff in H as [H0 H1].
  - apply Z.eqb_eq in H0 as ->. apply Z.leb_le in H1.
    symmetry. by apply sval_zero_pad.
  - apply Z.eqb_eq in H0 as ->. apply Z.ltb_lt in H1.
    symmetry. by apply sval_sign_pad.
Qed.

(** The first byte of the two's complement of a negative number on one
    byte more than its magnitude needs is [0xFF]. *)
Lemma negative_head z b0 l :
  z < 0 ->
  is_jbyte b0 ->
  S (length l) = Z.to_nat (nbytes_of z) ->
  be_val (b0 :: l) = pow256 (S (length l)) - Z.abs z ->
  b0 = -1.
Proof.
  intros Hz Hb0 Hlen Hval.
  pose proof (magnitude_bounds z ltac:(lia)) as [_ Hhi].
  pose proof (length_payload z) as Hp.
  assert (Hl : length (payload z) = length l) by lia.
  rewrite Hl in Hhi.
  rewrite be_val_cons, pow256_S, to_uint8_jbyte in Hval by done.
  pose proof (be_val_range l). pose proof (pow256_pos (length l)).
  unfold is_jbyte in Hb0. destruct (Z.ltb_spec b0 0); nia.
Qed.

Lemma encode_scratch_spec z aux :
  let n := Z.to_nat (nbytes_of z) in
  (n <= length aux)%nat ->
  exists bs,
    encode_scratch z n aux = Some bs /\
    sval bs = z /\
    minimal bs = true /\
    Forall is_jbyte bs /\
    (1 <= length bs <= n)%nat.
Proof.
  intros n Hlen. subst n. unfold encode_scratch.
  rewrite scratch_filled by done.
  pose proof (signed_block z (drop (Z.to_nat (nbytes_of z)) aux)) as Hsb.
  cbv zeta in Hsb.
  destruct Hsb as (P & Heq & HlenP & Hall & Hval & Hnn). rewrite Heq.
  pose proof (nbytes_of_ge z) as Hge.
  pose proof (length_payload z) as Hpl.
  remember (Z.to_nat (nbytes_of z)) as n eqn:Hn in *.
  destruct P as [|b0 [|b1 l]]; [cbn in HlenP; lia..|].
  rewrite redundant_app.
  assert (Hb0 : is_jbyte b0) by (by inversion Hall).
  assert (Hb1 : is_jbyte b1) by (inversion Hall as [|? ? ? Hr]; by inversion Hr).
  assert (Hhead : z < 0 -> b0 = -1).
  { intros Hneg. apply (negative_head z b0 (b1 :: l)); [done..| |].
    - rewrite <- Hn. exact HlenP.
    - rewrite Hval. destruct (Z.ltb_spec z 0); [|lia].
      change (S (length (b1 :: l))) with (length (b0 :: b1 :: l)).
      by rewrite HlenP. }
  assert (Hsv : sval (b0 :: b1 :: l) = z).
  { destruct (Z.ltb_spec z 0) as [Hneg|Hpos].
    - rewrite (Hhead Hneg) in *.
      unfold sval. rewrite Hval. change (-1 <? 0) with true. cbv iota.
      fold (pow256 (length (-1 :: b1 :: l))). rewrite HlenP. lia.
    - injection (Hnn Hpos) as -> Hpay. unfold sval. rewrite Hval.
      change (0 <? 0) with false. cbv iota. lia. }
  destruct (redundant (b0 :: b1 :: l)) eqn:Hred.
  - exists (b1 :: l).
    split.
    { f_equal. cbn [app drop]. rewrite <- HlenP. cbn [length].
      replace (S (S (length l)) - 1)%nat with (length (b1 :: l)) by (cbn; lia).
      exact (take_app_length (b1 :: l) _). }
    split; [rewrite <- Hsv; by apply redundant_sval|].
    split; [|split; [by inversion Hall | cbn in *; lia]].
    destruct l as [|b2 l']; [done|].
    cbn [minimal]. apply negb_true_iff.
    destruct (redundant (b1 :: b2 :: l')) eqn:Hred2; [exfalso|done].
    apply redundant_true in Hred, Hred2.
    assert (Hb2 : is_jbyte b2).
    { inversion Hall as [|? ? ? Hr]. inversion Hr as [|? ? ? Hr2].
      by inversion Hr2. }
    pose proof (be_val_range l') as Hr'.
    pose proof (pow256_pos (length l')) as HQ.
    destruct (Z.ltb_spec z 0) as [Hneg|Hpos].
    + rewrite (Hhead Hneg) in *.
      assert (b1 = -1 /\ b2 < 0) as [-> Hb2neg] by lia.
      pose proof (magnitude_bounds z ltac:(lia)) as [Hlo _].
      replace (length (payload z) - 1)%nat with (S (length l')) in Hlo
        by (cbn in HlenP; lia).
      rewrite !be_val_cons, !to_uint8_jbyte in Hval by done.
      rewrite <- HlenP in Hval. cbn [length] in Hval.
      rewrite !pow256_S in Hval. rewrite !pow256_S in Hlo.
      change (-1 <? 0) with true in Hval. cbv iota in Hval.
      destruct (Z.ltb_spec b2 0); [|lia].
      unfold is_jbyte in Hb2. nia.
    + injection (Hnn Hpos) as -> Hpay.
      assert (b1 = 0) as -> by lia.
      destruct (Z.eq_dec z 0) as [->|Hz]; [done|].
      pose proof (magnitude_bounds z Hz) as [Hlo _].
      pose proof (be_val_payload z) as Hbv.
      rewrite <- Hpay in Hlo, Hbv. cbn [length] in Hlo.
      replace (S (S (length l')) - 1)%nat with (S (length l')) in Hlo by lia.
      rewrite !be_val_cons, !to_uint8_jbyte in Hbv by done.
      cbn [length] in Hbv. rewrite !pow256_S in Hbv. rewrite !pow256_S in Hlo.
      change (0 <? 0) with false in Hbv. cbv iota in Hbv.
      unfold is_jbyte in Hb2. destruct (Z.ltb_spec b2 0); nia.
  - exists (b0 :: b1 :: l).
    split.
    { f_equal. cbn [drop]. rewrite Nat.sub_0_r, <- HlenP.
      apply take_app_length. }
    split; [done|].
    split; [cbn [minimal]; by rewrite Hred|].
    split; [done | cbn in *; lia].
Qed.

(** What the scratch block held before it was filled does not matter. *)
Lemma encode_scratch_indep z aux aux' :
  let n := Z.to_nat (nbytes_of z) in
  (n <= length aux)%nat -> (n <= length aux')%nat ->
  encode_scratch z n aux = encode_scratch z n aux'.
Proof.
  intros n Ha Ha'. subst n. unfold encode_scratch.
  rewrite !scratch_filled by done.
  pose proof (length_payload z) as Hpl.
  pose proof (nbytes_of_ge z) as Hge.
  assert (Htrim : forall P rest,
    length P = Z.to_nat (nbytes_of z) ->
    (let r := if redundant (P ++ rest) then 1%nat else 0%nat in
     take (Z.to_nat (nbytes_of z) - r) (drop r (P ++ rest))) =
    (let r := if redundant P then 1%nat else 0%nat in drop r P)).
  { intros P rest HP. destruct P as [|b0 [|b1 l]]; [cbn in HP; lia..|].
    rewrite redundant_app. cbv zeta. rewrite <- HP.
    destruct (redundant (b0 :: b1 :: l)).
    - cbn [app drop length].
      replace (S (S (length l)) - 1)%nat with (length (b1 :: l)) by (cbn; lia).
      exact (take_app_length (b1 :: l) _).
    - cbn [drop]. rewrite Nat.sub_0_r. apply take_app_length. }
  destruct (mpz_sgn z <? 0).
  - rewrite <- Hpl.
    change (S (length (payload z))) with (length (0 :: payload z)).
    rewrite !negate_bytes_app by (cbn; lia).
    destruct (negate_bytes (0 :: payload z) (length (0 :: payload z)))
      as [P|] eqn:HP; [|done].
    apply length_negate_bytes in HP. cbn [fmap option_fmap option_map].
    cbn [length] in HP |- *. rewrite Hpl in HP |- *.
    f_equal. by rewrite !Htrim.
  - f_equal. rewrite !Htrim; [done|cbn [length]; lia..].
Qed.

Lemma encode_scratch_encode z aux :
  (Z.to_nat (nbytes_of z) <= length aux)%nat ->
  encode_scratch z (Z.to_nat (nbytes_of z)) aux = encode z.
Proof.
  intros Ha. unfold encode. apply encode_scratch_indep; [done|].
  rewrite length_replicate. lia.
Qed.

Lemma encode_spec z :
  exists bs,
    encode z = Some bs /\ sval bs = z /\ minimal bs = true /\
    Forall is_jbyte bs /\ (1 <= length bs <= Z.to_nat (nbytes_of z))%nat.
Proof.
  unfold encode. apply encode_scratch_spec. rewrite length_replicate. lia.
Qed.

End Encoding.

(** * Running the JNI primitives *)

Section Primitives.

Implicit Types (s : jni) (a p q : loc) (l : list Z).

Lemma fresh_None (h : gmap loc (list Z)) : h !! fresh (dom h) = None.
Proof. apply not_elem_of_dom, is_fresh. Qed.

Lemma within_same old new : length old = length new -> within old new = new.
Proof.
  intros H. unfold within. rewrite H, take_ge, drop_ge by lia.
  apply app_nil_r.
Qed.

Lemma length_uninit s n : length (uninit s n) = n.
Proof. unfold uninit. by rewrite length_fmap, length_seq. Qed.


Lemma GetArrayLength_run a l s :
  heap s !! a = Some l -> GetArrayLength a s = Done (length l) s.
Proof. unfold GetArrayLength. by intros ->. Qed.

Lemma load_run p l s : heap s !! p = Some l -> load p s = Done l s.
Proof. unfold load. by intros ->. Qed.

Lemma store_run p l l' s :
  heap s !! p = Some l ->
  store p l' s = Done tt (with_heap (<[p := l']> (heap s)) s).
Proof. unfold store. by intros ->. Qed.

(** What [Get<Type>ArrayElements] leaves behind: a null pointer and an
    untouched state, or a pointer [q] whose block holds the array's
    cells, [q] being the array itself or a location that was free. *)
Lemma GetArrayElements_spec a l s :
  heap s !! a = Some l ->
  exists ptr flag s',
    GetArrayElements a s = Done (ptr, flag) s' /\
    trace s' = trace s /\
    jvm_elems s' = (next_choice s).2 /\
    match ptr with
    | None =>
        (next_choice s).1 = ElemsNull /\
        heap s' = heap s /\ views s' = views s
    | Some q =>
        (next_choice s).1 <> ElemsNull /\
        heap s' = <[q := l]> (heap s) /\
        views s' = (a, q) :: views s /\
        ((q = a /\ (next_choice s).1 = ElemsDirect) \/
         (heap s !! q = None /\ (next_choice s).1 = ElemsCopy))
    end.
Proof.
  intros Ha. unfold GetArrayElements. rewrite Ha.
  destruct (next_choice s) as [c rest]. destruct c; cbn.
  - by exists None, false, (with_jvm_elems rest s).
  - eexists (Some a), false, _. split; [done|]. cbn.
    repeat split; try done.
    + symmetry. by apply insert_id.
    + by left.
  - eexists (Some _), true, _. split; [done|]. cbn.
    repeat split; try done. right. split; [apply fresh_None | done].
Qed.

Lemma remove_view_head v vs : remove_view v (v :: vs) = vs.
Proof. cbn. by rewrite decide_True. Qed.

(** Releasing a view in abort mode frees a copy and writes nothing
    back. *)
Lemma Release_abort_spec a q l s :
  (a, q) ∈ views s ->
  heap s !! q = Some l ->
  ReleaseArrayElements a q JNI_ABORT s =
  Done tt (with_views (remove_view (a, q) (views s))
             (with_heap (if decide (q = a) then heap s else delete q (heap s)) s)).
Proof.
  intros Hin Hq. unfold ReleaseArrayElements.
  rewrite decide_True by done. destruct (decide (q = a)) as [->|Hne].
  - by destruct s.
  - by rewrite Hq.
Qed.

Lemma next_alloc_ok s :
  allocs_ok s = true ->
  (next_alloc s).1 = true /\ forallb id (next_alloc s).2 = true.
Proof.
  unfold allocs_ok, next_alloc. destruct (allocs s) as [|[] rest]; cbn; done.
Qed.

Lemma NewArray_ok n s :
  allocs_ok s = true ->
  exists s',
    NewArray n s = Done (Some (fresh (dom (heap s)))) s' /\
    heap s' = <[fresh (dom (heap s)) := replicate n 0]> (heap s) /\
    trace s' = trace s /\ views s' = views s /\ allocs_ok s' = true.
Proof.
  intros Hok. apply next_alloc_ok in Hok as [H1 H2].
  unfold NewArray. destruct (next_alloc s) as [ok rest]. cbn in *.
  subst ok. eexists. split; [done|]. by cbn.
Qed.

Lemma cxx_new_ok n s :
  allocs_ok s = true ->
  exists s',
    cxx_new n s = Done (Some (fresh (dom (heap s)))) s' /\
    heap s' = <[fresh (dom (heap s)) := uninit s n]> (heap s) /\
    trace s' = trace s /\ views s' = views s /\ allocs_ok s' = true.
Proof.
  intros Hok. apply next_alloc_ok in Hok as [H1 H2].
  unfold cxx_new. destruct (next_alloc s) as [ok rest]. cbn in *.
  subst ok. eexists. split; [done|]. by cbn.
Qed.

Lemma SetArrayRegion_run a l data s :
  heap s !! a = Some l -> length data = length l ->
  SetArrayRegion a data s = Done tt (with_heap (<[a := data]> (heap s)) s).
Proof.
  intros Ha Hlen. unfold SetArrayRegion. rewrite Ha.
  rewrite decide_True by lia. by rewrite within_same.
Qed.

(** With memory available the encoder returns a fresh array that holds
    [encode z], and leaves nothing else behind. *)
Lemma mpz_to_byte_array_run z s bs :
  nbytes_of z <= INT32_MAX ->
  allocs_ok s = true ->
  encode z = Some bs ->
  exists arr s',
    mpz_to_byte_array z s = Done (Some arr) s' /\
    heap s !! arr = None /\
    heap s' = <[arr := bs]> (heap s) /\
    trace s' = trace s /\ views s' = views s.
Proof.
  intros Hmax Hok Henc. unfold mpz_to_byte_array.
  destruct (Z.leb_spec (nbytes_of z) 32) as [Hsmall|Hbig].
  - mrun. unfold stack_block. cbv beta iota.
    rewrite encode_scratch_encode, Henc by (rewrite length_uninit; lia).
    destruct (NewArray_ok (length bs) s Hok) as (s1 & Hnew & Hh1 & Ht1 & Hv1 & _).
    rewrite Hnew. cbv beta iota.
    rewrite (SetArrayRegion_run _ (replicate (length bs) 0))
      by (rewrite ?Hh1, ?lookup_insert_eq, ?length_replicate; done).
    eexists _, _. split; [done|]. cbn.
    rewrite Hh1, insert_insert_eq. repeat split; try done.
    apply fresh_None.
  - destruct (Z.leb_spec (nbytes_of z) INT32_MAX); [|lia].
    mrun.
    destruct (cxx_new_ok (Z.to_nat (nbytes_of z)) s Hok)
      as (s1 & Hnew & Hh1 & Ht1 & Hv1 & Hok1).
    set (p := fresh (dom (heap s))) in *.
    assert (Hp : heap s !! p = None) by apply fresh_None.
    rewrite Hnew. cbv beta iota.
    rewrite (load_run p (uninit s (Z.to_nat (nbytes_of z))))
      by (rewrite Hh1; apply lookup_insert_eq).
    cbv beta iota.
    rewrite encode_scratch_encode, Henc by (rewrite length_uninit; lia).
    destruct (NewArray_ok (length bs) s1 Hok1) as (s2 & Hnew2 & Hh2 & Ht2 & Hv2 & _).
    set (r := fresh (dom (heap s1))) in *.
    assert (Hr : heap s1 !! r = None) by apply fresh_None.
    assert (Hrp : r <> p).
    { intros ->. rewrite Hh1, lookup_insert_eq in Hr. done. }
    rewrite Hnew2. cbv beta iota.
    rewrite (SetArrayRegion_run _ (replicate (length bs) 0))
      by (rewrite ?Hh2, ?lookup_insert_eq, ?length_replicate; done).
    unfold cxx_delete. cbn.
    rewrite Hh2, insert_insert_eq, lookup_insert_ne, Hh1, lookup_insert_eq by done.
    eexists _, _. split; [done|]. cbn.
    rewrite Hh1, lookup_insert_ne in Hr by done.
    split; [done|]. split; [|by rewrite Ht2, Ht1, Hv2, Hv1].
    rewrite delete_insert_ne, delete_insert_eq by done.
    rewrite delete_id by done. done.
Qed.

End Primitives.

Lemma jbytes_Forall bs : jbytes bs = true -> Forall is_jbyte bs.
Proof.
  unfold jbytes. rewrite forallb_forall, Forall_forall. intros H x Hx.
  apply list_elem_of_In, H in Hx. unfold is_jbyteb, is_jbyte in *.
  apply andb_true_iff in Hx as [H1 H2].
  apply Z.leb_le in H1, H2. lia.
Qed.

(** * The rational constructor *)

Section Rational.

Variable lib : yices_lib.

Lemma views_granted_next s :
  views_granted s = true ->
  (next_choice s).1 <> ElemsNull /\
  forallb (fun c => match c with ElemsNull => false | _ => true end)
    (next_choice s).2 = true.
Proof.
  unfold views_granted, next_choice.
  destruct (jvm_elems s) as [|[] rest]; cbn; done.
Qed.

Lemma byte_array_to_mpz_at_run p bs s :
  heap s !! p = Some bs -> bs <> [] -> Forall is_jbyte bs ->
  exists bs',
    byte_array_to_mpz_at p (length bs) s =
      Done (sval bs) (with_heap (<[p := bs']> (heap s)) s) /\
    length bs' = length bs /\ Forall is_jbyte bs' /\
    (0 <= bs !!! 0%nat -> bs' = bs).
Proof.
  intros Hp Hne Hall.
  destruct (byte_array_to_mpz_sval bs Hne Hall)
    as (bs' & Hdec & Hlen & Hsame & Hall').
  exists bs'. unfold byte_array_to_mpz_at. mrun.
  rewrite (load_run p bs) by done. cbv beta iota. rewrite Hdec.
  rewrite (store_run p bs) by done. done.
Qed.

(** The array behind a second handle still holds its cells after a view
    of a first one was taken. *)
Lemma lookup_after_view (h : gmap loc (list Z)) a b q la lb :
  h !! a = Some la -> h !! b = Some lb ->
  q = a \/ h !! q = None ->
  <[q := la]> h !! b = Some lb.
Proof.
  intros Ha Hb [->|Hq].
  - by rewrite insert_id.
  - rewrite lookup_insert_ne; [done|]. intros ->. congruence.
Qed.

Lemma release_one s a q vs :
  views s = (a, q) :: vs -> is_Some (heap s !! q) ->
  exists s',
    release_if a (Some q) s = Done tt s' /\
    views s' = vs /\ trace s' = trace s.
Proof.
  intros Hv [l Hl]. unfold release_if.
  rewrite (Release_abort_spec a q l) by (rewrite ?Hv; set_solver).
  eexists. split; [done|]. cbn. rewrite Hv, remove_view_head. done.
Qed.

(** Releasing the two views of the rational constructor, the numerator's
    first, leaves the views as they were before the call. *)
Lemma release_both s num den pn pd vs (r : Z) :
  views s = (den, pd) :: (num, pn) :: vs ->
  is_Some (heap s !! pn) -> is_Some (heap s !! pd) ->
  (pd = pn -> pn = num) ->
  exists s',
    (release_if num (Some pn) ≫= λ _,
     release_if den (Some pd) ≫= λ _, mret r) s = Done r s' /\
    views s' = vs /\ trace s' = trace s.
Proof.
  intros Hv [ln Hn] [ld Hd] Halias. mrun. unfold release_if.
  rewrite (Release_abort_spec num pn ln) by (rewrite ?Hv; set_solver).
  set (s1 := with_views _ _).
  assert (Hv1 : views s1 = if decide ((num, pn) = (den, pd))
                           then (num, pn) :: vs else (den, pd) :: vs).
  { subst s1. cbn [views with_views]. rewrite Hv. cbn [remove_view].
    destruct (decide _); [done|]. by rewrite decide_True. }
  assert (Hd1 : is_Some (heap s1 !! pd)).
  { subst s1. cbn. destruct (decide (pn = num)); [by eexists|].
    rewrite lookup_delete_ne; [by eexists|]. intros ->. by apply n, Halias. }
  destruct Hd1 as [ld' Hd1].
  rewrite (Release_abort_spec den pd ld'); [| |done].
  - eexists. split; [done|]. cbn [views with_views trace with_heap].
    split; [|done]. rewrite Hv1.
    destruct (decide ((num, pn) = (den, pd))) as [Heq|Hne];
      [injection Heq as Hx Hy; subst|]; apply remove_view_head.
  - rewrite Hv1.
    destruct (decide ((num, pn) = (den, pd))) as [Heq|Hne];
      [injection Heq as Hx Hy; subst|]; set_solver.
Qed.

Lemma mpz_sgn_eqb z : (mpz_sgn z =? 0) = (z =? 0).
Proof. unfold mpz_sgn. destruct z; done. Qed.

(** Every run of the rational constructor on two arrays of well-formed
    bytes: either the JVM refused a view, and an out-of-memory error is
    raised, or both numbers are decoded and dealt with as
    [rational_result] and [rational_events] say.  The denominator is
    decoded to [sval bd] unless both handles are the same array and the
    decoding of the numerator rewrote it. *)
Lemma rational_run s num den bn bd :
  heap s !! num = Some bn -> heap s !! den = Some bd ->
  bn <> [] -> bd <> [] -> Forall is_jbyte bn -> Forall is_jbyte bd ->
  exists r s',
    Java_com_sri_yices_Yices_bytesToRationalConstant lib num den s
      = Done r s' /\
    views s' = views s /\
    ((views_granted s = false /\ r = -1 /\
      trace s' = trace s ++ [OutOfMem]) \/
     (exists qd,
        (num <> den \/ 0 <= bd !!! 0%nat -> qd = sval bd) /\
        r = rational_result lib (sval bn) qd /\
        trace s' = trace s ++ rational_events lib (sval bn) qd)).
Proof.
  intros Hnum Hden Hnn Hdn Hjn Hjd.
  unfold Java_com_sri_yices_Yices_bytesToRationalConstant. mrun.
  rewrite (GetArrayLength_run num bn) by done. cbv beta iota.
  destruct (GetArrayElements_spec num bn s Hnum)
    as (p1 & f1 & s1 & Hg1 & Ht1 & Hj1 & Hpost1).
  rewrite Hg1. cbv beta iota.
  assert (Hden1 : heap s1 !! den = Some bd).
  { destruct p1 as [q|].
    - destruct Hpost1 as (_ & Hh & _ & Hq). rewrite Hh.
      eapply lookup_after_view; [done..|]. tauto.
    - destruct Hpost1 as (_ & -> & _). done. }
  rewrite (GetArrayLength_run den bd) by done. cbv beta iota.
  destruct (GetArrayElements_spec den bd s1 Hden1)
    as (p2 & f2 & s2 & Hg2 & Ht2 & Hj2 & Hpost2).
  rewrite Hg2. cbv beta iota.
  assert (Hnull : (next_choice s).1 = ElemsNull \/
                  (next_choice s1).1 = ElemsNull ->
                  views_granted s = false).
  { intros Hc. destruct (views_granted s) eqn:Hg; [exfalso|done].
    apply views_granted_next in Hg as [Hc1 Hrest].
    rewrite <- Hj1 in Hrest. apply views_granted_next in Hrest as [Hc2 _].
    tauto. }
  destruct p1 as [pn|], p2 as [pd|].
  - destruct Hpost1 as (_ & Hh1 & Hv1 & Hq1).
    destruct Hpost2 as (_ & Hh2 & Hv2 & Hq2).
    assert (Hpn1 : heap s1 !! pn = Some bn)
      by (rewrite Hh1; apply lookup_insert_eq).
    assert (Halias : pd = pn -> pn = num /\ num = den /\ bn = bd).
    { intros ->. destruct Hq2 as [[-> _]|[? _]]; [|congruence].
      destruct Hq1 as [[-> _]|[? _]]; [|congruence].
      split; [done|]. split; [done|]. congruence. }
    assert (Hpn2 : heap s2 !! pn = Some bn).
    { rewrite Hh2. destruct (decide (pd = pn)) as [Heq|Hne].
      - destruct (Halias Heq) as (_ & _ & ->). subst pd.
        apply lookup_insert_eq.
      - by rewrite lookup_insert_ne. }
    destruct (byte_array_to_mpz_at_run pn bn s2 Hpn2 Hnn Hjn)
      as (bn' & Hdec1 & Hlen1 & Hjn' & Hsame1).
    rewrite Hdec1. cbv beta iota.
    set (s3 := with_heap _ s2).
    set (cd := if decide (pd = pn) then bn' else bd).
    assert (Hpd3 : heap s3 !! pd = Some cd).
    { subst s3 cd. cbn [heap with_heap].
      destruct (decide (pd = pn)) as [->|Hne]; [apply lookup_insert_eq|].
      rewrite lookup_insert_ne, Hh2 by done. apply lookup_insert_eq. }
    assert (Hcdlen : length bd = length cd).
    { subst cd. destruct (decide (pd = pn)) as [Heq|]; [|done].
      destruct (Halias Heq) as (_ & _ & ->). done. }
    assert (Hcdne : cd <> []).
    { intros Hnil. rewrite Hnil in Hcdlen. by destruct bd. }
    assert (Hcdj : Forall is_jbyte cd).
    { subst cd. by destruct (decide (pd = pn)). }
    rewrite Hcdlen.
    destruct (byte_array_to_mpz_at_run pd cd s3 Hpd3 Hcdne Hcdj)
      as (cd' & Hdec2 & Hlen2 & _ & _).
    rewrite Hdec2. cbv beta iota.
    set (s4 := with_heap _ s3).
    assert (Hv4 : views s4 = (den, pd) :: (num, pn) :: views s).
    { subst s4 s3. cbn. by rewrite Hv2, Hv1. }
    assert (Hn4 : is_Some (heap s4 !! pn)).
    { subst s4 s3. cbn [heap with_heap].
      destruct (decide (pd = pn)) as [->|Hne].
      - rewrite lookup_insert_eq. by eexists.
      - rewrite lookup_insert_ne, lookup_insert_eq by done. by eexists. }
    assert (Hd4 : is_Some (heap s4 !! pd)).
    { subst s4. cbn [heap with_heap]. rewrite lookup_insert_eq. by eexists. }
    assert (Ht4 : trace s4 = trace s).
    { subst s4 s3. cbn. by rewrite Ht2, Ht1. }
    assert (Hqd : num <> den \/ 0 <= bd !!! 0%nat -> sval cd = sval bd).
    { intros Hc. subst cd. destruct (decide (pd = pn)) as [Heq|]; [|done].
      destruct (Halias Heq) as (_ & Hsame & <-).
      destruct Hc as [Hc|Hc]; [done|]. by rewrite Hsame1. }
    assert (Hal4 : pd = pn -> pn = num) by (intros Heq; by apply Halias).
    rewrite mpz_sgn_eqb.
    unfold rational_result, rational_events, out_of_mem_exception, emit.
    destruct (Z.eqb_spec (sval cd) 0) as [Hz|Hnz]; cbv beta iota zeta;
      cbn [negb].
    + destruct (release_both s4 num den pn pd (views s) (-1))
        as (s' & Hrel & Hv' & Ht'); [done..|].
      mrun. mrun. revert Hrel. mrun. intros ->.
      exists (-1), s'. split; [done|]. split; [done|]. right.
      exists (sval cd). rewrite Hz in *. cbn. rewrite Ht', Ht4, app_nil_r.
      split; [intros Hc; by apply Hqd|done].
    + destruct (yices_mpq lib (mpq_canonicalize (sval bn, sval cd)))
        as [t|] eqn:Hy.
      * set (s5 := log _ (log _ s4)).
        destruct (release_both s5 num den pn pd (views s) t)
          as (s' & Hrel & Hv' & Ht'); [done..|].
        revert Hrel. mrun. intros ->.
        exists t, s'. split; [done|]. split; [done|]. right.
        exists (sval cd). split; [done|].
        destruct (Z.eqb_spec (sval cd) 0); [done|]. rewrite Hy.
        split; [done|]. rewrite Ht'. subst s5. cbn [trace log].
        rewrite Ht4. by rewrite <- !app_assoc.
      * set (s5 := log _ (log _ (log _ s4))).
        destruct (release_both s5 num den pn pd (views s) (-1))
          as (s' & Hrel & Hv' & Ht'); [done..|].
        revert Hrel. mrun. intros ->.
        exists (-1), s'. split; [done|]. split; [done|]. right.
        exists (sval cd). split; [done|].
        destruct (Z.eqb_spec (sval cd) 0); [done|]. rewrite Hy.
        split; [done|]. rewrite Ht'. subst s5. cbn [trace log].
        rewrite Ht4. by rewrite <- !app_assoc.
  - destruct Hpost1 as (_ & Hh1 & Hv1 & _).
    destruct Hpost2 as (Hc2 & Hh2 & Hv2).
    unfold out_of_mem_exception, emit.
    destruct (release_one (log OutOfMem s2) num pn (views s))
      as (s' & Hrel & Hv' & Ht').
    { cbn. by rewrite Hv2, Hv1. }
    { cbn. rewrite Hh2, Hh1, lookup_insert_eq. by eexists. }
    rewrite Hrel. unfold release_if. cbv beta iota. mrun.
    exists (-1), s'. split; [done|]. split; [done|]. left.
    split; [apply Hnull; by right|]. split; [done|].
    rewrite Ht'. cbn. by rewrite Ht2, Ht1.
  - destruct Hpost1 as (Hc1 & Hh1 & Hv1).
    destruct Hpost2 as (_ & Hh2 & Hv2 & _).
    unfold out_of_mem_exception, emit.
    destruct (release_one (log OutOfMem s2) den pd (views s))
      as (s' & Hrel & Hv' & Ht').
    { cbn. by rewrite Hv2, Hv1. }
    { cbn. rewrite Hh2, lookup_insert_eq. by eexists. }
    unfold release_if at 1. cbv beta iota. mrun. cbv beta iota.
    rewrite Hrel.
    exists (-1), s'. split; [done|]. split; [done|]. left.
    split; [apply Hnull; by left|]. split; [done|].
    rewrite Ht'. cbn. by rewrite Ht2, Ht1.
  - destruct Hpost1 as (Hc1 & Hh1 & Hv1).
    destruct Hpost2 as (Hc2 & Hh2 & Hv2).
    unfold out_of_mem_exception, emit, release_if. cbv beta iota.
    eexists _, _. split; [done|]. cbn. split; [by rewrite Hv2, Hv1|].
    left. split; [apply Hnull; by left|]. split; [done|].
    by rewrite Ht2, Ht1.
Qed.

Lemma mpq_canonicalize_spec n d :
  d <> 0 ->
  let q := mpq_canonicalize (n, d) in
  0 < q.2 /\ Z.gcd q.1 q.2 = 1 /\ q.1 * d = n * q.2.
Proof.
  intros Hd. unfold mpq_canonicalize.
  set (g := Z.gcd n d).
  assert (Hg : 0 < g).
  { pose proof (Z.gcd_nonneg n d). fold g in H.
    assert (g <> 0); [|lia]. unfold g. intros H0.
    apply Z.gcd_eq_0_r in H0. done. }
  destruct (Z.gcd_divide_l n d) as [n' Hn'].
  destruct (Z.gcd_divide_r n d) as [d' Hd'].
  fold g in Hn', Hd'.
  assert (Hgcd : Z.gcd (n / g) (d / g) = 1)
    by (apply Z.gcd_div_gcd; [lia|done]).
  rewrite Hn', Hd' in Hgcd |- *. rewrite !Z.div_mul in Hgcd |- * by lia.
  assert (d' <> 0) by (intros ->; lia).
  destruct (Z.ltb_spec d' 0); cbn [fst snd].
  - rewrite Z.gcd_opp_l, Z.gcd_opp_r. split; [lia|]. split; [done|]. lia.
  - split; [lia|]. split; [done|]. lia.
Qed.

(** A fraction has one representation in lowest terms with a positive
    denominator. *)
Lemma canonical_unique a1 b1 a2 b2 :
  0 < b1 -> 0 < b2 -> Z.gcd a1 b1 = 1 -> Z.gcd a2 b2 = 1 ->
  a1 * b2 = a2 * b1 -> (a1, b1) = (a2, b2).
Proof.
  intros Hb1 Hb2 Hg1 Hg2 Hcross.
  assert (H12 : (b1 | b2)).
  { apply (Z.gauss b1 a1 b2); [|by rewrite Z.gcd_comm].
    exists a2. lia. }
  assert (H21 : (b2 | b1)).
  { apply (Z.gauss b2 a2 b1); [|by rewrite Z.gcd_comm].
    exists a1. lia. }
  assert (b1 = b2) as -> by (apply Z.divide_antisym_nonneg; [lia|lia|done..]).
  f_equal. apply (Z.mul_reg_r _ _ b2); lia.
Qed.

Lemma mpq_canonicalize_equal n1 d1 n2 d2 :
  d1 <> 0 -> d2 <> 0 -> n1 * d2 = n2 * d1 ->
  mpq_canonicalize (n1, d1) = mpq_canonicalize (n2, d2).
Proof.
  intros Hd1 Hd2 Hcross.
  destruct (mpq_canonicalize_spec n1 d1 Hd1) as (Hp1 & Hg1 & Hc1).
  destruct (mpq_canonicalize_spec n2 d2 Hd2) as (Hp2 & Hg2 & Hc2).
  cbv zeta in *.
  destruct (mpq_canonicalize (n1, d1)) as [a1 b1].
  destruct (mpq_canonicalize (n2, d2)) as [a2 b2]. cbn [fst snd] in *.
  apply canonical_unique; try done.
  apply (Z.mul_reg_r _ _ (d1 * d2)); [by apply Z.neq_mul_0|].
  replace (a1 * b2 * (d1 * d2)) with (a1 * d1 * b2 * d2) by ring.
  rewrite Hc1.
  replace (n1 * b1 * b2 * d2) with (b1 * b2 * (n1 * d2)) by ring.
  rewrite Hcross.
  replace (a2 * b1 * (d1 * d2)) with (b1 * d1 * (a2 * d2)) by ring.
  rewrite Hc2. ring.
Qed.

Lemma sval_zero_head bs :
  Forall is_jbyte bs -> sval bs = 0 -> 0 <= bs !!! 0%nat.
Proof.
  destruct bs as [|b l]; [done|]. intros Hall.
  assert (Hb : is_jbyte b) by (by inversion Hall).
  rewrite sval_cons by done. cbn [lookup_total list_lookup_total].
  pose proof (be_val_range l). pose proof (pow256_pos (length l)).
  destruct (Z.ltb_spec b 0); [nia|lia].
Qed.

Lemma byte_array_at_spec s a bs :
  byte_array_at s a bs = true ->
  heap s !! a = Some bs /\ bs <> [] /\ Forall is_jbyte bs /\
  decoded bs = Some (sval bs).
Proof.
  unfold byte_array_at. rewrite !andb_true_iff, !bool_decide_eq_true.
  intros [[Ha Hlen] Hj]. apply jbytes_Forall in Hj.
  assert (Hne : bs <> []) by (intros ->; cbn in Hlen; lia).
  repeat split; try done.
  destruct (byte_array_to_mpz_sval bs Hne Hj) as (bs' & Hdec & _).
  unfold decoded. by rewrite Hdec.
Qed.

End Rational.

(** * Views taken and released in turn *)

Section Views.

Implicit Types (s : jni) (a k : loc) (l : list Z) (h : gmap loc (list Z)).

Lemma GetArrayElements_view a l s :
  heap s !! a = Some l ->
  exists ptr flag s',
    GetArrayElements a s = Done (ptr, flag) s' /\
    trace s' = trace s /\
    heap s' = heap_with ptr l (heap s) /\
    views s' = view_of a ptr ++ views s /\
    ptr_ok a ptr (heap s).
Proof.
  intros Ha.
  destruct (GetArrayElements_spec a l s Ha)
    as (ptr & flag & s' & Hrun & Ht & _ & Hpost).
  exists ptr, flag, s'. split; [done|]. split; [done|].
  destruct ptr as [q|]; cbn.
  - destruct Hpost as (_ & Hh & Hv & Hq). repeat split; try done. tauto.
  - destruct Hpost as (_ & Hh & Hv). done.
Qed.

(** Taking a view keeps what every block that was there holds. *)
Lemma heap_with_lookup h a l ptr k v :
  h !! a = Some l -> ptr_ok a ptr h -> h !! k = Some v ->
  heap_with ptr l h !! k = Some v.
Proof.
  intros Ha Hok Hk. destruct ptr as [q|]; [|done]. cbn in *.
  by apply (lookup_after_view h a k q l v).
Qed.

Lemma heap_with_ptr h l q : heap_with (Some q) l h !! q = Some l.
Proof. apply lookup_insert_eq. Qed.

Lemma release_if_spec a ptr s vs :
  views s = view_of a ptr ++ vs ->
  (forall q, ptr = Some q -> is_Some (heap s !! q)) ->
  exists s',
    release_if a ptr s = Done tt s' /\
    views s' = vs /\ trace s' = trace s /\
    heap s' = released a ptr (heap s).
Proof.
  intros Hv Hq. destruct ptr as [q|]; cbn in *.
  - destruct (Hq q eq_refl) as [l Hl].
    rewrite (Release_abort_spec a q l) by (rewrite ?Hv; by try left).
    eexists. split; [done|]. cbn. by rewrite Hv, remove_view_head.
  - exists s. by destruct s.
Qed.

(** Releasing a view keeps the blocks that were there before the view
    was taken. *)
Lemma released_is_Some h0 h a ptr k :
  ptr_ok a ptr h0 -> is_Some (h0 !! k) -> is_Some (h !! k) ->
  is_Some (released a ptr h !! k).
Proof.
  intros Hok H0 Hk. destruct ptr as [q|]; [|done]. cbn in *.
  destruct (decide (q = a)); [done|].
  destruct Hok as [|Hnone]; [done|].
  rewrite lookup_delete_ne; [done|]. intros ->.
  rewrite Hnone in H0. by destruct H0.
Qed.

End Views.

(** * The polynomial constructors *)

Section Polynomials.

Variable lib : yices_lib.

Lemma all_positive_longs_Forall a :
  all_positive_longs a = true <-> Forall (fun x => 0 <= x) a.
Proof.
  induction a as [|x a IH]; cbn; [split; [constructor|done]|].
  rewrite Forall_cons, <- IH. destruct (Z.ltb_spec x 0); [|tauto].
  split; [done|lia].
Qed.

Lemma intPoly_mismatch s coeff t lc lt :
  heap s !! coeff = Some lc -> heap s !! t = Some lt ->
  length lc <> length lt ->
  Java_com_sri_yices_Yices_intPoly lib coeff t s = Done (-1) s.
Proof.
  intros Hc Ht Hne.
  unfold Java_com_sri_yices_Yices_intPoly. mrun.
  rewrite (GetArrayLength_run coeff lc), (GetArrayLength_run t lt) by done.
  cbv beta iota. by rewrite decide_False.
Qed.

Lemma rationalPoly_mismatch s num den t ln ld lt :
  heap s !! num = Some ln -> heap s !! den = Some ld ->
  heap s !! t = Some lt ->
  ~ (length ln = length ld /\ length ln = length lt) ->
  Java_com_sri_yices_Yices_rationalPoly lib num den t s = Done (-1) s.
Proof.
  intros Hn Hd Ht Hne.
  unfold Java_com_sri_yices_Yices_rationalPoly. mrun.
  rewrite (GetArrayLength_run num ln), (GetArrayLength_run den ld) by done.
  cbv beta iota. destruct (decide (length ln = length ld)) as [Heq|]; [|done].
  rewrite (GetArrayLength_run t lt) by done. cbv beta iota.
  rewrite bool_decide_eq_false_2; [done|]. tauto.
Qed.

(** Every run of [rationalPoly] on three arrays of one length: the JVM
    refused a view, or some denominator is negative and nothing is
    called, or the solver is called once on the three arrays.  In each
    case every view taken is released. *)
Lemma rationalPoly_run s num den t ln ld lt :
  heap s !! num = Some ln -> heap s !! den = Some ld ->
  heap s !! t = Some lt ->
  length ln = length ld -> length ln = length lt ->
  exists r s',
    Java_com_sri_yices_Yices_rationalPoly lib num den t s = Done r s' /\
    views s' = views s /\
    ((r = -1 /\ trace s' = trace s ++ [OutOfMem]) \/
     (all_positive_longs ld = false /\ r = -1 /\ trace s' = trace s) \/
     (all_positive_longs ld = true /\
      exists tl,
        trace s' =
          trace s ++ Native (Call_poly_rational64 ln ld lt) :: tl)).
Proof.
  intros Hnum Hden Ht Hnd Hnt.
  unfold Java_com_sri_yices_Yices_rationalPoly. mrun.
  rewrite (GetArrayLength_run num ln), (GetArrayLength_run den ld) by done.
  cbv beta iota. rewrite decide_True by done.
  rewrite (GetArrayLength_run t lt) by done. cbv beta iota.
  rewrite bool_decide_eq_true_2 by done.
  destruct (GetArrayElements_view t lt s Ht)
    as (a & fa & s1 & Hg1 & Ht1 & Hh1 & Hv1 & Hok1).
  rewrite Hg1. cbv beta iota.
  assert (Hnum1 : heap s1 !! num = Some ln)
    by (rewrite Hh1; by apply (heap_with_lookup _ t)).
  assert (Hden1 : heap s1 !! den = Some ld)
    by (rewrite Hh1; by apply (heap_with_lookup _ t)).
  destruct (GetArrayElements_view num ln s1 Hnum1)
    as (p & fp & s2 & Hg2 & Ht2 & Hh2 & Hv2 & Hok2).
  rewrite Hg2. cbv beta iota.
  assert (Hden2 : heap s2 !! den = Some ld)
    by (rewrite Hh2; by apply (heap_with_lookup _ num)).
  destruct (GetArrayElements_view den ld s2 Hden2)
    as (q & fq & s3 & Hg3 & Ht3 & Hh3 & Hv3 & Hok3).
  rewrite Hg3. cbv beta iota.
  assert (Ha1 : forall pa, a = Some pa -> heap s1 !! pa = Some lt).
  { intros pa ->. rewrite Hh1. apply heap_with_ptr. }
  assert (Ha2 : forall pa, a = Some pa -> heap s2 !! pa = Some lt).
  { intros pa Hpa. rewrite Hh2. apply (heap_with_lookup _ num); auto. }
  assert (Ha3 : forall pa, a = Some pa -> heap s3 !! pa = Some lt).
  { intros pa Hpa. rewrite Hh3. apply (heap_with_lookup _ den); auto. }
  assert (Hp2 : forall pp, p = Some pp -> heap s2 !! pp = Some ln).
  { intros pp ->. rewrite Hh2. apply heap_with_ptr. }
  assert (Hp3 : forall pp, p = Some pp -> heap s3 !! pp = Some ln).
  { intros pp Hpp. rewrite Hh3. apply (heap_with_lookup _ den); auto. }
  assert (Hq3 : forall pq, q = Some pq -> heap s3 !! pq = Some ld).
  { intros pq ->. rewrite Hh3. apply heap_with_ptr. }
  assert (Hrel : forall s4 (r : Z),
    heap s4 = heap s3 -> views s4 = views s3 ->
    exists s',
      (release_if den q ≫= λ _, release_if num p ≫= λ _,
       release_if t a ≫= λ _, mret r) s4 = Done r s' /\
      views s' = views s /\ trace s' = trace s4).
  { intros s4 r Hh4 Hv4. mrun.
    destruct (release_if_spec den q s4 (view_of num p ++ view_of t a ++ views s))
      as (s5 & Hr5 & Hv5 & Ht5 & Hh5).
    { by rewrite Hv4, Hv3, Hv2, Hv1. }
    { intros pq Hpq. rewrite Hh4, (Hq3 pq Hpq). by eexists. }
    rewrite Hr5.
    destruct (release_if_spec num p s5 (view_of t a ++ views s))
      as (s6 & Hr6 & Hv6 & Ht6 & Hh6); [done| |].
    { intros pp Hpp. rewrite Hh5, Hh4.
      apply (released_is_Some (heap s2)); [done|..].
      - rewrite (Hp2 pp Hpp). by eexists.
      - rewrite (Hp3 pp Hpp). by eexists. }
    rewrite Hr6.
    destruct (release_if_spec t a s6 (views s))
      as (s7 & Hr7 & Hv7 & Ht7 & Hh7); [by rewrite Hv6| |].
    { intros pa Hpa. rewrite Hh6, Hh5, Hh4.
      apply (released_is_Some (heap s1)); [done|..].
      - rewrite (Ha1 pa Hpa). by eexists.
      - apply (released_is_Some (heap s2)); [done|..].
        + rewrite (Ha2 pa Hpa). by eexists.
        + rewrite (Ha3 pa Hpa). by eexists. }
    rewrite Hr7. exists s7. split; [done|]. split; [done|].
    by rewrite Ht7, Ht6, Ht5. }
  assert (Ht03 : trace s3 = trace s) by (by rewrite Ht3, Ht2, Ht1).
  assert (Hfail : exists r s',
    match (out_of_mem_exception ≫= λ _, mret (-1)) s3 with
    | Done r0 s0 =>
        (release_if den q ≫= λ _, release_if num p ≫= λ _,
         release_if t a ≫= λ _, mret r0) s0
    | Undefined => Undefined
    end = Done r s' /\ views s' = views s /\
    r = -1 /\ trace s' = trace s ++ [OutOfMem]).
  { destruct (Hrel (log OutOfMem s3) (-1)) as (s' & Hr & Hv & Ht'); [done..|].
    exists (-1), s'. unfold out_of_mem_exception, emit. mrun.
    revert Hr. mrun. intros ->. repeat split; try done.
    rewrite Ht'. cbn. by rewrite Ht03. }
  destruct a as [pa|], p as [pp|], q as [pq|];
    try (destruct Hfail as (r & s' & Hr & Hv & -> & Ht');
         revert Hr; mrun; intros Hr; exists (-1), s';
         split; [exact Hr|]; split; [done|]; by left).
  clear Hfail.
  rewrite (load_run pa lt), (load_run pp ln), (load_run pq ld) by auto.
  cbv beta iota. rewrite !take_ge by lia.
  destruct (all_positive_longs ld) eqn:Hpos.
  - unfold emit, out_of_mem_exception. cbv beta iota.
    destruct (yices_poly_rational64 lib ln ld lt) as [r|].
    + destruct (Hrel (log (Native (Call_poly_rational64 ln ld lt)) s3) r)
        as (s' & Hr & Hv & Ht'); [done..|].
      revert Hr. mrun. intros Hr. exists r, s'. split; [exact Hr|].
      split; [done|]. right. right. split; [done|]. exists [].
      rewrite Ht'. cbn. by rewrite Ht03.
    + destruct (Hrel (log OutOfMem
                        (log (Native (Call_poly_rational64 ln ld lt)) s3)) (-1))
        as (s' & Hr & Hv & Ht'); [done..|].
      revert Hr. mrun. intros Hr. exists (-1), s'. split; [exact Hr|].
      split; [done|]. right. right. split; [done|]. exists [OutOfMem].
      rewrite Ht'. cbn. by rewrite Ht03, <- app_assoc.
  - destruct (Hrel s3 (-1)) as (s' & Hr & Hv & Ht'); [done..|].
    revert Hr. mrun. intros Hr. exists (-1), s'. split; [exact Hr|].
    split; [done|]. right. left. by rewrite Ht', Ht03.
Qed.

End Polynomials.

(** * The connectives *)

Section Connectives.

(** Every run of a connective when the JVM grants the view the heap path
    asks for.  Both paths return [connective_result] and add
    [connective_events]; the argument array keeps its cells on the stack
    path and when the view is a copy, and holds what the solver left in
    them when the view points into the array itself. *)
Lemma connective_run small op tag s arg l :
  heap s !! arg = Some l ->
  views_granted s = true ->
  (forall n, small n = true -> (n <= AUX_SIZE)%nat) ->
  exists s',
    connective small op tag arg s = Done (connective_result op l) s' /\
    trace s' = trace s ++ connective_events op tag l /\
    views s' = views s /\
    heap s' !! arg =
      Some (if small (length l) then l
            else match (next_choice s).1 with
                 | ElemsDirect => within l (op l).1
                 | _ => l
                 end).
Proof.
  intros Harg Hgr Hsmall. unfold connective. mrun.
  rewrite (GetArrayLength_run arg l) by done. cbv beta iota.
  unfold connective_result, connective_events.
  destruct (small (length l)) eqn:Hs.
  - rewrite decide_True by (by apply Hsmall).
    unfold GetArrayRegion. rewrite Harg.
    rewrite decide_True by (cbn; lia). rewrite drop_0, take_ge by lia.
    destruct (op l) as [args' [t|]]; cbn [snd];
      unfold emit, out_of_mem_exception; cbv beta iota;
      eexists; (split; [done|]); cbn; rewrite ?app_nil_r, <- ?app_assoc;
      done.
  - unfold cloneIntArray. mrun.
    destruct (GetArrayElements_spec arg l s Harg)
      as (ptr & flag & s1 & Hg & Ht1 & _ & Hpost).
    rewrite Hg. cbv beta iota.
    destruct (views_granted_next s Hgr) as [Hnn _].
    destruct ptr as [q|]; [|by destruct Hpost].
    destruct Hpost as (_ & Hh1 & Hv1 & Hq). cbn [negb].
    unfold call_mutating. mrun.
    rewrite (load_run q l) by (rewrite Hh1; apply lookup_insert_eq).
    cbv beta iota. rewrite decide_True by lia.
    rewrite take_ge, drop_ge by lia.
    destruct (op l) as [args' r]. cbn [fst snd]. rewrite app_nil_r.
    unfold emit. cbv beta iota.
    rewrite (store_run q l) by (cbn; rewrite Hh1; apply lookup_insert_eq).
    cbv beta iota. set (s2 := with_heap _ _).
    assert (Hfree : forall s3 (res : Z),
      heap s3 = heap s2 -> views s3 = views s1 ->
      exists s',
        (freeClonedIntArray arg (Some q) true ≫= λ _, mret res) s3
          = Done res s' /\
        trace s' = trace s3 /\ views s' = views s /\
        heap s' !! arg =
          Some (match (next_choice s).1 with
                | ElemsDirect => within l args'
                | _ => l
                end)).
    { intros s3 res Hh3 Hv3. unfold freeClonedIntArray. mrun.
      rewrite (Release_abort_spec arg q (within l args')).
      - eexists. split; [done|]. cbn.
        rewrite Hv3, Hv1, remove_view_head. split; [done|]. split; [done|].
        rewrite Hh3. subst s2. cbn. rewrite Hh1.
        destruct Hq as [[-> ->]|[Hnone ->]].
        + rewrite decide_True by done. apply lookup_insert_eq.
        + rewrite decide_False by congruence.
          rewrite lookup_delete_ne, !lookup_insert_ne by congruence. done.
      - rewrite Hv3, Hv1. by left.
      - rewrite Hh3. subst s2. cbn. apply lookup_insert_eq. }
    destruct r as [t|]; unfold out_of_mem_exception, emit; cbv beta iota.
    + destruct (Hfree s2 t) as (s' & Hrun & Ht' & Hv' & Hh'); [done..|].
      revert Hrun. mrun. intros ->. exists s'. split; [done|].
      rewrite Ht'. subst s2. cbn. by rewrite Ht1.
    + destruct (Hfree (log OutOfMem s2) (-1))
        as (s' & Hrun & Ht' & Hv' & Hh'); [done..|].
      revert Hrun. mrun. intros ->. exists s'. split; [done|].
      rewrite Ht'. subst s2. cbn. rewrite Ht1, <- app_assoc. done.
Qed.

End Connectives.

(** * The integer constructor and the caller's array *)

Section IntConstant.

Variable lib : yices_lib.

(** [bytesToIntConstant] leaves the caller's array as it was when the JVM
    hands out a copy (or no view), and when the number is not negative.
    With a pointer into the array itself and a negative number, the
    array is left negated. *)
Lemma bytesToIntConstant_frame s a bs :
  heap s !! a = Some bs -> bs <> [] -> Forall is_jbyte bs ->
  (next_choice s).1 <> ElemsDirect \/ 0 <= bs !!! 0%nat ->
  exists r s',
    Java_com_sri_yices_Yices_bytesToIntConstant lib a s = Done r s' /\
    views s' = views s /\
    heap s' !! a = Some bs.
Proof.
  intros Ha Hne Hj Hcase.
  unfold Java_com_sri_yices_Yices_bytesToIntConstant. mrun.
  rewrite (GetArrayLength_run a bs) by done. cbv beta iota.
  destruct (GetArrayElements_spec a bs s Ha)
    as (ptr & flag & s1 & Hg & Ht1 & _ & Hpost).
  rewrite Hg. cbv beta iota. destruct ptr as [p|].
  - destruct Hpost as (_ & Hh1 & Hv1 & Hp).
    destruct (byte_array_to_mpz_at_run p bs s1)
      as (bs' & Hdec & _ & _ & Hsame); [|done..|].
    { rewrite Hh1. apply lookup_insert_eq. }
    rewrite Hdec. cbv beta iota. unfold emit, out_of_mem_exception.
    cbv beta iota. set (s2 := log _ _).
    assert (Hrel : forall s3, heap s3 = heap s2 -> views s3 = views s2 ->
      exists s',
        ReleaseArrayElements a p JNI_ABORT s3 = Done tt s' /\
        views s' = views s /\ heap s' !! a = Some bs).
    { intros s3 Hh3 Hv3.
      rewrite (Release_abort_spec a p bs').
      - eexists. split; [done|]. cbn. rewrite Hv3, Hh3. subst s2. cbn.
        rewrite Hv1, remove_view_head. split; [done|]. rewrite Hh1.
        destruct Hp as [[-> Hdir]|[Hnone _]].
        + rewrite decide_True, lookup_insert_eq by done.
          destruct Hcase as [|Hpos]; [done|]. by rewrite Hsame.
        + rewrite decide_False by congruence.
          rewrite lookup_delete_ne, !lookup_insert_ne by congruence. done.
      - rewrite Hv3. subst s2. cbn. rewrite Hv1. by left.
      - rewrite Hh3. subst s2. cbn. apply lookup_insert_eq. }
    destruct (yices_mpz lib (sval bs)) as [t|]; cbv beta iota.
    + destruct (Hrel s2) as (s' & -> & Hv' & Hh'); [done..|]. by exists t, s'.
    + unfold emit. cbv beta iota.
      destruct (Hrel (log OutOfMem s2)) as (s' & -> & Hv' & Hh'); [done..|].
      by exists (-1), s'.
  - destruct Hpost as (_ & Hh1 & Hv1).
    unfold out_of_mem_exception, emit. cbv beta iota.
    eexists _, _. split; [done|]. cbn. by rewrite Hh1, Hv1.
Qed.

End IntConstant.

(** * The properties of the specification *)

(** C1: for every integer [z] whose byte length fits a Java array, and with
    memory available, [mpz_to_byte_array] returns an array whose bytes are a
    minimal encoding (the first byte is not a redundant 0x00 or 0xFF) and
    which [byte_array_to_mpz] decodes to [z] again. *)
Theorem C1_roundtrip_minimal z s :
  nbytes_of z <= INT32_MAX ->
  allocs_ok s = true ->
  exists arr bs s' left,
    mpz_to_byte_array z s = Done (Some arr) s' /\
    heap s' !! arr = Some bs /\
    byte_array_to_mpz bs (length bs) = Some (z, left) /\
    minimal bs = true /\
    (forall b0 b1 rest, bs = b0 :: b1 :: rest ->
       ~ (b0 = 0 /\ 0 <= b1) /\ ~ (b0 = -1 /\ b1 < 0)).
Proof.
  intros Hmax Hok.
  destruct (encode_spec z) as (bs & Henc & Hsv & Hmin & Hall & Hlen).
  destruct (mpz_to_byte_array_run z s bs Hmax Hok Henc)
    as (arr & s' & Hrun & _ & Hheap & _).
  destruct (byte_array_to_mpz_sval bs) as (left & Hdec & _); [|done|].
  { intros ->. cbn in Hlen. lia. }
  exists arr, bs, s', left. rewrite Hheap, lookup_insert_eq, Hdec, Hsv.
  repeat split; try done.
  - intros [Hb0 Hb1]. subst bs. cbn [minimal] in Hmin.
    apply negb_true_iff in Hmin.
    assert (redundant (b0 :: b1 :: rest) = true); [|congruence].
    apply redundant_true. by left.
  - intros [Hb0 Hb1]. subst bs. cbn [minimal] in Hmin.
    apply negb_true_iff in Hmin.
    assert (redundant (b0 :: b1 :: rest) = true); [|congruence].
    apply redundant_true. by right.
Qed.

Lemma C1_witness :
  exists arr bs s' left,
    mpz_to_byte_array (-255) demo_state = Done (Some arr) s' /\
    heap s' !! arr = Some bs /\
    byte_array_to_mpz bs (length bs) = Some (-255, left) /\
    minimal bs = true /\
    (forall b0 b1 rest, bs = b0 :: b1 :: rest ->
       ~ (b0 = 0 /\ 0 <= b1) /\ ~ (b0 = -1 /\ b1 < 0)).
Proof.
  apply (C1_roundtrip_minimal (-255) demo_state).
  - vm_compute. discriminate.
  - reflexivity.
Defined.

(** C2: with memory available, [mpz_to_byte_array] produces for each of the
    canonical examples (127, -127, 128, -128, 255, -255, 256, -256 and 0)
    exactly the listed bytes: [0x7F], [0x81], [0x00 0x80], [0x80],
    [0x00 0xFF], [0xFF 0x01], [0x01 0x00], [0xFF 0x00] and [0x00]. *)
Theorem C2_canonical_examples s :
  allocs_ok s = true ->
  Forall (fun '(z, bs, hex) =>
            to_uint8 <$> bs = hex /\
            exists arr s',
              mpz_to_byte_array z s = Done (Some arr) s' /\
              heap s' !! arr = Some bs)
         canonical_examples.
Proof.
  intros Hok. unfold canonical_examples.
  repeat (apply Forall_cons; split;
          [split; [reflexivity|];
           match goal with
           | |- exists _ _, mpz_to_byte_array ?z _ = _ /\ _ !! _ = Some ?bs =>
               destruct (mpz_to_byte_array_run z s bs)
                 as (arr & s' & Hrun & _ & Hheap & _);
               [vm_compute; discriminate | exact Hok | reflexivity |];
               exists arr, s'; rewrite Hheap, lookup_insert_eq; done
           end|]).
  apply Forall_nil_2.
Qed.

Lemma C2_witness :
  Forall (fun '(z, bs, hex) =>
            to_uint8 <$> bs = hex /\
            exists arr s',
              mpz_to_byte_array z demo_state = Done (Some arr) s' /\
              heap s' !! arr = Some bs)
         canonical_examples.
Proof. apply (C2_canonical_examples demo_state). reflexivity. Defined.

(** C3: the decoder accepts padded input.  For every block [bs] of at least
    one byte, putting any number of 0x00 bytes in front of a first byte
    with clear high bit, or of 0xFF bytes in front of a first byte with set
    high bit, does not change the integer [byte_array_to_mpz] computes,
    which is the two's-complement value of [bs]; and [0x00 0x00 0x7F]
    decodes to 127. *)
Theorem C3_decoder_accepts_padding bs k :
  (1 <= length bs)%nat ->
  jbytes bs = true ->
  let pad := if bs !!! 0%nat <? 0 then -1 else 0 in
  (exists left left',
     byte_array_to_mpz (replicate k pad ++ bs) (k + length bs)
       = Some (sval bs, left) /\
     byte_array_to_mpz bs (length bs) = Some (sval bs, left')) /\
  byte_array_to_mpz [0; 0; 127] 3 = Some (127, [0; 0; 127]).
Proof.
  intros Hlen Hj pad. split; [|reflexivity].
  apply jbytes_Forall in Hj.
  destruct bs as [|b l]; [cbn in Hlen; lia|].
  assert (Hb : is_jbyte b) by (by inversion Hj).
  destruct (byte_array_to_mpz_sval (b :: l)) as (left' & Hdec' & _); [done..|].
  destruct (byte_array_to_mpz_sval (replicate k pad ++ b :: l))
    as (left & Hdec & _).
  { by destruct k. }
  { apply Forall_app. split; [|done].
    apply Forall_replicate. subst pad. unfold is_jbyte.
    destruct (_ <? _); lia. }
  rewrite length_app, length_replicate in Hdec.
  exists left, left'. split; [|done]. rewrite Hdec. f_equal. f_equal.
  subst pad. cbn [lookup_total list_lookup_total].
  destruct (Z.ltb_spec b 0).
  - by apply sval_sign_padding.
  - by apply sval_zero_padding.
Qed.

Lemma C3_witness :
  let bs := [-1; 1] in
  let pad := if bs !!! 0%nat <? 0 then -1 else 0 in
  (exists left left',
     byte_array_to_mpz (replicate 2 pad ++ bs) (2 + length bs)
       = Some (sval bs, left) /\
     byte_array_to_mpz bs (length bs) = Some (sval bs, left')) /\
  byte_array_to_mpz [0; 0; 127] 3 = Some (127, [0; 0; 127]).
Proof.
  apply (C3_decoder_accepts_padding [-1; 1] 2).
  - simpl. lia.
  - reflexivity.
Defined.

(** C4: on two arrays of at least one byte each (the domain of the
    decoder), when the denominator array decodes to zero, whatever the
    numerator array holds, [bytesToRationalConstant] returns -1 and adds
    neither a canonicalization nor a call of [yices_mpq] to the trace: the
    trace is unchanged, or gains only the out-of-memory error raised when
    the JVM refused a view.  Both views are released. *)
Theorem C4_zero_denominator lib s num den bn bd :
  byte_array_at s num bn = true ->
  byte_array_at s den bd = true ->
  decoded bd = Some 0 ->
  exists s',
    Java_com_sri_yices_Yices_bytesToRationalConstant lib num den s
      = Done (-1) s' /\
    (trace s' = trace s \/ trace s' = trace s ++ [OutOfMem]) /\
    views s' = views s.
Proof.
  intros Hn Hd Hzero.
  apply byte_array_at_spec in Hn as (Hnum & Hnn & Hnj & _).
  apply byte_array_at_spec in Hd as (Hden & Hdn & Hdj & Hdec).
  rewrite Hdec in Hzero. injection Hzero as Hzero.
  destruct (rational_run lib s num den bn bd) as (r & s' & Hrun & Hv & Hcase);
    try done.
  exists s'. destruct Hcase as [(_ & -> & Ht)|(qd & Hqd & -> & Ht)].
  - split; [done|]. split; [by right|done].
  - rewrite Hqd, Hzero in *
      by (right; by apply sval_zero_head).
    unfold rational_result, rational_events in *. cbn in *.
    rewrite app_nil_r in Ht. split; [done|]. split; [by left|done].
Qed.

Lemma C4_witness :
  exists s',
    Java_com_sri_yices_Yices_bytesToRationalConstant demo_lib 1%nat 4%nat
      fractions_state = Done (-1) s' /\
    (trace s' = trace fractions_state \/
     trace s' = trace fractions_state ++ [OutOfMem]) /\
    views s' = views fractions_state.
Proof.
  apply (C4_zero_denominator demo_lib fractions_state 1%nat 4%nat [4] [0; 0]);
    reflexivity.
Defined.

(** C8: the rational constructor canonicalizes before it calls the solver.
    First, on any two byte arrays, whatever [bytesToRationalConstant] hands
    to [yices_mpq] has a strictly positive denominator and is in lowest
    terms.  Second, two calls whose decoded fractions are equal, with
    nonzero denominators (as 4/2 and 2/1), call [yices_mpq] once, on one
    and the same fraction [q], which is the decoded fraction reduced, and
    both return what the solver answers for [q]: its term, or -1 with the
    out-of-memory error raised when it throws.  Nothing else is raised
    and every view is released.  Numerator and denominator may be one
    array as long as the number is not negative; a negative number in an
    array used for both is the case where the in-place negation of C10
    changes the denominator before it is read. *)
Theorem C8_rational_canonical lib :
  (forall s num den bn bd,
     byte_array_at s num bn = true ->
     byte_array_at s den bd = true ->
     exists r s',
       Java_com_sri_yices_Yices_bytesToRationalConstant lib num den s
         = Done r s' /\
       forall q, Native (Call_mpq q) ∈ trace s' ->
                 Native (Call_mpq q) ∈ trace s \/
                 (0 < q.2 /\ Z.gcd q.1 q.2 = 1)) /\
  (forall s1 s2 num1 den1 num2 den2 bn1 bd1 bn2 bd2 n1 d1 n2 d2,
     byte_array_at s1 num1 bn1 = true ->
     byte_array_at s1 den1 bd1 = true ->
     byte_array_at s2 num2 bn2 = true ->
     byte_array_at s2 den2 bd2 = true ->
     num1 <> den1 \/ 0 <= bd1 !!! 0%nat ->
     num2 <> den2 \/ 0 <= bd2 !!! 0%nat ->
     views_granted s1 = true -> views_granted s2 = true ->
     decoded bn1 = Some n1 -> decoded bd1 = Some d1 ->
     decoded bn2 = Some n2 -> decoded bd2 = Some d2 ->
     d1 <> 0 -> d2 <> 0 -> n1 * d2 = n2 * d1 ->
     exists q s1' s2',
       Java_com_sri_yices_Yices_bytesToRationalConstant lib num1 den1 s1
         = Done (or_minus_one (yices_mpq lib q)) s1' /\
       Java_com_sri_yices_Yices_bytesToRationalConstant lib num2 den2 s2
         = Done (or_minus_one (yices_mpq lib q)) s2' /\
       trace s1' =
         trace s1 ++ Canonicalize (n1, d1) :: Native (Call_mpq q)
                  :: raised (yices_mpq lib q) /\
       trace s2' =
         trace s2 ++ Canonicalize (n2, d2) :: Native (Call_mpq q)
                  :: raised (yices_mpq lib q) /\
       views s1' = views s1 /\ views s2' = views s2 /\
       0 < q.2 /\ Z.gcd q.1 q.2 = 1 /\
       q.1 * d1 = n1 * q.2 /\ q.1 * d2 = n2 * q.2).
Proof.
  split.
  - intros s num den bn bd Hn Hd.
    apply byte_array_at_spec in Hn as (Hnum & Hnn & Hnj & _).
    apply byte_array_at_spec in Hd as (Hden & Hdn & Hdj & _).
    destruct (rational_run lib s num den bn bd)
      as (r & s' & Hrun & Hv & Hcase); try done.
    exists r, s'. split; [done|]. intros q Hq.
    destruct Hcase as [(_ & _ & Ht)|(qd & _ & _ & Ht)]; rewrite Ht in Hq;
      apply elem_of_app in Hq as [Hq|Hq]; [by left| |by left|right].
    + by apply list_elem_of_singleton in Hq.
    + unfold rational_events in Hq.
      destruct (Z.eqb_spec qd 0) as [|Hnz]; [by apply elem_of_nil in Hq|].
      destruct (mpq_canonicalize_spec (sval bn) qd Hnz) as (Hp & Hg & _).
      assert (q = mpq_canonicalize (sval bn, qd)) as ->; [|done].
      cbv zeta in Hq. rewrite elem_of_app, !elem_of_cons, elem_of_nil in Hq.
      destruct Hq as [[Hq|[Hq|[]]]|Hq]; [done|congruence|].
      destruct (yices_mpq lib _); [by apply elem_of_nil in Hq|].
      by apply list_elem_of_singleton in Hq.
  - intros s1 s2 num1 den1 num2 den2 bn1 bd1 bn2 bd2 n1 d1 n2 d2
      Hn1 Hd1 Hn2 Hd2 Hne1 Hne2 Hg1 Hg2 En1 Ed1 En2 Ed2 Hz1 Hz2 Hcross.
    apply byte_array_at_spec in Hn1 as (Hnum1 & Hnn1 & Hnj1 & Hdn1).
    apply byte_array_at_spec in Hd1 as (Hden1 & Hdn1' & Hdj1 & Hdd1).
    apply byte_array_at_spec in Hn2 as (Hnum2 & Hnn2 & Hnj2 & Hdn2).
    apply byte_array_at_spec in Hd2 as (Hden2 & Hdn2' & Hdj2 & Hdd2).
    assert (sval bn1 = n1) as Hs1 by congruence.
    assert (sval bd1 = d1) as Hs2 by congruence.
    assert (sval bn2 = n2) as Hs3 by congruence.
    assert (sval bd2 = d2) as Hs4 by congruence.
    destruct (rational_run lib s1 num1 den1 bn1 bd1)
      as (r1 & s1' & Hrun1 & Hv1 & Hcase1); try done.
    destruct (rational_run lib s2 num2 den2 bn2 bd2)
      as (r2 & s2' & Hrun2 & Hv2 & Hcase2); try done.
    destruct Hcase1 as [(Hf & _)|(qd1 & Hqd1 & -> & Ht1)]; [congruence|].
    destruct Hcase2 as [(Hf & _)|(qd2 & Hqd2 & -> & Ht2)]; [congruence|].
    specialize (Hqd1 Hne1). specialize (Hqd2 Hne2).
    rewrite Hqd1, Hs1, Hs2 in *.
    rewrite Hqd2, Hs3, Hs4 in *.
    pose proof (mpq_canonicalize_equal n1 d1 n2 d2 Hz1 Hz2 Hcross) as Heq.
    destruct (mpq_canonicalize_spec n1 d1 Hz1) as (Hp & Hg & Hc1).
    destruct (mpq_canonicalize_spec n2 d2 Hz2) as (_ & _ & Hc2).
    cbv zeta in *. unfold rational_result, rational_events in *.
    destruct (Z.eqb_spec d1 0); [done|]. destruct (Z.eqb_spec d2 0); [done|].
    cbv zeta in *. rewrite <- Heq in *.
    exists (mpq_canonicalize (n1, d1)), s1', s2'.
    unfold or_minus_one, raised.
    repeat split; done.
Qed.

Lemma C8_witness :
  exists q s1' s2',
    Java_com_sri_yices_Yices_bytesToRationalConstant demo_lib 1%nat 2%nat
      fractions_state = Done (or_minus_one (yices_mpq demo_lib q)) s1' /\
    Java_com_sri_yices_Yices_bytesToRationalConstant demo_lib 2%nat 3%nat
      fractions_state = Done (or_minus_one (yices_mpq demo_lib q)) s2' /\
    trace s1' = trace fractions_state ++
                Canonicalize (4, 2) :: Native (Call_mpq q)
                :: raised (yices_mpq demo_lib q) /\
    trace s2' = trace fractions_state ++
                Canonicalize (2, 1) :: Native (Call_mpq q)
                :: raised (yices_mpq demo_lib q) /\
    views s1' = views fractions_state /\ views s2' = views fractions_state /\
    0 < q.2 /\ Z.gcd q.1 q.2 = 1 /\ q.1 * 2 = 4 * q.2 /\ q.1 * 1 = 2 * q.2.
Proof.
  apply (proj2 (C8_rational_canonical demo_lib)
           fractions_state fractions_state 1%nat 2%nat 2%nat 3%nat
           [4] [2] [2] [1] 4 2 2 1);
    try reflexivity; try discriminate; try (left; lia); lia.
Defined.

(** C7: when the argument arrays of [intPoly] or of [rationalPoly] do not
    all have the same length, the call returns -1 and leaves the
    environment exactly as it found it: no element view is taken, nothing
    is raised and the solver is not called. *)
Theorem C7_length_mismatch lib s :
  (forall coeff t lc lt,
     heap s !! coeff = Some lc -> heap s !! t = Some lt ->
     length lc <> length lt ->
     Java_com_sri_yices_Yices_intPoly lib coeff t s = Done (-1) s) /\
  (forall num den t ln ld lt,
     heap s !! num = Some ln -> heap s !! den = Some ld ->
     heap s !! t = Some lt ->
     ~ (length ln = length ld /\ length ln = length lt) ->
     Java_com_sri_yices_Yices_rationalPoly lib num den t s = Done (-1) s).
Proof.
  split.
  - intros coeff t lc lt. apply intPoly_mismatch.
  - intros num den t ln ld lt. apply rationalPoly_mismatch.
Qed.

Lemma C7_witness :
  Java_com_sri_yices_Yices_intPoly demo_lib 1%nat 4%nat poly_state
    = Done (-1) poly_state /\
  Java_com_sri_yices_Yices_rationalPoly demo_lib 1%nat 2%nat 4%nat poly_state
    = Done (-1) poly_state.
Proof.
  split.
  - apply (proj1 (C7_length_mismatch demo_lib poly_state)
             1%nat 4%nat [3; 5] [40; 41; 42]);
      [reflexivity | reflexivity | simpl; lia].
  - apply (proj2 (C7_length_mismatch demo_lib poly_state)
             1%nat 2%nat 4%nat [3; 5] [7; -2] [40; 41; 42]);
      [reflexivity | reflexivity | reflexivity | simpl; lia].
Defined.

(** C9: [rationalPoly] never hands a negative denominator to the solver.
    On any three arrays the call returns and has released every view it
    took; when some element of the denominator array is negative it
    returns -1 and the trace is unchanged or gains only an out-of-memory
    error, so [yices_poly_rational64] is not called; and whenever the
    solver is called, all denominators are non-negative. *)
Theorem C9_negative_denominator lib s num den t ln ld lt :
  heap s !! num = Some ln -> heap s !! den = Some ld ->
  heap s !! t = Some lt ->
  exists r s',
    Java_com_sri_yices_Yices_rationalPoly lib num den t s = Done r s' /\
    views s' = views s /\
    ((exists x, x ∈ ld /\ x < 0) ->
     r = -1 /\ (trace s' = trace s \/ trace s' = trace s ++ [OutOfMem])) /\
    (forall c, Native c ∈ trace s' ->
               Native c ∈ trace s \/ Forall (fun x => 0 <= x) ld).
Proof.
  intros Hn Hd Ht.
  destruct (decide (length ln = length ld /\ length ln = length lt))
    as [[Hnd Hnt]|Hne].
  - destruct (rationalPoly_run lib s num den t ln ld lt)
      as (r & s' & Hrun & Hv & Hcase); try done.
    exists r, s'. split; [done|]. split; [done|].
    destruct Hcase as [(-> & Htr)|[(Hpos & -> & Htr)|(Hpos & tl & Htr)]].
    + split; [intros _; split; [done|by right]|].
      intros c Hc. left. rewrite Htr in Hc.
      apply elem_of_app in Hc as [Hc|Hc]; [done|].
      by apply list_elem_of_singleton in Hc.
    + split; [intros _; split; [done|by left]|].
      intros c Hc. left. by rewrite Htr in Hc.
    + apply all_positive_longs_Forall in Hpos. split.
      * intros (x & Hx & Hneg). rewrite Forall_forall in Hpos.
        apply Hpos in Hx. lia.
      * intros c _. by right.
  - exists (-1), s.
    rewrite (rationalPoly_mismatch lib s num den t ln ld lt) by done.
    split; [done|]. split; [done|].
    split; [intros _; split; [done|by left]|]. intros c Hc. by left.
Qed.

Lemma C9_witness :
  exists r s',
    Java_com_sri_yices_Yices_rationalPoly demo_lib 1%nat 2%nat 3%nat poly_state
      = Done r s' /\
    views s' = views poly_state /\
    ((exists x, x ∈ [7; -2] /\ x < 0) ->
     r = -1 /\ (trace s' = trace poly_state \/
                trace s' = trace poly_state ++ [OutOfMem])) /\
    (forall c, Native c ∈ trace s' ->
               Native c ∈ trace poly_state \/
               Forall (fun x => 0 <= x) [7; -2]).
Proof.
  apply (C9_negative_denominator demo_lib poly_state 1%nat 2%nat 3%nat
           [3; 5] [7; -2] [40; 41]); reflexivity.
Defined.

(** C5, at the input where the code falls short of it.  [cloneIntArray]
    tests its out-pointer instead of the flag behind it, so the heap path
    never copies: when the JVM hands out a pointer into the array itself,
    the solver works on the caller's storage.  Here [and] on eleven terms
    and [or] on ten, with a solver that reverses its argument array, leave
    the caller's arrays reversed. *)
Theorem C5_connective_rewrites_pinned_array :
  heap pinned_terms !! 1%nat = Some [1; 2; 3; 4; 5; 6; 7; 8; 9; 10; 11] /\
  result_of (Java_com_sri_yices_Yices_and demo_lib 1%nat pinned_terms)
    = Some 100 /\
  array_after (Java_com_sri_yices_Yices_and demo_lib 1%nat pinned_terms) 1%nat
    = Some [11; 10; 9; 8; 7; 6; 5; 4; 3; 2; 1] /\
  array_after (Java_com_sri_yices_Yices_or demo_lib 2%nat pinned_terms) 2%nat
    = Some [10; 9; 8; 7; 6; 5; 4; 3; 2; 1].
Proof. repeat split; vm_compute; reflexivity. Qed.

(** When the JVM grants the element view the heap path asks for, a
    connective returns the same term on either path, namely the solver's
    result on the cells of the argument array, or -1 with an
    out-of-memory error raised when the solver throws, and records the
    same call; every view taken is released.  This holds for any test
    that sends only arrays of at most [AUX_SIZE] cells to the stack path,
    so for [and] with its [<=] and for [or], [xor] and [distinct] with
    their [<]. *)
Lemma connective_paths_agree lib s arg l :
  heap s !! arg = Some l ->
  views_granted s = true ->
  (forall small op tag,
     (forall n, small n = true -> (n <= AUX_SIZE)%nat) ->
     exists s',
       connective small op tag arg s = Done (connective_result op l) s' /\
       trace s' = trace s ++ connective_events op tag l /\
       views s' = views s) /\
  result_of (Java_com_sri_yices_Yices_and lib arg s)
    = Some (connective_result (yices_and lib) l) /\
  result_of (Java_com_sri_yices_Yices_or lib arg s)
    = Some (connective_result (yices_or lib) l) /\
  result_of (Java_com_sri_yices_Yices_xor lib arg s)
    = Some (connective_result (yices_xor lib) l) /\
  result_of (Java_com_sri_yices_Yices_distinct lib arg s)
    = Some (connective_result (yices_distinct lib) l).
Proof.
  intros Harg Hgr.
  assert (Hgen : forall small op tag,
    (forall n, small n = true -> (n <= AUX_SIZE)%nat) ->
    exists s',
      connective small op tag arg s = Done (connective_result op l) s' /\
      trace s' = trace s ++ connective_events op tag l /\
      views s' = views s).
  { intros small op tag Hsmall.
    destruct (connective_run small op tag s arg l Harg Hgr Hsmall)
      as (s' & Hrun & Ht & Hv & _).
    by exists s'. }
  assert (Hle : forall n, bool_decide (n <= AUX_SIZE)%nat = true ->
                          (n <= AUX_SIZE)%nat).
  { intros n Hn. by apply bool_decide_eq_true in Hn. }
  assert (Hlt : forall n, bool_decide (n < AUX_SIZE)%nat = true ->
                          (n <= AUX_SIZE)%nat).
  { intros n Hn. apply bool_decide_eq_true in Hn. lia. }
  split; [exact Hgen|].
  unfold Java_com_sri_yices_Yices_and, Java_com_sri_yices_Yices_or,
    Java_com_sri_yices_Yices_xor, Java_com_sri_yices_Yices_distinct.
  repeat split.
  - destruct (Hgen _ (yices_and lib) Call_and Hle) as (s' & -> & _). done.
  - destruct (Hgen _ (yices_or lib) Call_or Hlt) as (s' & -> & _). done.
  - destruct (Hgen _ (yices_xor lib) Call_xor Hlt) as (s' & -> & _). done.
  - destruct (Hgen _ (yices_distinct lib) Call_distinct Hlt) as (s' & -> & _).
    done.
Qed.

(** C6, at the input where the code falls short of it.  [and] and [or]
    are given one and the same array of ten terms, on a JVM that has no
    memory for an element view, with one solver function behind both.
    [and] (stack path at length ten) copies the terms out, calls the
    solver and returns its term, raising nothing.  [or] (heap path at
    length ten) calls [cloneIntArray], which raises the out-of-memory
    error and returns a null pointer; [or] does not test that pointer
    and calls the solver on it, so the call has no defined behaviour and
    returns no term.  The four connectives share this body; [tupleType]
    and the other shims that take a view themselves return -1 when the
    pointer is null. *)
Theorem C6_refused_view_reaches_solver :
  heap refused_terms !! 2%nat = Some [1; 2; 3; 4; 5; 6; 7; 8; 9; 10] /\
  (next_choice refused_terms).1 = ElemsNull /\
  yices_and demo_lib = yices_or demo_lib /\
  result_of (Java_com_sri_yices_Yices_and demo_lib 2%nat refused_terms)
    = Some 100 /\
  trace_after (Java_com_sri_yices_Yices_and demo_lib 2%nat refused_terms)
    = Some [Native (Call_and [1; 2; 3; 4; 5; 6; 7; 8; 9; 10])] /\
  cloneIntArray 2%nat true refused_terms
    = Done None (log OutOfMem (with_jvm_elems [] refused_terms)) /\
  call_mutating (yices_or demo_lib) Call_or 10 None
      (log OutOfMem (with_jvm_elems [] refused_terms))
    = Undefined /\
  Java_com_sri_yices_Yices_or demo_lib 2%nat refused_terms = Undefined /\
  Java_com_sri_yices_Yices_xor demo_lib 2%nat refused_terms = Undefined /\
  Java_com_sri_yices_Yices_distinct demo_lib 2%nat refused_terms = Undefined /\
  connective (fun _ => true) (yices_or demo_lib) Call_or 2%nat refused_terms
    <> connective (fun _ => false) (yices_or demo_lib) Call_or 2%nat
         refused_terms.
Proof. repeat split; vm_compute; (reflexivity || discriminate). Qed.

(** C10, at the input where the code falls short of it.  Releasing in
    abort mode discards a copy, but when the JVM hands out a pointer into
    the array itself the in-place negation has already rewritten the
    caller's bytes.  Here [bytesToIntConstant] on the array [0xFF] (-1)
    leaves it holding [0x01], and [bytesToRationalConstant] on
    [0xFF 0x01] (-255) over [0x03] leaves the numerator array holding
    [0x00 0xFF]. *)
Theorem C10_decoding_rewrites_pinned_array :
  heap pinned_bytes !! 1%nat = Some [-1] /\
  result_of (Java_com_sri_yices_Yices_bytesToIntConstant demo_lib 1%nat
               pinned_bytes) = Some 1 /\
  array_after (Java_com_sri_yices_Yices_bytesToIntConstant demo_lib 1%nat
                 pinned_bytes) 1%nat = Some [1] /\
  heap pinned_bytes !! 2%nat = Some [-1; 1] /\
  array_after (Java_com_sri_yices_Yices_bytesToRationalConstant demo_lib
                 2%nat 3%nat pinned_bytes) 2%nat = Some [0; -1].
Proof. repeat split; vm_compute; reflexivity. Qed.

(** * Further properties of the codec *)

(** Blocks of [jbyte]s of one length with one unsigned value are equal. *)
Lemma be_val_inj l1 : forall l2,
  length l1 = length l2 -> Forall is_jbyte l1 -> Forall is_jbyte l2 ->
  be_val l1 = be_val l2 -> l1 = l2.
Proof.
  induction l1 as [|x1 l1 IH]; intros [|x2 l2] Hlen H1 H2 Hv; try done.
  cbn in Hlen. injection Hlen as Hlen.
  inversion H1 as [|? ? Hx1 Hl1]; inversion H2 as [|? ? Hx2 Hl2]; subst.
  rewrite !be_val_cons, !to_uint8_jbyte, Hlen in Hv by done.
  pose proof (be_val_range l1) as R1. pose proof (be_val_range l2) as R2.
  rewrite Hlen in R1. pose proof (pow256_pos (length l2)) as HP.
  unfold is_jbyte in Hx1, Hx2.
  set (u1 := if x1 <? 0 then x1 + 256 else x1) in *.
  set (u2 := if x2 <? 0 then x2 + 256 else x2) in *.
  assert (Hu : u1 = u2).
  { destruct (Z.lt_trichotomy u1 u2) as [Hlt|[Heq|Hgt]]; [nia|done|nia]. }
  assert (x1 = x2) as ->.
  { subst u1 u2. destruct (Z.ltb_spec x1 0), (Z.ltb_spec x2 0); lia. }
  f_equal. apply IH; try done. rewrite Hu in Hv. lia.
Qed.

Lemma sval_range b l :
  is_jbyte b ->
  - (128 * pow256 (length l)) <= sval (b :: l) < 128 * pow256 (length l) /\
  (sval (b :: l) < 0 <-> b < 0).
Proof.
  intros Hb. rewrite sval_cons by done.
  pose proof (be_val_range l). pose proof (pow256_pos (length l)).
  unfold is_jbyte in Hb. destruct (Z.ltb_spec b 0); split; nia.
Qed.

(** The value of a block whose first byte is not redundant is out of the
    range of one byte less. *)
Lemma minimal_not_shorter b0 b1 l :
  is_jbyte b0 -> is_jbyte b1 ->
  redundant (b0 :: b1 :: l) = false ->
  sval (b0 :: b1 :: l) < - (128 * pow256 (length l)) \/
  128 * pow256 (length l) <= sval (b0 :: b1 :: l).
Proof.
  intros Hb0 Hb1 Hred.
  assert (Hnr : ~ ((b0 = 0 /\ 0 <= b1) \/ (b0 = -1 /\ b1 < 0))).
  { intros H. apply (redundant_true b0 b1 l) in H. congruence. }
  rewrite sval_cons by done. rewrite be_val_cons, to_uint8_jbyte by done.
  cbn [length]. rewrite pow256_S.
  pose proof (be_val_range l). pose proof (pow256_pos (length l)).
  unfold is_jbyte in *.
  destruct (Z.ltb_spec b0 0), (Z.ltb_spec b1 0); nia.
Qed.

Lemma pow256_mono_le n m : (n <= m)%nat -> pow256 n <= pow256 m.
Proof. intros H. unfold pow256. apply Z.pow_le_mono_r; lia. Qed.

Lemma fits_spec n z :
  fits n z = true <->
  - (128 * pow256 (n - 1)) <= z < 128 * pow256 (n - 1).
Proof. unfold fits. rewrite andb_true_iff, Z.leb_le, Z.ltb_lt. done. Qed.

Lemma fits_mono n m z : (n <= m)%nat -> fits n z = true -> fits m z = true.
Proof.
  rewrite !fits_spec. intros Hnm Hn.
  pose proof (pow256_mono_le (n - 1) (m - 1) ltac:(lia)).
  pose proof (pow256_pos (n - 1)). lia.
Qed.

(** What [negate_bytes] does to the value of the cells it is given. *)
Lemma negate_bytes_value b n :
  (0 < n <= length b)%nat ->
  exists b',
    negate_bytes b n = Some b' /\
    length b' = length b /\
    drop n b' = drop n b /\
    Forall is_jbyte (take n b') /\
    be_val (take n b') = (pow256 n - be_val (take n b)) mod pow256 n.
Proof.
  intros Hn. unfold negate_bytes. rewrite decide_True by done.
  assert (Hlen : length (take n b) = n) by (rewrite length_take; lia).
  destruct (negate_loop_spec n 1 (take n b) (drop n b) Hlen (or_intror eq_refl))
    as (pre' & cout & Heq & Hlen' & Hall & Hcout & Hval).
  rewrite take_drop in Heq. exists (pre' ++ drop n b). rewrite Heq.
  split; [done|].
  split; [rewrite length_app, length_drop; lia|].
  split; [by rewrite drop_app_length'|].
  rewrite take_app_length' by done. split; [done|].
  pose proof (be_val_range pre') as R'. pose proof (be_val_range (take n b)) as R.
  rewrite Hlen in R. rewrite Hlen' in R'.
  destruct Hcout; subst cout.
  - rewrite Z.mod_small by lia. lia.
  - assert (be_val (take n b) = 0) as -> by lia.
    rewrite Z.sub_0_r, Z.mod_same by lia. lia.
Qed.

(** X1: [negate_bytes(b, n)] with [1 <= n <= length b] replaces the
    unsigned big-endian value [v] of the first [n] cells by
    [(256^n - v) mod 256^n], leaves well-formed [jbyte]s there, and touches
    nothing beyond them; so a block of zeros stays a block of zeros, the
    carry falling off the top. *)
Theorem X1_negate_bytes_value b n :
  (0 < n <= length b)%nat ->
  exists b',
    negate_bytes b n = Some b' /\
    length b' = length b /\
    drop n b' = drop n b /\
    Forall is_jbyte (take n b') /\
    be_val (take n b') = (pow256 n - be_val (take n b)) mod pow256 n.
Proof. apply negate_bytes_value. Qed.

Lemma X1_witness :
  exists b',
    negate_bytes block_1_0 3 = Some b' /\
    length b' = length block_1_0 /\
    drop 3 b' = drop 3 block_1_0 /\
    Forall is_jbyte (take 3 b') /\
    be_val (take 3 b') = (pow256 3 - be_val (take 3 block_1_0)) mod pow256 3.
Proof. apply (X1_negate_bytes_value block_1_0 3). simpl. lia. Defined.

(** X2: on well-formed [jbyte]s, [negate_bytes] undoes itself: negating
    the first [n] cells twice gives the block back. *)
Theorem X2_negate_bytes_involution b n :
  (0 < n <= length b)%nat ->
  jbytes (take n b) = true ->
  exists b',
    negate_bytes b n = Some b' /\ negate_bytes b' n = Some b.
Proof.
  intros Hn Hj. apply jbytes_Forall in Hj.
  destruct (negate_bytes_value b n Hn)
    as (b' & Hneg & Hlen & Hdrop & Hall & Hval).
  assert (Hn' : (0 < n <= length b')%nat) by lia.
  destruct (negate_bytes_value b' n Hn')
    as (b'' & Hneg' & Hlen' & Hdrop' & Hall' & Hval').
  exists b'. split; [done|]. rewrite Hneg'. f_equal.
  rewrite <- (take_drop n b''), <- (take_drop n b). f_equal; [|congruence].
  apply be_val_inj; try done.
  - rewrite !length_take. lia.
  - rewrite Hval', Hval.
    pose proof (be_val_range (take n b)) as R.
    rewrite length_take in R. replace (n `min` length b)%nat with n in R by lia.
    pose proof (pow256_pos n).
    destruct (Z.eq_dec (be_val (take n b)) 0) as [->|Hnz].
    + rewrite Z.sub_0_r, Z.mod_same, Z.sub_0_r, Z.mod_same by lia. done.
    + rewrite (Z.mod_small (pow256 n - be_val (take n b))) by lia.
      replace (pow256 n - (pow256 n - be_val (take n b)))
        with (be_val (take n b)) by lia.
      apply Z.mod_small. lia.
Qed.

Lemma X2_witness :
  exists b',
    negate_bytes block_1_0 3 = Some b' /\ negate_bytes b' 3 = Some block_1_0.
Proof.
  apply (X2_negate_bytes_involution block_1_0 3); [simpl; lia | reflexivity].
Defined.

(** A minimal block is no longer than any block of the same value. *)
Lemma minimal_shortest bs1 bs2 :
  Forall is_jbyte bs1 -> Forall is_jbyte bs2 -> bs1 <> [] ->
  minimal bs2 = true -> sval bs1 = sval bs2 ->
  (length bs2 <= length bs1)%nat.
Proof.
  intros H1 H2 Hne Hmin Hsv.
  destruct bs2 as [|b0 [|b1 l]]; [done| |].
  - destruct bs1; [done|cbn; lia].
  - cbn [minimal] in Hmin. apply negb_true_iff in Hmin.
    inversion H2 as [|? ? Hb0 Hr]; inversion Hr as [|? ? Hb1 _]; subst.
    pose proof (minimal_not_shorter b0 b1 l Hb0 Hb1 Hmin) as Hout.
    destruct bs1 as [|c l1]; [done|].
    inversion H1 as [|? ? Hc _]; subst.
    destruct (sval_range c l1 Hc) as [Hin _].
    destruct (decide (length l1 <= length l)%nat) as [Hle|]; [|cbn; lia].
    pose proof (pow256_mono_le _ _ Hle). rewrite Hsv in Hin. lia.
Qed.

(** Two minimal blocks of [jbyte]s with one value are one block. *)
Lemma minimal_unique bs1 bs2 :
  Forall is_jbyte bs1 -> Forall is_jbyte bs2 ->
  minimal bs1 = true -> minimal bs2 = true ->
  sval bs1 = sval bs2 -> bs1 = bs2.
Proof.
  intros H1 H2 M1 M2 Hsv.
  assert (N1 : bs1 <> []) by (by destruct bs1).
  assert (N2 : bs2 <> []) by (by destruct bs2).
  pose proof (minimal_shortest bs1 bs2 H1 H2 N1 M2 Hsv).
  pose proof (minimal_shortest bs2 bs1 H2 H1 N2 M1 (eq_sym Hsv)).
  assert (Hlen : length bs1 = length bs2) by lia.
  apply be_val_inj; try done.
  destruct bs1 as [|c1 l1]; [done|]. destruct bs2 as [|c2 l2]; [done|].
  inversion H1 as [|? ? Hc1 _]; inversion H2 as [|? ? Hc2 _]; subst.
  destruct (sval_range c1 l1 Hc1) as [_ S1].
  destruct (sval_range c2 l2 Hc2) as [_ S2].
  unfold sval in *. rewrite Hlen in *.
  destruct (Z.ltb_spec c1 0), (Z.ltb_spec c2 0); lia.
Qed.

(** X3: on a block of [n >= 1] well-formed bytes the decoder returns an
    integer in the two's-complement range of [n] bytes, negative exactly
    when the first byte is; it leaves the block at its length, holding the
    magnitude of that integer as an unsigned big-endian number, and so
    untouched when the integer is not negative. *)
Theorem X3_decoder_range_and_buffer bs :
  (1 <= length bs)%nat ->
  jbytes bs = true ->
  exists z left,
    byte_array_to_mpz bs (length bs) = Some (z, left) /\
    fits (length bs) z = true /\
    (z < 0 <-> bs !!! 0%nat < 0) /\
    length left = length bs /\
    be_val left = Z.abs z /\
    (0 <= z -> left = bs).
Proof.
  intros Hlen Hj. apply jbytes_Forall in Hj.
  destruct bs as [|b l]; [cbn in Hlen; lia|].
  assert (Hb : is_jbyte b) by (by inversion Hj).
  destruct (byte_array_to_mpz_sval (b :: l)) as (left & Hdec & Hl & Hsame & _);
    [done..|].
  destruct (sval_range b l Hb) as [Hin Hsign].
  exists (sval (b :: l)), left. split; [done|].
  split; [apply fits_spec; cbn [length]; by rewrite Nat.sub_succ, Nat.sub_0_r|].
  split; [done|]. split; [done|].
  cbn [lookup_total list_lookup_total] in Hsame.
  split; [|intros Hz; apply Hsame; lia].
  unfold byte_array_to_mpz in Hdec. cbn [lookup list_lookup] in Hdec.
  remember (sval (b :: l)) as z eqn:Hzdef. clear Hzdef Hsame Hin.
  remember (b :: l) as bs eqn:Hbs.
  destruct (Z.ltb_spec b 0) as [Hneg|Hpos].
  - destruct (negate_bytes bs (length bs)) as [b'|] eqn:Hn; [|done].
    assert (z < 0) by (by apply Hsign).
    injection Hdec as Hz ->. unfold mpz_neg, mpz_import in Hz.
    rewrite take_ge in Hz by lia. lia.
  - assert (~ z < 0) by (rewrite Hsign; lia).
    injection Hdec as Hz <-. unfold mpz_import in Hz.
    rewrite take_ge in Hz by lia. lia.
Qed.

Lemma X3_witness :
  exists z left,
    byte_array_to_mpz [-1; 1] (length [-1; 1]) = Some (z, left) /\
    fits (length [-1; 1]) z = true /\
    (z < 0 <-> [-1; 1] !!! 0%nat < 0) /\
    length left = length [-1; 1] /\
    be_val left = Z.abs z /\
    (0 <= z -> left = [-1; 1]).
Proof.
  apply (X3_decoder_range_and_buffer [-1; 1]); [simpl; lia | reflexivity].
Defined.

(** X4: the encoder inverts the decoder on minimal input.  When a minimal
    block of well-formed bytes decodes to [z], [mpz_to_byte_array] on [z]
    returns an array holding those very bytes (given memory and a byte
    length within [INT32_MAX]): a value has one minimal encoding. *)
Theorem X4_decode_then_encode bs z s :
  jbytes bs = true ->
  minimal bs = true ->
  decoded bs = Some z ->
  nbytes_of z <= INT32_MAX ->
  allocs_ok s = true ->
  exists arr s',
    mpz_to_byte_array z s = Done (Some arr) s' /\
    heap s' !! arr = Some bs.
Proof.
  intros Hj Hmin Hdec Hmax Hok. apply jbytes_Forall in Hj.
  assert (Hne : bs <> []) by (by destruct bs).
  destruct (byte_array_to_mpz_sval bs Hne Hj) as (left & Hd & _).
  unfold decoded in Hdec. rewrite Hd in Hdec. injection Hdec as <-.
  destruct (encode_spec (sval bs)) as (bs2 & Henc & Hsv & Hmin2 & Hall2 & _).
  assert (bs2 = bs) as -> by (by apply minimal_unique).
  destruct (mpz_to_byte_array_run (sval bs) s bs Hmax Hok Henc)
    as (arr & s' & Hrun & _ & Hheap & _).
  exists arr, s'. by rewrite Hheap, lookup_insert_eq.
Qed.

Lemma X4_witness :
  exists arr s',
    mpz_to_byte_array (-255) demo_state = Done (Some arr) s' /\
    heap s' !! arr = Some [-1; 1].
Proof.
  apply (X4_decode_then_encode [-1; 1] (-255) demo_state);
    try reflexivity. vm_compute. discriminate.
Defined.

(** X5: the array [mpz_to_byte_array] returns has the least length whose
    two's-complement range holds the number: [z] fits its [n] bytes and
    fits no shorter length, which is the length Java's
    [BigInteger.toByteArray] gives. *)
Theorem X5_encoded_length_least z s :
  nbytes_of z <= INT32_MAX ->
  allocs_ok s = true ->
  exists arr bs s',
    mpz_to_byte_array z s = Done (Some arr) s' /\
    heap s' !! arr = Some bs /\
    fits (length bs) z = true /\
    (forall m, (1 <= m < length bs)%nat -> fits m z = false).
Proof.
  intros Hmax Hok.
  destruct (encode_spec z) as (bs & Henc & Hsv & Hmin & Hall & Hlen).
  destruct (mpz_to_byte_array_run z s bs Hmax Hok Henc)
    as (arr & s' & Hrun & _ & Hheap & _).
  exists arr, bs, s'. split; [done|].
  split; [by rewrite Hheap, lookup_insert_eq|].
  destruct bs as [|b0 l]; [cbn in Hlen; lia|].
  inversion Hall as [|? ? Hb0 Hl]; subst.
  destruct (sval_range b0 l Hb0) as [Hin _]. split.
  - apply fits_spec. cbn [length]. by rewrite Nat.sub_succ, Nat.sub_0_r.
  - intros m Hm. destruct (fits m (sval (b0 :: l))) eqn:Hf; [exfalso|done].
    destruct l as [|b1 l]; [cbn in Hm; lia|].
    inversion Hl as [|? ? Hb1 _]; subst.
    cbn [minimal] in Hmin. apply negb_true_iff in Hmin.
    pose proof (minimal_not_shorter b0 b1 l Hb0 Hb1 Hmin) as Hout.
    apply (fits_mono m (S (length l))) in Hf; [|cbn in Hm; lia].
    apply fits_spec in Hf. rewrite Nat.sub_succ, Nat.sub_0_r in Hf. lia.
Qed.

Lemma X5_witness :
  exists arr bs s',
    mpz_to_byte_array 128 demo_state = Done (Some arr) s' /\
    heap s' !! arr = Some bs /\
    fits (length bs) 128 = true /\
    (forall m, (1 <= m < length bs)%nat -> fits m 128 = false).
Proof.
  apply (X5_encoded_length_least 128 demo_state);
    [vm_compute; discriminate | reflexivity].
Defined.

(** * The encoder in every environment *)

Lemma next_alloc_drop s : (next_alloc s).2 = drop 1 (allocs s).
Proof. unfold next_alloc. by destruct (allocs s). Qed.

Lemma allocs_ok_drop s s' k :
  allocs_ok s = true -> allocs s' = drop k (allocs s) -> allocs_ok s' = true.
Proof.
  unfold allocs_ok. intros H ->.
  rewrite <- (take_drop k (allocs s)), forallb_app in H.
  by apply andb_true_iff in H as [_ H].
Qed.

(** Every run of the encoder: a fresh array with the bytes of [z], or
    [NULL] with the error raised and the store restored. *)
Lemma mpz_to_byte_array_cases z s :
  exists r s',
    mpz_to_byte_array z s = Done r s' /\
    views s' = views s /\
    jvm_elems s' = jvm_elems s /\
    (exists k, allocs s' = drop k (allocs s)) /\
    match r with
    | Some arr =>
        heap s !! arr = None /\
        (exists bs, encode z = Some bs /\ heap s' = <[arr := bs]> (heap s)) /\
        trace s' = trace s /\
        nbytes_of z <= INT32_MAX
    | None =>
        heap s' = heap s /\ trace s' = trace s ++ [OutOfMem]
    end.
Proof.
  destruct (encode_spec z) as (bs & Henc & _).
  unfold mpz_to_byte_array.
  destruct (Z.leb_spec (nbytes_of z) 32) as [Hsmall|Hbig].
  - mrun. unfold stack_block. cbv beta iota.
    rewrite encode_scratch_encode, Henc by (rewrite length_uninit; lia).
    unfold NewArray. pose proof (next_alloc_drop s) as Hd.
    destruct (next_alloc s) as [[] rest]; cbn in Hd; cbv beta iota zeta.
    + set (s1 := with_heap _ _).
      rewrite (SetArrayRegion_run _ (replicate (length bs) 0))
        by (subst s1; cbn; rewrite ?lookup_insert_eq, ?length_replicate; done).
      eexists _, _. split; [done|]. subst s1. cbn.
      split; [done|]. split; [done|]. split; [by exists 1%nat|].
      repeat split; try done; [apply fresh_None| |unfold INT32_MAX; lia].
      exists bs. by rewrite insert_insert_eq.
    + unfold out_of_mem_exception, emit. cbv beta iota.
      eexists _, _. split; [done|]. cbn.
      split; [done|]. split; [done|]. split; [by exists 1%nat|]. done.
  - destruct (Z.leb_spec (nbytes_of z) INT32_MAX) as [Hok|Hhuge].
    + mrun. unfold cxx_new. pose proof (next_alloc_drop s) as Hd.
      destruct (next_alloc s) as [[] rest]; cbn in Hd; cbv beta iota zeta.
      * set (p := fresh (dom (heap (with_allocs rest s)))).
        assert (Hp : heap s !! p = None) by apply fresh_None.
        set (s1 := with_heap _ _).
        rewrite (load_run p (uninit (with_allocs rest s) (Z.to_nat (nbytes_of z))))
          by (subst s1; cbn; apply lookup_insert_eq).
        cbv beta iota.
        rewrite encode_scratch_encode, Henc by (rewrite length_uninit; lia).
        unfold NewArray. pose proof (next_alloc_drop s1) as Hd1.
        assert (Hk : forall rest1, rest1 = drop 1 (allocs s1) ->
                       exists k, rest1 = drop k (allocs s)).
        { intros rest1 ->. exists 2%nat. subst s1. cbn. rewrite Hd.
          by rewrite drop_drop. }
        destruct (next_alloc s1) as [[] rest1]; cbn [snd] in Hd1;
          apply Hk in Hd1; cbv beta iota zeta.
        -- set (r := fresh (dom (heap (with_allocs rest1 s1)))).
           assert (Hr : heap s1 !! r = None) by apply fresh_None.
           assert (Hrp : r <> p).
           { intros E. rewrite E in Hr. subst s1. cbn in Hr.
             by rewrite lookup_insert_eq in Hr. }
           set (s2 := with_heap _ _).
           rewrite (SetArrayRegion_run _ (replicate (length bs) 0))
             by (subst s2; cbn; rewrite ?lookup_insert_eq, ?length_replicate;
                 done).
           unfold cxx_delete. cbn [heap with_heap].
           subst s2. cbn [heap with_heap with_allocs].
           rewrite insert_insert_eq, lookup_insert_ne by done.
           subst s1. cbn [heap with_heap with_allocs].
           rewrite lookup_insert_eq.
           eexists _, _. split; [done|]. cbn.
           split; [done|]. split; [done|]. split; [done|].
           split.
           { subst r. cbn in Hr. by rewrite lookup_insert_ne in Hr. }
           split; [|done]. exists bs. split; [done|].
           rewrite delete_insert_ne, delete_insert_eq by done.
           by rewrite delete_id.
        -- unfold out_of_mem_exception, emit, cxx_delete. cbv beta iota.
           cbn [heap with_heap log with_allocs]. subst s1.
           cbn [heap with_heap with_allocs]. rewrite lookup_insert_eq.
           eexists _, _. split; [done|]. cbn.
           split; [done|]. split; [done|]. split; [done|].
           split; [|done].
           rewrite delete_insert_eq. by apply delete_id.
      * unfold out_of_mem_exception, emit. cbv beta iota.
        eexists _, _. split; [done|]. cbn.
        split; [done|]. split; [done|]. split; [by exists 1%nat|]. done.
    + mrun. unfold out_of_mem_exception, emit. cbv beta iota.
      eexists _, _. split; [done|]. cbn.
      split; [done|]. split; [done|]. split; [by exists 0%nat|]. done.
Qed.

(** With memory for every allocation the encoder succeeds and touches
    nothing but the new array. *)
Lemma mpz_to_byte_array_ok z s :
  nbytes_of z <= INT32_MAX ->
  allocs_ok s = true ->
  exists arr bs s',
    mpz_to_byte_array z s = Done (Some arr) s' /\
    encode z = Some bs /\
    heap s !! arr = None /\
    heap s' = <[arr := bs]> (heap s) /\
    trace s' = trace s /\ views s' = views s /\
    jvm_elems s' = jvm_elems s /\ allocs_ok s' = true.
Proof.
  intros Hn Hal.
  destruct (encode_spec z) as (bs & Henc & _).
  destruct (mpz_to_byte_array_run z s bs Hn Hal Henc)
    as (arr & s' & Hrun & Hfresh & Hh & Ht & Hv).
  destruct (mpz_to_byte_array_cases z s)
    as (r & s'' & Hrun' & _ & Hj & (k & Hk) & _).
  rewrite Hrun in Hrun'. injection Hrun' as <- <-.
  exists arr, bs, s'. repeat split; try done.
  by apply (allocs_ok_drop s s' k).
Qed.

(** X6: [mpz_to_byte_array] returns in every environment, whatever
    allocation fails.  It returns either a fresh array holding the bytes of
    [z], with nothing raised, or [NULL] with the out-of-memory error raised
    and the store exactly as it was: the scratch block is freed on the
    failure paths too.  A number whose byte length exceeds [INT32_MAX]
    always gives [NULL]. *)
Theorem X6_encoder_every_environment z s :
  exists r s',
    mpz_to_byte_array z s = Done r s' /\
    views s' = views s /\
    jvm_elems s' = jvm_elems s /\
    match r with
    | Some arr =>
        heap s !! arr = None /\
        (exists bs, encode z = Some bs /\ heap s' = <[arr := bs]> (heap s)) /\
        trace s' = trace s /\
        nbytes_of z <= INT32_MAX
    | None =>
        heap s' = heap s /\ trace s' = trace s ++ [OutOfMem]
    end.
Proof.
  destruct (mpz_to_byte_array_cases z s) as (r & s' & H1 & H2 & H3 & _ & H4).
  by exists r, s'.
Qed.

(** * Integer constants from bytes *)

Section IntConstantRun.

Variable lib : yices_lib.

(** What [bytesToIntConstant] does on an array of bytes, by the answer of
    the JVM to the request for a view. *)
Lemma bytesToIntConstant_run s a bs :
  heap s !! a = Some bs -> bs <> [] -> Forall is_jbyte bs ->
  exists r s',
    Java_com_sri_yices_Yices_bytesToIntConstant lib a s = Done r s' /\
    views s' = views s /\
    (forall k, k <> a -> heap s' !! k = heap s !! k) /\
    match (next_choice s).1 with
    | ElemsNull =>
        r = -1 /\ trace s' = trace s ++ [OutOfMem] /\ heap s' = heap s
    | c =>
        r = or_minus_one (yices_mpz lib (sval bs)) /\
        trace s' = trace s ++ Native (Call_mpz (sval bs))
                             :: raised (yices_mpz lib (sval bs)) /\
        (c = ElemsCopy \/ 0 <= bs !!! 0%nat -> heap s' = heap s)
    end.
Proof.
  intros Ha Hne Hj.
  unfold Java_com_sri_yices_Yices_bytesToIntConstant. mrun.
  rewrite (GetArrayLength_run a bs) by done. cbv beta iota.
  destruct (GetArrayElements_spec a bs s Ha)
    as (ptr & flag & s1 & Hg & Ht1 & _ & Hpost).
  rewrite Hg. cbv beta iota. destruct ptr as [p|].
  - destruct Hpost as (Hnn & Hh1 & Hv1 & Hp).
    destruct (byte_array_to_mpz_at_run p bs s1)
      as (bs' & Hdec & _ & _ & Hsame); [|done..|].
    { rewrite Hh1. apply lookup_insert_eq. }
    rewrite Hdec. cbv beta iota. unfold emit, out_of_mem_exception.
    cbv beta iota. set (s2 := log _ _).
    assert (Hrel : forall s3, heap s3 = heap s2 -> views s3 = views s2 ->
      exists s',
        ReleaseArrayElements a p JNI_ABORT s3 = Done tt s' /\
        trace s' = trace s3 /\
        views s' = views s /\
        (forall k, k <> a -> heap s' !! k = heap s !! k) /\
        ((next_choice s).1 = ElemsCopy \/ 0 <= bs !!! 0%nat ->
         heap s' = heap s)).
    { intros s3 Hh3 Hv3.
      rewrite (Release_abort_spec a p bs').
      - eexists. split; [done|]. cbn. rewrite Hv3, Hh3. subst s2. cbn.
        rewrite Hv1, remove_view_head. split; [done|]. split; [done|].
        rewrite Hh1, insert_insert_eq.
        destruct Hp as [[-> Hdir]|[Hnone Hcp]].
        + rewrite decide_True by done. split.
          * intros k Hk. by rewrite lookup_insert_ne.
          * intros [Hc|Hpos]; [congruence|].
            rewrite Hsame by done. by apply insert_id.
        + assert (p <> a) by congruence.
          rewrite decide_False by done.
          rewrite delete_insert_eq, delete_id by done. done.
      - rewrite Hv3. subst s2. cbn. rewrite Hv1. by left.
      - rewrite Hh3. subst s2. cbn. apply lookup_insert_eq. }
    destruct (yices_mpz lib (sval bs)) as [t|] eqn:Hlib; cbv beta iota.
    + destruct (Hrel s2) as (s' & -> & Ht' & Hv' & Hk' & Hh'); [done..|].
      exists t, s'. split; [done|]. split; [done|]. split; [done|].
      assert (Htr : trace s' = trace s ++ [Native (Call_mpz (sval bs))]).
      { rewrite Ht'. subst s2. cbn. by rewrite Ht1. }
      revert Hnn Hh'. destruct (next_choice s).1; intros Hnn Hh'; done.
    + unfold emit. cbv beta iota.
      destruct (Hrel (log OutOfMem s2))
        as (s' & -> & Ht' & Hv' & Hk' & Hh'); [done..|].
      exists (-1), s'. split; [done|]. split; [done|]. split; [done|].
      assert (Htr : trace s' = trace s ++ [Native (Call_mpz (sval bs));
                                           OutOfMem]).
      { rewrite Ht'. subst s2. cbn. rewrite Ht1, <- app_assoc. done. }
      revert Hnn Hh'. destruct (next_choice s).1; intros Hnn Hh'; done.
  - destruct Hpost as (Hnull & Hh1 & Hv1).
    unfold out_of_mem_exception, emit. cbv beta iota.
    eexists _, _. split; [done|]. cbn. rewrite Hh1, Hv1, Hnull, Ht1. done.
Qed.

End IntConstantRun.

(** X7: [bytesToIntConstant] on a non-empty array of bytes.  When the JVM
    grants a view, the solver is called once, on the number the bytes
    denote in two's complement, and its answer is returned ([-1] with the
    error raised if it throws).  When the view is refused the solver is not
    called: the result is [-1], the error is raised, the store is as
    before.  In every case all views are released and no other array
    changes; the array itself is as before whenever the view was a copy or
    the number is not negative. *)
Theorem X7_int_constant_from_bytes lib s a bs :
  byte_array_at s a bs = true ->
  exists r s',
    Java_com_sri_yices_Yices_bytesToIntConstant lib a s = Done r s' /\
    views s' = views s /\
    (forall k, k <> a -> heap s' !! k = heap s !! k) /\
    match (next_choice s).1 with
    | ElemsNull =>
        r = -1 /\ trace s' = trace s ++ [OutOfMem] /\ heap s' = heap s
    | c =>
        r = or_minus_one (yices_mpz lib (sval bs)) /\
        trace s' = trace s ++ Native (Call_mpz (sval bs))
                             :: raised (yices_mpz lib (sval bs)) /\
        (c = ElemsCopy \/ 0 <= bs !!! 0%nat -> heap s' = heap s)
    end.
Proof.
  intros H. apply byte_array_at_spec in H as (Ha & Hne & Hj & _).
  by apply bytesToIntConstant_run.
Qed.

Lemma X7_witness :
  exists r s',
    Java_com_sri_yices_Yices_bytesToIntConstant demo_lib 1%nat demo_state
      = Done r s' /\
    views s' = views demo_state /\
    (forall k, k <> 1%nat -> heap s' !! k = heap demo_state !! k) /\
    r = or_minus_one (yices_mpz demo_lib (sval [-1])) /\
    trace s' = trace demo_state ++ Native (Call_mpz (sval [-1]))
                 :: raised (yices_mpz demo_lib (sval [-1])) /\
    (ElemsCopy = ElemsCopy \/ 0 <= [-1] !!! 0%nat -> heap s' = heap demo_state).
Proof.
  apply (X7_int_constant_from_bytes demo_lib demo_state 1%nat [-1]).
  reflexivity.
Defined.

(** * Values read from a model and given back to the solver *)

Lemma views_granted_same s s' :
  jvm_elems s' = jvm_elems s -> views_granted s' = views_granted s.
Proof. unfold views_granted. by intros ->. Qed.

Lemma next_choice_same s s' :
  jvm_elems s' = jvm_elems s -> next_choice s' = next_choice s.
Proof. unfold next_choice. by intros ->. Qed.

Lemma mpq_canonicalize_canonical n d :
  0 < d -> Z.gcd n d = 1 -> mpq_canonicalize (n, d) = (n, d).
Proof.
  intros Hd Hg.
  destruct (mpq_canonicalize_spec n d) as (Hpos & Hgcd & Heq); [lia|].
  destruct (mpq_canonicalize (n, d)) as [a b] eqn:E. cbn in *.
  apply canonical_unique; done.
Qed.

(** X8: an integer read from a model arrives back at the solver unchanged.
    When [yices_get_mpz_value] succeeds with [z], memory is available and
    the JVM grants views, the array [getIntegerValueAsBytes] returns, given
    to [bytesToIntConstant], makes the solver build the constant for
    exactly [z]; the call returns the solver's answer, releases its view
    and leaves every older array as it was. *)
Theorem X8_integer_value_round_trip lib sol mdl t code z s :
  yices_get_mpz_value sol mdl t = Some (code, z) ->
  0 <= code ->
  nbytes_of z <= INT32_MAX ->
  allocs_ok s = true ->
  views_granted s = true ->
  exists arr s1 s2,
    Java_com_sri_yices_Yices_getIntegerValueAsBytes sol mdl t s
      = Done (Some arr) s1 /\
    heap s !! arr = None /\
    Java_com_sri_yices_Yices_bytesToIntConstant lib arr s1
      = Done (or_minus_one (yices_mpz lib z)) s2 /\
    trace s2 = trace s ++ Native (Call_mpz z) :: raised (yices_mpz lib z) /\
    views s2 = views s /\
    (forall k, k <> arr -> heap s2 !! k = heap s !! k).
Proof.
  intros Hsol Hcode Hn Hal Hvg.
  unfold Java_com_sri_yices_Yices_getIntegerValueAsBytes. rewrite Hsol.
  destruct (Z.leb_spec 0 code) as [_|]; [|lia].
  destruct (mpz_to_byte_array_ok z s Hn Hal)
    as (arr & bs & s1 & Hrun & Henc & Hfresh & Hh1 & Ht1 & Hv1 & Hj1 & _).
  destruct (encode_spec z) as (bs0 & Henc0 & Hval & _ & Hjb & Hlen & _).
  rewrite Henc in Henc0. injection Henc0 as <-.
  destruct (bytesToIntConstant_run lib s1 arr bs)
    as (r & s2 & Hrun2 & Hv2 & Hk2 & Hcase).
  { rewrite Hh1. apply lookup_insert_eq. }
  { intros ->. cbn in Hlen. lia. }
  { done. }
  rewrite (next_choice_same s s1 Hj1), Hval in Hcase.
  destruct (views_granted_next s Hvg) as [Hnn _].
  assert (Hres : r = or_minus_one (yices_mpz lib z) /\
                 trace s2 = trace s1 ++ Native (Call_mpz z)
                                      :: raised (yices_mpz lib z)).
  { destruct (next_choice s).1; [done|..]; by destruct Hcase as (? & ? & _). }
  destruct Hres as [-> Ht2].
  exists arr, s1, s2. split; [done|]. split; [done|]. split; [done|].
  split; [by rewrite Ht2, Ht1|]. split; [by rewrite Hv2|].
  intros k Hk. rewrite Hk2, Hh1 by done. by rewrite lookup_insert_ne.
Qed.

Lemma X8_witness :
  exists arr s1 s2,
    Java_com_sri_yices_Yices_getIntegerValueAsBytes demo_values 45 300
        demo_state
      = Done (Some arr) s1 /\
    heap demo_state !! arr = None /\
    Java_com_sri_yices_Yices_bytesToIntConstant demo_lib arr s1
      = Done (or_minus_one (yices_mpz demo_lib (-255))) s2 /\
    trace s2 = trace demo_state ++ Native (Call_mpz (-255))
                 :: raised (yices_mpz demo_lib (-255)) /\
    views s2 = views demo_state /\
    (forall k, k <> arr -> heap s2 !! k = heap demo_state !! k).
Proof.
  apply (X8_integer_value_round_trip demo_lib demo_values 45 300 0 (-255)
           demo_state); try reflexivity. vm_compute. discriminate.
Defined.

(** X9: a rational read from a model arrives back at the solver unchanged.
    When [yices_get_mpq_value] succeeds with a fraction [q] in lowest terms
    with a positive denominator, memory is available and the JVM grants
    views, the two arrays returned by
    [getRationalValueNumAsBytes] and [getRationalValueDenAsBytes], given to
    [bytesToRationalConstant], make the solver build the constant for
    exactly [q]. *)
Theorem X9_rational_value_round_trip lib sol mdl t code q s :
  yices_get_mpq_value sol mdl t = Some (code, q) ->
  0 <= code ->
  0 < q.2 ->
  Z.gcd q.1 q.2 = 1 ->
  nbytes_of q.1 <= INT32_MAX ->
  nbytes_of q.2 <= INT32_MAX ->
  allocs_ok s = true ->
  views_granted s = true ->
  exists num den s1 s2 s3,
    Java_com_sri_yices_Yices_getRationalValueNumAsBytes sol mdl t s
      = Done (Some num) s1 /\
    Java_com_sri_yices_Yices_getRationalValueDenAsBytes sol mdl t s1
      = Done (Some den) s2 /\
    Java_com_sri_yices_Yices_bytesToRationalConstant lib num den s2
      = Done (or_minus_one (yices_mpq lib q)) s3 /\
    trace s3 = trace s ++ [Canonicalize q; Native (Call_mpq q)]
                       ++ raised (yices_mpq lib q) /\
    views s3 = views s.
Proof.
  intros Hsol Hcode Hpos Hgcd Hn1 Hn2 Hal Hvg.
  unfold Java_com_sri_yices_Yices_getRationalValueNumAsBytes,
    Java_com_sri_yices_Yices_getRationalValueDenAsBytes. rewrite Hsol.
  destruct (Z.leb_spec 0 code) as [_|]; [|lia].
  destruct q as [qn qd]. cbn [fst snd] in *.
  destruct (mpz_to_byte_array_ok qn s Hn1 Hal)
    as (num & bn & s1 & Hrun1 & Hencn & Hfresh1 & Hh1 & Ht1 & Hv1 & Hj1 & Hal1).
  destruct (mpz_to_byte_array_ok qd s1 Hn2 Hal1)
    as (den & bd & s2 & Hrun2 & Hencd & Hfresh2 & Hh2 & Ht2 & Hv2 & Hj2 & _).
  destruct (encode_spec qn) as (bn0 & Hencn0 & Hvaln & _ & Hjn & Hlenn & _).
  rewrite Hencn in Hencn0. injection Hencn0 as <-.
  destruct (encode_spec qd) as (bd0 & Hencd0 & Hvald & _ & Hjd & Hlend & _).
  rewrite Hencd in Hencd0. injection Hencd0 as <-.
  assert (Hnd : num <> den).
  { intros ->. rewrite Hh1, lookup_insert_eq in Hfresh2. done. }
  destruct (rational_run lib s2 num den bn bd)
    as (r & s3 & Hrun3 & Hv3 & Hcase).
  { rewrite Hh2, lookup_insert_ne, Hh1 by done. apply lookup_insert_eq. }
  { rewrite Hh2. apply lookup_insert_eq. }
  { intros ->. cbn in Hlenn. lia. }
  { intros ->. cbn in Hlend. lia. }
  { done. }
  { done. }
  assert (Hvg2 : views_granted s2 = true).
  { rewrite (views_granted_same s1 s2 Hj2), (views_granted_same s s1 Hj1).
    done. }
  destruct Hcase as [(Hno & _)|(qd' & Hqd & Hr & Htr)]; [congruence|].
  rewrite Hqd, Hvaln, Hvald in * by (by left).
  unfold rational_result in Hr. unfold rational_events in Htr.
  destruct (Z.eqb_spec qd 0) as [|_]; [lia|].
  rewrite mpq_canonicalize_canonical in Hr, Htr by done.
  exists num, den, s1, s2, s3. split; [done|]. split; [done|].
  split; [by rewrite Hrun3, Hr|].
  split; [|by rewrite Hv3, Hv2, Hv1].
  rewrite Htr, Ht2, Ht1. by destruct (yices_mpq lib (qn, qd)).
Qed.

Lemma X9_witness :
  exists num den s1 s2 s3,
    Java_com_sri_yices_Yices_getRationalValueNumAsBytes demo_values (-3) 4
        demo_state
      = Done (Some num) s1 /\
    Java_com_sri_yices_Yices_getRationalValueDenAsBytes demo_values (-3) 4 s1
      = Done (Some den) s2 /\
    Java_com_sri_yices_Yices_bytesToRationalConstant demo_lib num den s2
      = Done (or_minus_one (yices_mpq demo_lib (-3, 4))) s3 /\
    trace s3 = trace demo_state
                 ++ [Canonicalize (-3, 4); Native (Call_mpq (-3, 4))]
                 ++ raised (yices_mpq demo_lib (-3, 4)) /\
    views s3 = views demo_state.
Proof.
  apply (X9_rational_value_round_trip demo_lib demo_values (-3) 4 0 (-3, 4)
           demo_state); try reflexivity; try (simpl; lia);
    vm_compute; discriminate.
Defined.

(** * Arrays of booleans *)

Lemma length_within old new : length (within old new) = length old.
Proof.
  unfold within. rewrite length_app, length_take, length_drop. lia.
Qed.

Lemma within_exact old new :
  (length new <= length old)%nat -> within old new = new ++ drop (length new) old.
Proof. intros H. unfold within. by rewrite take_ge. Qed.

(** The loop writes the truth values of [a[i .. i+k-1]] over the same
    cells of [aux] and nothing else. *)
Lemma bool_loop_spec k :
  forall i a aux,
    (i + k <= length a)%nat -> (i + k <= length aux)%nat ->
    bool_loop k i a aux =
      Some (take i aux ++ (bool_cell <$> take k (drop i a))
              ++ drop (i + k) aux).
Proof.
  induction k as [|k IH]; intros i a aux Ha Haux.
  - cbn [bool_loop]. rewrite Nat.add_0_r, take_0. cbn. by rewrite take_drop.
  - cbn [bool_loop].
    destruct (lookup_lt_is_Some_2 a i) as [x Hx]; [lia|].
    destruct (lookup_lt_is_Some_2 aux i) as [y Hy]; [lia|].
    rewrite Hx, Hy, IH by (rewrite ?length_insert; lia). f_equal.
    rewrite (take_S_r _ _ (bool_cell x)) by (apply list_lookup_insert_eq; lia).
    rewrite take_insert_ge, drop_insert_lt by lia.
    rewrite (drop_S a x i Hx). cbn [take fmap list_fmap].
    rewrite <- app_assoc. cbn.
    by replace (S (i + k)) with (i + S k)%nat by lia.
Qed.

Lemma bool_loop_all n a aux :
  (n <= length a)%nat -> length aux = n ->
  bool_loop n 0 a aux = Some (bool_cell <$> take n a).
Proof.
  intros Ha Haux. rewrite bool_loop_spec by (cbn; lia).
  rewrite drop_0, drop_ge by (cbn; lia). cbn. by rewrite app_nil_r.
Qed.

Lemma Release_copy_back_spec a q l s :
  (a, q) ∈ views s ->
  heap s !! q = Some l ->
  ReleaseArrayElements a q JNI_COPY_BACK s =
  Done tt (with_views (remove_view (a, q) (views s))
             (with_heap (if decide (q = a) then heap s
                         else delete q (<[a := l]> (heap s))) s)).
Proof.
  intros Hv Hq. unfold ReleaseArrayElements.
  rewrite decide_True by done.
  destruct (decide (q = a)) as [->|Hne]; [|by rewrite Hq].
  by destruct s.
Qed.

Lemma NewArray_cases n s :
  exists r s',
    NewArray n s = Done r s' /\
    views s' = views s /\ jvm_elems s' = jvm_elems s /\
    allocs s' = (next_alloc s).2 /\ trace s' = trace s /\
    match r with
    | Some arr =>
        (next_alloc s).1 = true /\ heap s !! arr = None /\
        heap s' = <[arr := replicate n 0]> (heap s)
    | None => (next_alloc s).1 = false /\ heap s' = heap s
    end.
Proof.
  unfold NewArray. destruct (next_alloc s) as [[] rest]; cbv beta iota zeta.
  - eexists _, _. split; [done|]. cbn. repeat split; try done.
    apply fresh_None.
  - eexists _, _. split; [done|]. by cbn.
Qed.

Lemma GetArrayElements_allocs a s r s' :
  GetArrayElements a s = Done r s' -> allocs s' = allocs s.
Proof.
  unfold GetArrayElements. destruct (heap s !! a); [|done].
  destruct (next_choice s) as [[] rest]; cbv beta iota zeta;
    intros [= <- <-]; done.
Qed.

(** Every run of [convertToBoolArray] on a block of at least [n] cells. *)
Lemma convertToBoolArray_run n a s :
  (n <= length a)%nat ->
  exists r s',
    convertToBoolArray n a s = Done r s' /\
    views s' = views s /\
    allocs s' = (next_alloc s).2 /\
    if (next_alloc s).1 then
      exists arr,
        r = Some arr /\ heap s !! arr = None /\
        match (next_choice s).1 with
        | ElemsNull =>
            heap s' = <[arr := replicate n 0]> (heap s) /\
            trace s' = trace s ++ [OutOfMem]
        | _ =>
            heap s' = <[arr := bool_cell <$> take n a]> (heap s) /\
            trace s' = trace s
        end
    else
      r = None /\ heap s' = heap s /\ trace s' = trace s ++ [OutOfMem].
Proof.
  intros Hn. unfold convertToBoolArray. mrun.
  destruct (NewArray_cases n s)
    as (r & s1 & -> & Hv1 & Hj1 & Hal1 & Ht1 & Hr).
  cbv beta iota. destruct r as [arr|].
  - destruct Hr as (-> & Hfresh & Hh1).
    assert (Harr : heap s1 !! arr = Some (replicate n 0)).
    { rewrite Hh1. apply lookup_insert_eq. }
    destruct (GetArrayElements_spec arr _ s1 Harr)
      as (ptr & flag & s2 & Hg & Ht2 & _ & Hpost).
    pose proof (GetArrayElements_allocs _ _ _ _ Hg) as Hal2.
    rewrite Hg. cbv beta iota. rewrite <- (next_choice_same s s1 Hj1).
    destruct ptr as [p|].
    + destruct Hpost as (Hnn & Hh2 & Hv2 & Hp).
      rewrite (load_run p (replicate n 0))
        by (rewrite Hh2; apply lookup_insert_eq).
      cbv beta iota.
      rewrite bool_loop_all by (rewrite ?length_replicate; done).
      rewrite (store_run p (replicate n 0))
        by (rewrite Hh2; apply lookup_insert_eq).
      cbv beta iota.
      rewrite (Release_copy_back_spec arr p (bool_cell <$> take n a)).
      2: { cbn. rewrite Hv2. by left. }
      2: { cbn. apply lookup_insert_eq. }
      cbv beta iota. eexists _, _. split; [done|]. cbn.
      rewrite Hv2, remove_view_head. split; [done|].
      split; [congruence|]. exists arr. split; [done|]. split; [done|].
      assert (Hheap :
        (if decide (p = arr) is left _
         then <[p:=bool_cell <$> take n a]> (heap s2)
         else delete p (<[arr:=bool_cell <$> take n a]>
                          (<[p:=bool_cell <$> take n a]> (heap s2))))
        = <[arr:=bool_cell <$> take n a]> (heap s)).
      { rewrite Hh2, Hh1. destruct Hp as [[-> _]|[Hnone _]].
        - rewrite decide_True by done. by rewrite !insert_insert_eq.
        - assert (p <> arr) by congruence.
          assert (heap s !! p = None).
          { rewrite Hh1, lookup_insert_ne in Hnone; done. }
          rewrite decide_False by done.
          rewrite delete_insert_ne, !delete_insert_eq by done.
          rewrite delete_insert_ne, delete_id by done.
          by rewrite insert_insert_eq. }
      rewrite Hheap, Ht2, Ht1.
      destruct (next_choice s1).1; done.
    + destruct Hpost as (-> & Hh2 & Hv2).
      unfold out_of_mem_exception, emit. cbv beta iota.
      eexists _, _. split; [done|]. cbn.
      split; [congruence|]. split; [congruence|].
      exists arr. by rewrite Hh2, Hh1, Ht2, Ht1.
  - destruct Hr as (-> & Hh1).
    unfold out_of_mem_exception, emit. cbv beta iota.
    eexists _, _. split; [done|]. cbn.
    by rewrite Hh1, Ht1.
Qed.

Lemma convertToBoolArray_ok n a s :
  (n <= length a)%nat ->
  allocs_ok s = true -> views_granted s = true ->
  exists arr s',
    convertToBoolArray n a s = Done (Some arr) s' /\
    heap s !! arr = None /\
    heap s' = <[arr := bool_cell <$> take n a]> (heap s) /\
    trace s' = trace s /\ views s' = views s.
Proof.
  intros Hn Hal Hvg.
  destruct (convertToBoolArray_run n a s Hn) as (r & s' & Hrun & Hv & _ & Hc).
  destruct (next_alloc_ok s Hal) as [Hok _]. rewrite Hok in Hc.
  destruct Hc as (arr & -> & Hfresh & Hc).
  destruct (views_granted_next s Hvg) as [Hnn _].
  exists arr, s'. split; [done|]. split; [done|].
  destruct (next_choice s).1; [done|..]; by destruct Hc.
Qed.

(** X10: [convertToBoolArray] on a block of at least [n] cells.  If the
    array cannot be allocated the result is [NULL] with the error raised.
    Otherwise a fresh array of [n] cells is returned; when the JVM grants
    a view of it, cell [i] ends as [1] if [a[i]] is not zero and as [0]
    otherwise, the same whether the view is the array itself or a copy,
    and the view is released.  When the view is refused the error is
    raised and the array is still returned, all zero. *)
Theorem X10_bool_array_contents n a s :
  (n <= length a)%nat ->
  exists r s',
    convertToBoolArray n a s = Done r s' /\
    views s' = views s /\
    if (next_alloc s).1 then
      exists arr,
        r = Some arr /\ heap s !! arr = None /\
        match (next_choice s).1 with
        | ElemsNull =>
            heap s' = <[arr := replicate n 0]> (heap s) /\
            trace s' = trace s ++ [OutOfMem]
        | _ =>
            heap s' = <[arr := bool_cell <$> take n a]> (heap s) /\
            trace s' = trace s
        end
    else
      r = None /\ heap s' = heap s /\ trace s' = trace s ++ [OutOfMem].
Proof.
  intros Hn.
  destruct (convertToBoolArray_run n a s Hn) as (r & s' & Hrun & Hv & _ & Hc).
  by exists r, s'.
Qed.

Lemma X10_witness :
  exists r s',
    convertToBoolArray 3 [0; 5; -1; 9] demo_state = Done r s' /\
    views s' = views demo_state /\
    exists arr,
      r = Some arr /\ heap demo_state !! arr = None /\
      heap s' = <[arr := bool_cell <$> take 3 [0; 5; -1; 9]]> (heap demo_state) /\
      trace s' = trace demo_state.
Proof.
  apply (X10_bool_array_contents 3 [0; 5; -1; 9] demo_state). simpl. lia.
Defined.

(** * Bit-vector values *)

Lemma cxx_new_cases n s :
  exists r s',
    cxx_new n s = Done r s' /\
    views s' = views s /\ jvm_elems s' = jvm_elems s /\
    allocs s' = (next_alloc s).2 /\ trace s' = trace s /\
    junk s' = junk s /\
    match r with
    | Some p =>
        (next_alloc s).1 = true /\ heap s !! p = None /\
        heap s' = <[p := uninit s n]> (heap s)
    | None => (next_alloc s).1 = false /\ heap s' = heap s
    end.
Proof.
  unfold cxx_new. destruct (next_alloc s) as [[] rest]; cbv beta iota zeta.
  - eexists _, _. split; [done|]. cbn. repeat split; try done.
    apply fresh_None.
  - eexists _, _. split; [done|]. by cbn.
Qed.

Lemma allocs_ok_next s s' :
  allocs_ok s = true -> allocs s' = (next_alloc s).2 -> allocs_ok s' = true.
Proof.
  intros H E. apply (allocs_ok_drop s s' 1 H). by rewrite E, next_alloc_drop.
Qed.

Section BvValue.

Variable sol : yices_values.

(** X11: [getBvValue] for a term of [n] bits, [0 < n], when memory is
    available and views are granted, and the solver fills in [n] values.
    If the solver reports an error the result is [NULL], nothing is
    raised and the store is as before.  Otherwise the result is a fresh
    array of [n] booleans, cell [i] true exactly when the [i]-th value is
    not zero, and nothing else in the store changes.  The run through the
    local buffer ([n <= 64]) and the run through an allocated block give
    the same: the block is freed in both outcomes. *)
Theorem X11_bv_value_as_booleans mdl t s n code a' :
  yices_term_bitsize sol t = n ->
  0 < n <= INT32_MAX ->
  yices_get_bv_value sol mdl t
    (uninit s (if n <=? 64 then 64 else Z.to_nat n)) = Some (code, a') ->
  length a' = Z.to_nat n ->
  allocs_ok s = true ->
  views_granted s = true ->
  exists r s',
    Java_com_sri_yices_Yices_getBvValue sol mdl t s = Done r s' /\
    views s' = views s /\
    trace s' = trace s /\
    if 0 <=? code then
      exists arr,
        r = Some arr /\ heap s !! arr = None /\
        heap s' = <[arr := bool_cell <$> a']> (heap s)
    else r = None /\ heap s' = heap s.
Proof.
  intros Hbits Hn Hsol Hlen Hal Hvg.
  unfold Java_com_sri_yices_Yices_getBvValue. rewrite Hbits. cbv zeta.
  destruct (Z.ltb_spec 0 n) as [_|]; [|lia].
  assert (Htake : forall a, (Z.to_nat n <= length a)%nat ->
            take (Z.to_nat n) (within a a') = a').
  { intros a Ha. rewrite within_exact by lia.
    rewrite <- Hlen. by rewrite take_app_length. }
  destruct (Z.leb_spec n 64) as [Hsmall|Hbig].
  - mrun. unfold stack_block. cbv beta iota. rewrite Hsol.
    destruct (Z.leb_spec 0 code) as [Hc|Hc].
    + destruct (convertToBoolArray_ok (Z.to_nat n)
                  (within (uninit s 64) a') s)
        as (arr & s' & Hrun & Hfresh & Hh & Ht & Hv); [|done..|].
      { rewrite length_within, length_uninit. lia. }
      rewrite Htake in Hh by (rewrite length_uninit; lia).
      exists (Some arr), s'. split; [done|]. split; [done|]. split; [done|].
      by exists arr.
    + by exists None, s.
  - destruct (Z.leb_spec n INT32_MAX) as [_|]; [|lia].
    mrun.
    destruct (cxx_new_cases (Z.to_nat n) s)
      as (r & s1 & -> & Hv1 & Hj1 & Hal1 & Ht1 & _ & Hr).
    destruct (next_alloc_ok s Hal) as [Hok _].
    destruct r as [p|]; [|destruct Hr; congruence].
    destruct Hr as (_ & Hp & Hh1). cbv beta iota.
    rewrite (load_run p (uninit s (Z.to_nat n)))
      by (rewrite Hh1; apply lookup_insert_eq).
    cbv beta iota. rewrite Hsol.
    rewrite (store_run p (uninit s (Z.to_nat n)))
      by (rewrite Hh1; apply lookup_insert_eq).
    cbv beta iota. set (w := within _ a'). set (s2 := with_heap _ s1).
    assert (Hh2 : heap s2 = <[p := w]> (heap s)).
    { subst s2. cbn. by rewrite Hh1, insert_insert_eq. }
    destruct (Z.leb_spec 0 code) as [Hc|Hc].
    + destruct (convertToBoolArray_ok (Z.to_nat n) w s2)
        as (arr & s3 & Hrun & Hfresh & Hh3 & Ht3 & Hv3).
      { subst w. rewrite length_within, length_uninit. lia. }
      { by apply (allocs_ok_next s). }
      { by rewrite (views_granted_same s s2). }
      rewrite Hrun. cbv beta iota.
      assert (Hne : arr <> p).
      { intros ->. rewrite Hh2, lookup_insert_eq in Hfresh. done. }
      unfold cxx_delete. rewrite Hh3, lookup_insert_ne, Hh2 by done.
      rewrite lookup_insert_eq.
      eexists _, _. split; [done|]. cbn.
      split; [by rewrite Hv3|]. split; [by rewrite Ht3|].
      exists arr. split; [done|]. split.
      { rewrite Hh2, lookup_insert_ne in Hfresh; done. }
      subst w. rewrite Htake by (rewrite length_uninit; lia).
      rewrite delete_insert_ne, delete_insert_eq by done.
      by rewrite delete_id.
    + unfold cxx_delete. mrun. rewrite Hh2, lookup_insert_eq.
      eexists _, _. split; [done|]. cbn.
      split; [done|]. split; [done|]. split; [done|].
      rewrite delete_insert_eq. by apply delete_id.
Qed.

End BvValue.

Lemma X11_witness :
  exists r s',
    Java_com_sri_yices_Yices_getBvValue demo_values 0 70 demo_state
      = Done r s' /\
    views s' = views demo_state /\
    trace s' = trace demo_state /\
    exists arr,
      r = Some arr /\ heap demo_state !! arr = None /\
      heap s' = <[arr := bool_cell <$> alternating 70]> (heap demo_state).
Proof.
  apply (X11_bv_value_as_booleans demo_values 0 70 demo_state 70 0
           (alternating 70)); try reflexivity.
  unfold INT32_MAX. lia.
Defined.

(** X12: when the solver runs out of memory while filling a block of more
    than 64 values, [getBvValue] returns [NULL] with the error raised and
    the block it allocated is never freed: the handler is reached before
    [delete[] tmp]. *)
Theorem X12_bv_value_block_not_freed sol mdl t s n :
  yices_term_bitsize sol t = n ->
  64 < n <= INT32_MAX ->
  (next_alloc s).1 = true ->
  yices_get_bv_value sol mdl t (uninit s (Z.to_nat n)) = None ->
  exists p s',
    Java_com_sri_yices_Yices_getBvValue sol mdl t s = Done None s' /\
    heap s !! p = None /\
    heap s' = <[p := uninit s (Z.to_nat n)]> (heap s) /\
    trace s' = trace s ++ [OutOfMem] /\
    views s' = views s.
Proof.
  intros Hbits Hn Hok Hsol.
  unfold Java_com_sri_yices_Yices_getBvValue. rewrite Hbits. cbv zeta.
  destruct (Z.ltb_spec 0 n) as [_|]; [|lia].
  destruct (Z.leb_spec n 64) as [|_]; [lia|].
  destruct (Z.leb_spec n INT32_MAX) as [_|]; [|lia].
  mrun.
  destruct (cxx_new_cases (Z.to_nat n) s)
    as (r & s1 & -> & Hv1 & Hj1 & Hal1 & Ht1 & _ & Hr).
  destruct r as [p|]; [|destruct Hr; congruence].
  destruct Hr as (_ & Hp & Hh1). cbv beta iota.
  rewrite (load_run p (uninit s (Z.to_nat n)))
    by (rewrite Hh1; apply lookup_insert_eq).
  cbv beta iota. rewrite Hsol.
  unfold out_of_mem_exception, emit. cbv beta iota.
  exists p. eexists. split; [done|]. cbn. by rewrite Ht1.
Qed.

Lemma X12_witness :
  exists p s',
    Java_com_sri_yices_Yices_getBvValue exhausted_values 0 70 demo_state
      = Done None s' /\
    heap demo_state !! p = None /\
    heap s' = <[p := uninit demo_state (Z.to_nat 70)]> (heap demo_state) /\
    trace s' = trace demo_state ++ [OutOfMem] /\
    views s' = views demo_state.
Proof.
  apply (X12_bv_value_block_not_freed exhausted_values 0 70 demo_state 70);
    try reflexivity.
  unfold INT32_MAX. lia.
Defined.

(** * Arrays forwarded to the solver *)

(** A view taken and released in abort mode, with no write in between,
    leaves the heap as it was. *)
Lemma view_round_trip (h : gmap loc (list Z)) a q l :
  h !! a = Some l ->
  q = a \/ h !! q = None ->
  (if decide (q = a) then <[q := l]> h else delete q (<[q := l]> h)) = h.
Proof.
  intros Ha [->|Hq].
  - rewrite decide_True by done. by apply insert_id.
  - rewrite decide_False by congruence.
    rewrite delete_insert_eq. by apply delete_id.
Qed.

(** X13: [tupleType] hands the solver exactly the cells of the array and
    returns its answer, or [-1] with the error raised when the solver or
    the JVM runs out of memory.  Whatever the JVM answers, the view is
    released and every array holds what it held before.  For an empty
    array no view is requested, so the JVM cannot make the call fail;
    that call to the solver is made outside any handler, so the solver is
    assumed not to throw on it. *)
Theorem X13_tuple_type_forwards sol s a l :
  heap s !! a = Some l ->
  (l = [] -> yices_tuple_type sol [] <> None) ->
  exists r s',
    Java_com_sri_yices_Yices_tupleType sol a s = Done r s' /\
    views s' = views s /\
    heap s' = heap s /\
    ((l <> [] /\ (next_choice s).1 = ElemsNull /\
      r = -1 /\ trace s' = trace s ++ [OutOfMem]) \/
     (r = or_minus_one (yices_tuple_type sol l) /\
      trace s' = trace s ++ raised (yices_tuple_type sol l))).
Proof.
  intros Ha Hempty.
  unfold Java_com_sri_yices_Yices_tupleType. mrun.
  rewrite (GetArrayLength_run a l) by done. cbv beta iota.
  destruct (decide (length l = 0%nat)) as [Hz|Hnz].
  - apply length_zero_iff_nil in Hz. subst l.
    destruct (yices_tuple_type sol []) as [r|] eqn:E;
      [|by destruct Hempty].
    exists r, s. split; [done|]. split; [done|]. split; [done|].
    right. cbn. by rewrite app_nil_r.
  - assert (Hne : l <> []) by (by intros ->).
    destruct (GetArrayElements_spec a l s Ha)
      as (ptr & flag & s1 & -> & Ht1 & _ & Hpost).
    cbv beta iota. destruct ptr as [q|].
    + destruct Hpost as (_ & Hh1 & Hv1 & Hq).
      rewrite (load_run q l) by (rewrite Hh1; apply lookup_insert_eq).
      cbv beta iota. rewrite firstn_all.
      assert (Hrel : forall s2, heap s2 = heap s1 -> views s2 = views s1 ->
        exists s',
          ReleaseArrayElements a q JNI_ABORT s2 = Done tt s' /\
          trace s' = trace s2 /\ views s' = views s /\ heap s' = heap s).
      { intros s2 Hh2 Hv2. rewrite (Release_abort_spec a q l).
        - eexists. split; [done|]. cbn.
          rewrite Hv2, Hv1, remove_view_head, Hh2, Hh1.
          split; [done|]. split; [done|].
          apply view_round_trip; [done|]. destruct Hq as [[]|[]]; auto.
        - rewrite Hv2, Hv1. by left.
        - rewrite Hh2, Hh1. apply lookup_insert_eq. }
      destruct (yices_tuple_type sol l) as [r|]; cbv beta iota.
      * destruct (Hrel s1) as (s' & -> & Ht' & Hv' & Hh'); [done..|].
        exists r, s'. split; [done|]. split; [done|]. split; [done|].
        right. cbn. by rewrite Ht', Ht1, app_nil_r.
      * unfold out_of_mem_exception, emit. cbv beta iota.
        destruct (Hrel (log OutOfMem s1)) as (s' & -> & Ht' & Hv' & Hh');
          [done..|].
        exists (-1), s'. split; [done|]. split; [done|]. split; [done|].
        right. cbn. by rewrite Ht', <- Ht1.
    + destruct Hpost as (Hnull & Hh1 & Hv1).
      unfold out_of_mem_exception, emit. cbv beta iota.
      eexists _, _. split; [done|]. cbn. rewrite Hh1, Hv1, Ht1.
      split; [done|]. split; [done|]. by left.
Qed.

Lemma X13_witness :
  exists r s',
    Java_com_sri_yices_Yices_tupleType demo_values 2%nat demo_state
      = Done r s' /\
    views s' = views demo_state /\
    heap s' = heap demo_state /\
    (([0; 0] <> [] /\ (next_choice demo_state).1 = ElemsNull /\
      r = -1 /\ trace s' = trace demo_state ++ [OutOfMem]) \/
     (r = or_minus_one (yices_tuple_type demo_values [0; 0]) /\
      trace s' = trace demo_state
                   ++ raised (yices_tuple_type demo_values [0; 0]))).
Proof.
  apply (X13_tuple_type_forwards demo_values demo_state 2%nat [0; 0]).
  - reflexivity.
  - simpl. discriminate.
Defined.

(** * Substitution in an array of terms *)

Lemma nth_choice_next s s' i :
  jvm_elems s' = (next_choice s).2 -> nth_choice s' i = nth_choice s (S i).
Proof.
  unfold next_choice, nth_choice. intros ->.
  by destruct (jvm_elems s).
Qed.

Lemma nth_choice_first s : (next_choice s).1 = nth_choice s 0.
Proof. unfold next_choice, nth_choice. by destruct (jvm_elems s). Qed.

(** Releasing two views in abort mode, the older one first: the views are
    as before the two were taken, and only the copies are gone. *)
Lemma release_pair_frame s x y px py vs (r : Z) :
  views s = (y, py) :: (x, px) :: vs ->
  is_Some (heap s !! px) -> is_Some (heap s !! py) ->
  (py = px -> px = x) ->
  exists s',
    (release_if x (Some px) ≫= λ _,
     release_if y (Some py) ≫= λ _, mret r) s = Done r s' /\
    views s' = vs /\ trace s' = trace s /\
    forall k, px = x \/ k <> px -> py = y \/ k <> py ->
              heap s' !! k = heap s !! k.
Proof.
  intros Hv [lx Hx] [ly Hy] Halias. mrun. unfold release_if.
  rewrite (Release_abort_spec x px lx); [|rewrite Hv; right; by left|done].
  set (s1 := with_views _ _).
  assert (Hv1 : views s1 = (y, py) :: vs).
  { subst s1. cbn [views with_views]. rewrite Hv. cbn [remove_view].
    destruct (decide _) as [->|]; [done|]. by rewrite decide_True. }
  assert (Hh1 : heap s1 = if decide (px = x) then heap s
                          else delete px (heap s)) by done.
  assert (Hy1 : is_Some (heap s1 !! py)).
  { rewrite Hh1. destruct (decide (px = x)); [by eexists|].
    rewrite lookup_delete_ne; [by eexists|]. intros ->. by apply n, Halias. }
  destruct Hy1 as [ly' Hy1].
  rewrite (Release_abort_spec y py ly'); [|rewrite Hv1; by left|done].
  eexists. split; [done|]. cbn [views with_views trace with_heap heap].
  split; [by rewrite Hv1, remove_view_head|]. split; [done|].
  intros k Hkx Hky. fold (heap s1). rewrite Hh1.
  destruct (decide (py = y)), (decide (px = x));
    rewrite ?lookup_delete_ne; try done.
  - destruct Hkx; congruence.
  - destruct Hky; congruence.
  - destruct Hkx; congruence.
  - destruct Hky; congruence.
Qed.

Section Substitution.

Variable sol : yices_values.

(** X14: when the JVM refuses the view of [v] but grants the one of [a],
    [substTermArray] returns [-1] with the error raised and never releases
    the view of [a]: it is still held when the call returns. *)
Theorem X14_subst_array_view_not_released s a v map la lv lm :
  heap s !! a = Some la ->
  heap s !! v = Some lv ->
  heap s !! map = Some lm ->
  length lv = length lm ->
  nth_choice s 0 = ElemsNull ->
  nth_choice s 2 <> ElemsNull ->
  exists p s',
    Java_com_sri_yices_Yices_substTermArray sol a v map s = Done (-1) s' /\
    trace s' = trace s ++ [OutOfMem] /\
    views s' = (a, p) :: views s.
Proof.
  intros Ha Hv Hm Hlen Hc0 Hc2.
  unfold Java_com_sri_yices_Yices_substTermArray. mrun.
  rewrite (GetArrayLength_run v lv), (GetArrayLength_run map lm) by done.
  cbv beta iota. rewrite decide_True by done.
  destruct (GetArrayElements_spec v lv s Hv)
    as (ptr1 & flag1 & s1 & -> & Ht1 & Hj1 & Hpost1).
  cbv beta iota. rewrite nth_choice_first in Hpost1.
  destruct ptr1 as [?|]; [by destruct Hpost1|].
  destruct Hpost1 as (_ & Hh1 & Hv1).
  assert (Hm1 : heap s1 !! map = Some lm) by (by rewrite Hh1).
  destruct (GetArrayElements_spec map lm s1 Hm1)
    as (ptr2 & flag2 & s2 & -> & Ht2 & Hj2 & Hpost2).
  cbv beta iota.
  assert (Hc : (next_choice s2).1 <> ElemsNull).
  { rewrite nth_choice_first, (nth_choice_next s1 s2 0 Hj2),
      (nth_choice_next s s1 1 Hj1). done. }
  assert (Ha2 : heap s2 !! a = Some la /\
                views s2 = view_of map ptr2 ++ views s /\
                forall q, ptr2 = Some q -> is_Some (heap s2 !! q)).
  { destruct ptr2 as [q|].
    - destruct Hpost2 as (_ & Hh2 & Hv2 & Hq). rewrite Hh2, Hv2, Hv1.
      split; [|split; [done|]].
      + apply (lookup_after_view _ map a q lm la); [done|by rewrite Hh1|].
        destruct Hq as [[]|[]]; auto.
      + intros ? [= <-]. rewrite lookup_insert_eq. by eexists.
    - destruct Hpost2 as (_ & Hh2 & Hv2). rewrite Hh2, Hv2, Hv1, Hh1.
      split; [done|]. split; [done|]. done. }
  destruct Ha2 as (Ha2 & Hv2 & Hq2).
  destruct (GetArrayElements_spec a la s2 Ha2)
    as (ptr3 & flag3 & s3 & -> & Ht3 & Hj3 & Hpost3).
  cbv beta iota.
  destruct ptr3 as [pt|]; [|by destruct Hpost3].
  destruct Hpost3 as (_ & Hh3 & Hv3 & Hpt).
  assert (Ha3 : heap s3 !! a = Some la).
  { rewrite Hh3. apply (lookup_after_view _ a a pt la la); [done..|].
    destruct Hpt as [[]|[]]; auto. }
  rewrite (GetArrayLength_run a la) by done. cbv beta iota.
  unfold out_of_mem_exception, emit. cbv beta iota.
  unfold release_if at 1. mrun.
  exists pt. destruct ptr2 as [q|]; cbn [release_if].
  - assert (Hq : is_Some (heap s3 !! q)).
    { rewrite Hh3. destruct (decide (pt = q)) as [->|].
      - rewrite lookup_insert_eq. by eexists.
      - rewrite lookup_insert_ne by done. by apply Hq2. }
    destruct Hq as [lq Hq].
    rewrite (Release_abort_spec map q lq).
    + eexists. split; [done|]. cbn. rewrite Ht3, Ht2, Ht1.
      split; [done|]. rewrite Hv3, Hv2. cbn.
      destruct (decide ((map, q) = (a, pt))) as [->|]; [done|].
      by rewrite decide_True.
    + cbn. rewrite Hv3, Hv2. cbn. right. by left.
    + done.
  - eexists. split; [done|]. cbn. rewrite Ht3, Ht2, Ht1, Hv3, Hv2. done.
Qed.

(** X15: [substTermArray] on three different arrays, with every view
    granted and a solver that fills in as many terms as [a] holds.  The
    call returns the solver's code and releases all three views; [v] and
    [map] hold what they held.  After a success [a] holds the terms the
    solver wrote.  After a failure [a] is unchanged when its view was a
    copy; when the view was the array itself, whatever the solver wrote
    stays in [a]. *)
Theorem X15_subst_array_result s a v map la lv lm r ts' :
  heap s !! a = Some la ->
  heap s !! v = Some lv ->
  heap s !! map = Some lm ->
  a <> v -> a <> map ->
  length lv = length lm ->
  views_granted s = true ->
  yices_subst_term_array sol lv lm la = Some (r, ts') ->
  length ts' = length la ->
  exists s',
    Java_com_sri_yices_Yices_substTermArray sol a v map s = Done r s' /\
    views s' = views s /\
    trace s' = trace s /\
    heap s' !! v = Some lv /\
    heap s' !! map = Some lm /\
    heap s' !! a =
      Some (match nth_choice s 2 with
            | ElemsCopy => if r <? 0 then la else ts'
            | _ => ts'
            end).
Proof.
  intros Ha Hv Hm Hav Ham Hlen Hvg Hsol Hlen'.
  unfold Java_com_sri_yices_Yices_substTermArray. mrun.
  rewrite (GetArrayLength_run v lv), (GetArrayLength_run map lm) by done.
  cbv beta iota. rewrite decide_True by done.
  (* the three views *)
  destruct (GetArrayElements_spec v lv s Hv)
    as (ptr1 & flag1 & s1 & -> & Ht1 & Hj1 & Hpost1).
  cbv beta iota.
  destruct (views_granted_next s Hvg) as [Hnn1 Hvg1].
  destruct ptr1 as [pv|]; [|by destruct Hpost1].
  destruct Hpost1 as (_ & Hh1 & Hv1 & Hpv).
  assert (Hpv' : pv = v \/ heap s !! pv = None)
    by (destruct Hpv as [[]|[]]; auto).
  assert (F1 : pv <> a) by (destruct Hpv'; congruence).
  assert (L1a : heap s1 !! a = Some la)
    by (by rewrite Hh1, lookup_insert_ne).
  assert (L1m : heap s1 !! map = Some lm)
    by (rewrite Hh1; by apply (lookup_after_view _ v map pv lv lm)).
  assert (L1v : heap s1 !! v = Some lv)
    by (rewrite Hh1; by apply (lookup_after_view _ v v pv lv lv)).
  assert (L1pv : heap s1 !! pv = Some lv)
    by (rewrite Hh1; apply lookup_insert_eq).
  assert (Hvg1' : views_granted s1 = true).
  { unfold views_granted. by rewrite Hj1. }
  destruct (GetArrayElements_spec map lm s1 L1m)
    as (ptr2 & flag2 & s2 & -> & Ht2 & Hj2 & Hpost2).
  cbv beta iota.
  destruct (views_granted_next s1 Hvg1') as [Hnn2 Hvg2].
  destruct ptr2 as [pm|]; [|by destruct Hpost2].
  destruct Hpost2 as (_ & Hh2 & Hv2 & Hpm).
  assert (Hpm' : pm = map \/ heap s1 !! pm = None)
    by (destruct Hpm as [[]|[]]; auto).
  assert (F2 : pm <> a) by (destruct Hpm'; congruence).
  assert (L2a : heap s2 !! a = Some la)
    by (by rewrite Hh2, lookup_insert_ne).
  assert (L2v : heap s2 !! v = Some lv)
    by (rewrite Hh2; by apply (lookup_after_view _ map v pm lm lv)).
  assert (L2m : heap s2 !! map = Some lm)
    by (rewrite Hh2; by apply (lookup_after_view _ map map pm lm lm)).
  assert (L2pv : heap s2 !! pv = Some lv)
    by (rewrite Hh2; by apply (lookup_after_view _ map pv pm lm lv)).
  assert (L2pm : heap s2 !! pm = Some lm)
    by (rewrite Hh2; apply lookup_insert_eq).
  assert (Hvg2' : views_granted s2 = true).
  { unfold views_granted. by rewrite Hj2. }
  destruct (GetArrayElements_spec a la s2 L2a)
    as (ptr3 & flag3 & s3 & -> & Ht3 & Hj3 & Hpost3).
  cbv beta iota.
  destruct ptr3 as [pt|]; [|destruct Hpost3 as [Hnull _];
    by destruct (views_granted_next s2 Hvg2')].
  destruct Hpost3 as (_ & Hh3 & Hv3 & Hpt).
  rewrite nth_choice_first, (nth_choice_next s1 s2 0 Hj2),
    (nth_choice_next s s1 1 Hj1) in Hpt.
  assert (Hpt' : pt = a \/ heap s2 !! pt = None)
    by (destruct Hpt as [[]|[]]; auto).
  assert (F3v : pt <> pv) by (destruct Hpt'; congruence).
  assert (F3m : pt <> pm) by (destruct Hpt'; congruence).
  assert (F4v : pt <> v) by (destruct Hpt'; congruence).
  assert (F4m : pt <> map) by (destruct Hpt'; congruence).
  assert (L3a : heap s3 !! a = Some la)
    by (rewrite Hh3; by apply (lookup_after_view _ a a pt la la)).
  assert (L3pt : heap s3 !! pt = Some la)
    by (rewrite Hh3; apply lookup_insert_eq).
  assert (L3 : forall k, k <> pt -> heap s3 !! k = heap s2 !! k).
  { intros k Hk. by rewrite Hh3, lookup_insert_ne. }
  rewrite (GetArrayLength_run a la) by done. cbv beta iota.
  rewrite (load_run pv lv) by (by rewrite L3).
  cbv beta iota.
  rewrite (load_run pm lm) by (by rewrite L3).
  cbv beta iota.
  rewrite (load_run pt la) by done.
  cbv beta iota.
  rewrite (firstn_all lv), Hlen, !firstn_all, Hsol, drop_all, app_nil_r.
  rewrite within_same by done.
  rewrite (store_run pt la) by done.
  cbv beta iota. set (s4 := with_heap _ s3).
  assert (Hrel : exists s5,
    ReleaseArrayElements a pt
      (if r <? 0 then JNI_ABORT else JNI_COPY_BACK) s4 = Done tt s5 /\
    views s5 = (map, pm) :: (v, pv) :: views s /\
    trace s5 = trace s /\
    (forall k, k <> pt -> k <> a -> heap s5 !! k = heap s2 !! k) /\
    heap s5 !! a =
      Some (match nth_choice s 2 with
            | ElemsCopy => if r <? 0 then la else ts'
            | _ => ts'
            end)).
  { assert (Hin : (a, pt) ∈ views s4).
    { subst s4. cbn. rewrite Hv3. by left. }
    assert (Hpt4 : heap s4 !! pt = Some ts').
    { subst s4. cbn. apply lookup_insert_eq. }
    assert (Hv4 : remove_view (a, pt) (views s4)
                  = (map, pm) :: (v, pv) :: views s).
    { subst s4. cbn. by rewrite Hv3, remove_view_head, Hv2, Hv1. }
    assert (Ht4 : trace s4 = trace s).
    { subst s4. cbn. by rewrite Ht3, Ht2, Ht1. }
    assert (Hh4 : heap s4 = <[pt := ts']> (heap s3)) by done.
    destruct (r <? 0).
    - rewrite (Release_abort_spec a pt ts') by done.
      eexists. split; [done|]. cbn [views with_views trace with_heap heap].
      split; [done|]. split; [done|]. rewrite Hh4.
      destruct Hpt as [[-> ->]|[Hnone ->]].
      + rewrite decide_True by done. split.
        * intros k Hk _. rewrite lookup_insert_ne by done. by apply L3.
        * apply lookup_insert_eq.
      + assert (pt <> a) by congruence.
        rewrite decide_False by done. split.
        * intros k Hk _.
          rewrite lookup_delete_ne, lookup_insert_ne by done. by apply L3.
        * rewrite lookup_delete_ne, lookup_insert_ne by done. done.
    - rewrite (Release_copy_back_spec a pt ts') by done.
      eexists. split; [done|]. cbn [views with_views trace with_heap heap].
      split; [done|]. split; [done|]. rewrite Hh4.
      destruct Hpt as [[-> ->]|[Hnone ->]].
      + rewrite decide_True by done. split.
        * intros k Hk _. rewrite lookup_insert_ne by done. by apply L3.
        * apply lookup_insert_eq.
      + assert (pt <> a) by congruence.
        rewrite decide_False by done. split.
        * intros k Hk Hka.
          rewrite lookup_delete_ne, !lookup_insert_ne by done. by apply L3.
        * rewrite lookup_delete_ne by done. apply lookup_insert_eq. }
  destruct Hrel as (s5 & -> & Hv5 & Ht5 & Hk5 & Ha5). cbv beta iota.
  destruct (release_pair_frame s5 v map pv pm (views s) r)
    as (s' & Hrun & Hv' & Ht' & Hk').
  { done. }
  { rewrite Hk5 by done. by eexists. }
  { rewrite Hk5 by done. by eexists. }
  { intros ->. destruct Hpm' as [->|]; [|congruence].
    destruct Hpv'; congruence. }
  revert Hrun. mrun. intros ->.
  exists s'. split; [done|]. split; [done|]. split; [congruence|].
  assert (Gv : pv = v \/ v <> pv) by (destruct (decide (pv = v)); auto).
  assert (Gm : pm = map \/ map <> pm) by (destruct (decide (pm = map)); auto).
  rewrite !Hk', !Hk5, Ha5 by first [done | right; congruence
    | destruct Hpm'; [by left | right; congruence]
    | destruct Hpv'; [by left | right; congruence]].
  done.
Qed.

End Substitution.

Lemma X14_witness :
  exists p s',
    Java_com_sri_yices_Yices_substTermArray demo_values 1%nat 2%nat 3%nat
        subst_refused = Done (-1) s' /\
    trace s' = trace subst_refused ++ [OutOfMem] /\
    views s' = (1%nat, p) :: views subst_refused.
Proof.
  apply (X14_subst_array_view_not_released demo_values subst_refused
           1%nat 2%nat 3%nat [10; 11; 12] [1; 2] [5; 6]);
    try reflexivity.
  vm_compute. discriminate.
Defined.

Lemma X15_witness :
  exists s',
    Java_com_sri_yices_Yices_substTermArray demo_values 1%nat 2%nat 3%nat
        subst_granted = Done 0 s' /\
    views s' = views subst_granted /\
    trace s' = trace subst_granted /\
    heap s' !! 2%nat = Some [1; 2] /\
    heap s' !! 3%nat = Some [5; 6] /\
    heap s' !! 1%nat = Some [11; 12; 13].
Proof.
  apply (X15_subst_array_result demo_values subst_granted 1%nat 2%nat 3%nat
           [10; 11; 12] [1; 2] [5; 6] 0 [11; 12; 13]);
    try reflexivity; lia.
Defined.

(** * Integer polynomials *)

Lemma released_heap_with (h : gmap loc (list Z)) a l ptr :
  h !! a = Some l -> ptr_ok a ptr h ->
  released a ptr (heap_with ptr l h) = h.
Proof.
  intros Ha Hp. destruct ptr as [q|]; [|done]. cbn in *.
  by apply view_round_trip.
Qed.

(** The answer to a request for a view, with the JVM's choice and the
    store afterwards. *)
Lemma GetArrayElements_full a l s :
  heap s !! a = Some l ->
  exists ptr flag s',
    GetArrayElements a s = Done (ptr, flag) s' /\
    trace s' = trace s /\
    jvm_elems s' = (next_choice s).2 /\
    heap s' = heap_with ptr l (heap s) /\
    views s' = view_of a ptr ++ views s /\
    ptr_ok a ptr (heap s) /\
    (ptr = None <-> (next_choice s).1 = ElemsNull).
Proof.
  intros Ha.
  destruct (GetArrayElements_spec a l s Ha)
    as (ptr & flag & s' & Hg & Ht & Hj & Hpost).
  exists ptr, flag, s'. split; [done|]. split; [done|]. split; [done|].
  destruct ptr as [q|].
  - destruct Hpost as (Hnn & Hh & Hv & Hq). cbn.
    split; [done|]. split; [done|].
    split; [destruct Hq as [[]|[]]; auto|]. split; [done|]. by intros.
  - destruct Hpost as (Hnull & Hh & Hv). by cbn.
Qed.

(** Two views released in the reverse order of their acquisition, in
    abort mode, with no write in between: the store is as before. *)
Lemma release_nested s x y px py h0 lx ly vs (r : Z) :
  h0 !! x = Some lx -> h0 !! y = Some ly ->
  ptr_ok x px h0 -> ptr_ok y py (heap_with px lx h0) ->
  heap s = heap_with py ly (heap_with px lx h0) ->
  views s = view_of y py ++ view_of x px ++ vs ->
  exists s',
    (release_if y py ≫= λ _, release_if x px ≫= λ _, mret r) s
      = Done r s' /\
    views s' = vs /\ trace s' = trace s /\ heap s' = h0.
Proof.
  intros Hx Hy Hpx Hpy Hh Hv. mrun.
  assert (Hy1 : heap_with px lx h0 !! y = Some ly)
    by (by apply (heap_with_lookup h0 x lx px y ly)).
  destruct (release_if_spec y py s (view_of x px ++ vs) Hv)
    as (s1 & -> & Hv1 & Ht1 & Hh1).
  { intros q ->. rewrite Hh, heap_with_ptr. by eexists. }
  rewrite Hh, released_heap_with in Hh1 by done.
  destruct (release_if_spec x px s1 vs Hv1) as (s2 & -> & Hv2 & Ht2 & Hh2).
  { intros q ->. rewrite Hh1, heap_with_ptr. by eexists. }
  rewrite Hh1, released_heap_with in Hh2 by done.
  exists s2. split; [done|]. split; [done|]. split; [congruence|done].
Qed.

Section IntPoly.

Variable lib : yices_lib.

Lemma intPoly_run s coeff t lc lt :
  heap s !! coeff = Some lc -> heap s !! t = Some lt ->
  length lc = length lt ->
  exists r s',
    Java_com_sri_yices_Yices_intPoly lib coeff t s = Done r s' /\
    views s' = views s /\
    heap s' = heap s /\
    if views_granted s then
      r = or_minus_one (yices_poly_int64 lib lc lt) /\
      trace s' = trace s ++ Native (Call_poly_int64 lc lt)
                           :: raised (yices_poly_int64 lib lc lt)
    else
      r = -1 \/ r = or_minus_one (yices_poly_int64 lib lc lt).
Proof.
  intros Hc Ht Hlen.
  unfold Java_com_sri_yices_Yices_intPoly. mrun.
  rewrite (GetArrayLength_run coeff lc), (GetArrayLength_run t lt) by done.
  cbv beta iota. rewrite decide_True by done.
  destruct (GetArrayElements_full t lt s Ht)
    as (pa & f1 & s1 & -> & Ht1 & Hj1 & Hh1 & Hv1 & Hok1 & Hnull1).
  cbv beta iota.
  assert (Hc1 : heap s1 !! coeff = Some lc).
  { rewrite Hh1. by apply (heap_with_lookup _ t lt pa coeff lc). }
  destruct (GetArrayElements_full coeff lc s1 Hc1)
    as (pc & f2 & s2 & -> & Ht2 & Hj2 & Hh2 & Hv2 & Hok2 & Hnull2).
  cbv beta iota. rewrite Hh1 in Hok2, Hh2. rewrite Hv1 in Hv2.
  assert (Hrel : forall s3 (r : Z),
    heap s3 = heap s2 -> views s3 = views s2 ->
    exists s',
      (release_if coeff pc ≫= λ _, release_if t pa ≫= λ _, mret r) s3
        = Done r s' /\
      views s' = views s /\ trace s' = trace s3 /\ heap s' = heap s).
  { intros s3 r Hh3 Hv3.
    apply (release_nested s3 t coeff pa pc (heap s) lt lc); try done.
    - by rewrite Hh3.
    - by rewrite Hv3. }
  assert (Hgr : views_granted s = true -> pa <> None /\ pc <> None).
  { intros Hvg. destruct (views_granted_next s Hvg) as [Hn1 Hrest].
    split; [by rewrite Hnull1|].
    assert (Hvg1 : views_granted s1 = true).
    { unfold views_granted. by rewrite Hj1. }
    destruct (views_granted_next s1 Hvg1) as [Hn2 _]. by rewrite Hnull2. }
  destruct pa as [qa|], pc as [qc|].
  - rewrite (load_run qa lt).
    2: { rewrite Hh2. apply (heap_with_lookup _ coeff lc (Some qc) qa lt);
           [|done|apply heap_with_ptr].
         by apply (heap_with_lookup _ t lt (Some qa) coeff lc). }
    cbv beta iota.
    rewrite (load_run qc lc) by (rewrite Hh2; apply heap_with_ptr).
    cbv beta iota. rewrite firstn_all, Hlen, firstn_all.
    unfold out_of_mem_exception, emit. cbv beta iota.
    destruct (yices_poly_int64 lib lc lt) as [r|]; cbv beta iota.
    + destruct (Hrel (log (Native (Call_poly_int64 lc lt)) s2) r)
        as (s' & Hrun & Hv' & Ht' & Hh'); [done..|].
      revert Hrun. mrun. intros ->.
      exists r, s'. split; [done|]. split; [done|]. split; [done|].
      destruct (views_granted s); [|by right].
      split; [done|]. rewrite Ht'. cbn. by rewrite Ht2, Ht1.
    + destruct (Hrel (log OutOfMem (log (Native (Call_poly_int64 lc lt)) s2))
                  (-1))
        as (s' & Hrun & Hv' & Ht' & Hh'); [done..|].
      revert Hrun. mrun. intros ->.
      exists (-1), s'. split; [done|]. split; [done|]. split; [done|].
      destruct (views_granted s); [|by right].
      split; [done|]. rewrite Ht'. cbn. rewrite Ht2, Ht1, <- app_assoc. done.
  - unfold out_of_mem_exception, emit. cbv beta iota.
    destruct (Hrel (log OutOfMem s2) (-1))
      as (s' & Hrun & Hv' & Ht' & Hh'); [done..|].
    revert Hrun. mrun. intros ->.
    exists (-1), s'. split; [done|]. split; [done|]. split; [done|].
    destruct (views_granted s); [|by left]. by destruct Hgr.
  - unfold out_of_mem_exception, emit. cbv beta iota.
    destruct (Hrel (log OutOfMem s2) (-1))
      as (s' & Hrun & Hv' & Ht' & Hh'); [done..|].
    revert Hrun. mrun. intros ->.
    exists (-1), s'. split; [done|]. split; [done|]. split; [done|].
    destruct (views_granted s); [|by left]. by destruct Hgr.
  - unfold out_of_mem_exception, emit. cbv beta iota.
    destruct (Hrel (log OutOfMem s2) (-1))
      as (s' & Hrun & Hv' & Ht' & Hh'); [done..|].
    revert Hrun. mrun. intros ->.
    exists (-1), s'. split; [done|]. split; [done|]. split; [done|].
    destruct (views_granted s); [|by left]. by destruct Hgr.
Qed.

End IntPoly.

(** X16: [intPoly] on two arrays of the same length.  Whatever the JVM
    answers, both views are released and every array holds what it held
    before.  When the views are granted the solver is called once, with
    the coefficients and the terms exactly as the arrays hold them, and
    its answer is returned, or [-1] with the error raised if it throws. *)
Theorem X16_int_poly_forwards lib s coeff t lc lt :
  heap s !! coeff = Some lc ->
  heap s !! t = Some lt ->
  length lc = length lt ->
  exists r s',
    Java_com_sri_yices_Yices_intPoly lib coeff t s = Done r s' /\
    views s' = views s /\
    heap s' = heap s /\
    (views_granted s = true ->
     r = or_minus_one (yices_poly_int64 lib lc lt) /\
     trace s' = trace s ++ Native (Call_poly_int64 lc lt)
                          :: raised (yices_poly_int64 lib lc lt)).
Proof.
  intros Hc Ht Hlen.
  destruct (intPoly_run lib s coeff t lc lt Hc Ht Hlen)
    as (r & s' & Hrun & Hv & Hh & Hcase).
  exists r, s'. split; [done|]. split; [done|]. split; [done|].
  intros Hvg. by rewrite Hvg in Hcase.
Qed.

Lemma X16_witness :
  exists r s',
    Java_com_sri_yices_Yices_intPoly demo_lib 1%nat 3%nat poly_state
      = Done r s' /\
    views s' = views poly_state /\
    heap s' = heap poly_state /\
    (views_granted poly_state = true ->
     r = or_minus_one (yices_poly_int64 demo_lib [3; 5] [40; 41]) /\
     trace s' = trace poly_state ++ Native (Call_poly_int64 [3; 5] [40; 41])
                  :: raised (yices_poly_int64 demo_lib [3; 5] [40; 41])).
Proof.
  apply (X16_int_poly_forwards demo_lib poly_state 1%nat 3%nat
           [3; 5] [40; 41]); reflexivity.
Defined.

(** * Empty arrays of bytes *)

(** X17: [bytesToIntConstant] does not check the length of its array.  On
    an empty array, once the JVM grants a view, the decoder reads [b[0]]
    outside the block: the call has no defined behaviour. *)
Theorem X17_empty_bytes_undefined lib s a :
  heap s !! a = Some [] ->
  (next_choice s).1 <> ElemsNull ->
  Java_com_sri_yices_Yices_bytesToIntConstant lib a s = Undefined.
Proof.
  intros Ha Hc.
  unfold Java_com_sri_yices_Yices_bytesToIntConstant. mrun.
  rewrite (GetArrayLength_run a []) by done. cbv beta iota.
  destruct (GetArrayElements_spec a [] s Ha)
    as (ptr & flag & s1 & -> & _ & _ & Hpost).
  cbv beta iota. destruct ptr as [p|]; [|by destruct Hpost].
  destruct Hpost as (_ & Hh1 & _).
  unfold byte_array_to_mpz_at. mrun.
  rewrite (load_run p []) by (rewrite Hh1; apply lookup_insert_eq).
  done.
Qed.

Lemma X17_witness :
  Java_com_sri_yices_Yices_bytesToIntConstant demo_lib 1%nat empty_bytes
    = Undefined.
Proof.
  apply (X17_empty_bytes_undefined demo_lib empty_bytes 1%nat).
  - reflexivity.
  - vm_compute. discriminate.
Defined.

(** * Rational polynomials *)

Lemma release_nested3 s x y z px py pz h0 lx ly lz vs (r : Z) :
  h0 !! x = Some lx -> h0 !! y = Some ly -> h0 !! z = Some lz ->
  ptr_ok x px h0 ->
  ptr_ok y py (heap_with px lx h0) ->
  ptr_ok z pz (heap_with py ly (heap_with px lx h0)) ->
  heap s = heap_with pz lz (heap_with py ly (heap_with px lx h0)) ->
  views s = view_of z pz ++ view_of y py ++ view_of x px ++ vs ->
  exists s',
    (release_if z pz ≫= λ _, release_if y py ≫= λ _,
     release_if x px ≫= λ _, mret r) s = Done r s' /\
    views s' = vs /\ trace s' = trace s /\ heap s' = h0.
Proof.
  intros Hx Hy Hz Hpx Hpy Hpz Hh Hv. mrun.
  assert (Hy1 : heap_with px lx h0 !! y = Some ly)
    by (by apply (heap_with_lookup h0 x lx px y ly)).
  assert (Hz1 : heap_with px lx h0 !! z = Some lz)
    by (by apply (heap_with_lookup h0 x lx px z lz)).
  assert (Hz2 : heap_with py ly (heap_with px lx h0) !! z = Some lz)
    by (by apply (heap_with_lookup _ y ly py z lz)).
  destruct (release_if_spec z pz s (view_of y py ++ view_of x px ++ vs) Hv)
    as (s1 & -> & Hv1 & Ht1 & Hh1).
  { intros q ->. rewrite Hh, heap_with_ptr. by eexists. }
  rewrite Hh, released_heap_with in Hh1 by done.
  destruct (release_nested s1 x y px py h0 lx ly vs r)
    as (s' & Hrun & Hv' & Ht' & Hh'); try done.
  revert Hrun. mrun. intros ->.
  exists s'. split; [done|]. split; [done|]. split; [congruence|done].
Qed.

Section RationalPoly.

Variable lib : yices_lib.

(** X18: [rationalPoly] on three arrays of the same length.  Whatever the
    JVM answers, the three views are released and every array holds what
    it held before.  When the views are granted and no denominator is
    negative, the solver is called once with the numerators, the
    denominators and the terms exactly as the arrays hold them, and its
    answer is returned, or [-1] with the error raised if it throws; with
    a negative denominator the result is [-1], without an error and
    without a call. *)
Theorem X18_rational_poly_forwards s num den t ln ld lt :
  heap s !! num = Some ln -> heap s !! den = Some ld ->
  heap s !! t = Some lt ->
  length ln = length ld -> length ln = length lt ->
  exists r s',
    Java_com_sri_yices_Yices_rationalPoly lib num den t s = Done r s' /\
    views s' = views s /\
    heap s' = heap s /\
    (views_granted s = true ->
     if all_positive_longs ld then
       r = or_minus_one (yices_poly_rational64 lib ln ld lt) /\
       trace s' = trace s ++ Native (Call_poly_rational64 ln ld lt)
                            :: raised (yices_poly_rational64 lib ln ld lt)
     else r = -1 /\ trace s' = trace s).
Proof.
  intros Hnum Hden Ht Hlen1 Hlen2.
  unfold Java_com_sri_yices_Yices_rationalPoly. mrun.
  rewrite (GetArrayLength_run num ln), (GetArrayLength_run den ld) by done.
  cbv beta iota. rewrite decide_True by done.
  rewrite (GetArrayLength_run t lt) by done. cbv beta iota.
  rewrite bool_decide_eq_true_2 by done.
  destruct (GetArrayElements_full t lt s Ht)
    as (a & fa & s1 & -> & Ht1 & Hj1 & Hh1 & Hv1 & Hok1 & Hnull1).
  cbv beta iota.
  assert (Hnum1 : heap s1 !! num = Some ln)
    by (rewrite Hh1; by apply (heap_with_lookup _ t)).
  destruct (GetArrayElements_full num ln s1 Hnum1)
    as (p & fp & s2 & -> & Ht2 & Hj2 & Hh2 & Hv2 & Hok2 & Hnull2).
  cbv beta iota.
  assert (Hden2 : heap s2 !! den = Some ld).
  { rewrite Hh2. apply (heap_with_lookup _ num); [done..|].
    rewrite Hh1. by apply (heap_with_lookup _ t). }
  destruct (GetArrayElements_full den ld s2 Hden2)
    as (q & fq & s3 & -> & Ht3 & Hj3 & Hh3 & Hv3 & Hok3 & Hnull3).
  cbv beta iota.
  rewrite Hh1 in Hok2, Hh2. rewrite Hh2 in Hok3, Hh3.
  rewrite Hv1 in Hv2. rewrite Hv2 in Hv3.
  assert (Hrel : forall s4 (r : Z),
    heap s4 = heap s3 -> views s4 = views s3 ->
    exists s',
      (release_if den q ≫= λ _, release_if num p ≫= λ _,
       release_if t a ≫= λ _, mret r) s4 = Done r s' /\
      views s' = views s /\ trace s' = trace s4 /\ heap s' = heap s).
  { intros s4 r Hh4 Hv4.
    apply (release_nested3 s4 t num den a p q (heap s) lt ln ld); try done.
    - by rewrite Hh4.
    - by rewrite Hv4. }
  assert (Hgr : views_granted s = true ->
                a <> None /\ p <> None /\ q <> None).
  { intros Hvg. destruct (views_granted_next s Hvg) as [Hn1 _].
    assert (Hvg1 : views_granted s1 = true).
    { unfold views_granted. rewrite Hj1.
      by destruct (views_granted_next s Hvg). }
    destruct (views_granted_next s1 Hvg1) as [Hn2 Hrest2].
    assert (Hvg2 : views_granted s2 = true).
    { unfold views_granted. by rewrite Hj2. }
    destruct (views_granted_next s2 Hvg2) as [Hn3 _].
    rewrite Hnull1, Hnull2, Hnull3. done. }
  assert (Ht03 : trace s3 = trace s) by (by rewrite Ht3, Ht2, Ht1).
  assert (Hfail : exists r s',
    match (out_of_mem_exception ≫= λ _, mret (-1)) s3 with
    | Done r0 s0 =>
        (release_if den q ≫= λ _, release_if num p ≫= λ _,
         release_if t a ≫= λ _, mret r0) s0
    | Undefined => Undefined
    end = Done r s' /\ views s' = views s /\ heap s' = heap s).
  { destruct (Hrel (log OutOfMem s3) (-1)) as (s' & Hr & Hv & Ht' & Hh');
      [done..|].
    exists (-1), s'. unfold out_of_mem_exception, emit. mrun.
    revert Hr. mrun. intros ->. done. }
  destruct a as [pa|], p as [pp|], q as [pq|];
    try (destruct Hfail as (r & s' & Hr & Hv & Hh');
         revert Hr; mrun; intros Hr; exists r, s';
         split; [exact Hr|]; split; [done|]; split; [done|];
         intros Hvg; destruct (Hgr Hvg) as (? & ? & ?); done).
  clear Hfail.
  assert (Lq : heap s3 !! pq = Some ld)
    by (rewrite Hh3; apply heap_with_ptr).
  assert (Lp : heap s3 !! pp = Some ln).
  { rewrite Hh3. apply (heap_with_lookup _ den ld (Some pq) pp ln);
      [|done|apply heap_with_ptr].
    apply (heap_with_lookup _ num ln (Some pp) den ld); [|done|].
    - by apply (heap_with_lookup _ t lt (Some pa) num ln).
    - by apply (heap_with_lookup _ t lt (Some pa) den ld). }
  assert (La : heap s3 !! pa = Some lt).
  { rewrite Hh3. apply (heap_with_lookup _ den ld (Some pq) pa lt);
      [|done|].
    - apply (heap_with_lookup _ num ln (Some pp) den ld); [|done|].
      + by apply (heap_with_lookup _ t lt (Some pa) num ln).
      + by apply (heap_with_lookup _ t lt (Some pa) den ld).
    - apply (heap_with_lookup _ num ln (Some pp) pa lt);
        [|done|apply heap_with_ptr].
      by apply (heap_with_lookup _ t lt (Some pa) num ln). }
  rewrite (load_run pa lt), (load_run pp ln), (load_run pq ld) by auto.
  cbv beta iota. rewrite !take_ge by lia.
  unfold out_of_mem_exception, emit.
  destruct (all_positive_longs ld); cbv beta iota.
  - destruct (yices_poly_rational64 lib ln ld lt) as [r|]; cbv beta iota.
    + destruct (Hrel (log (Native (Call_poly_rational64 ln ld lt)) s3) r)
        as (s' & Hrun & Hv' & Ht' & Hh'); [done..|].
      revert Hrun. mrun. intros ->.
      exists r, s'. split; [done|]. split; [done|]. split; [done|].
      intros _. split; [done|]. rewrite Ht'. cbn. by rewrite Ht03.
    + destruct (Hrel (log OutOfMem
                        (log (Native (Call_poly_rational64 ln ld lt)) s3))
                  (-1))
        as (s' & Hrun & Hv' & Ht' & Hh'); [done..|].
      revert Hrun. mrun. intros ->.
      exists (-1), s'. split; [done|]. split; [done|]. split; [done|].
      intros _. split; [done|]. rewrite Ht'. cbn.
      by rewrite Ht03, <- app_assoc.
  - destruct (Hrel s3 (-1)) as (s' & Hrun & Hv' & Ht' & Hh'); [done..|].
    revert Hrun. mrun. intros ->.
    exists (-1), s'. split; [done|]. split; [done|]. split; [done|].
    intros _. split; [done|]. by rewrite Ht'.
Qed.

End RationalPoly.

Lemma X18_witness :
  exists r s',
    Java_com_sri_yices_Yices_rationalPoly demo_lib 2%nat 1%nat 3%nat
        poly_state = Done r s' /\
    views s' = views poly_state /\
    heap s' = heap poly_state /\
    (views_granted poly_state = true ->
     r = or_minus_one (yices_poly_rational64 demo_lib [7; -2] [3; 5] [40; 41])
     /\
     trace s' = trace poly_state
                  ++ Native (Call_poly_rational64 [7; -2] [3; 5] [40; 41])
                  :: raised (yices_poly_rational64 demo_lib
                               [7; -2] [3; 5] [40; 41])).
Proof.
  apply (X18_rational_poly_forwards demo_lib poly_state 2%nat 1%nat 3%nat
           [7; -2] [3; 5] [40; 41]); reflexivity.
Defined.
